(** * get-llm-chat: conversation extraction and export, embedded in Rocq

    Shallow embedding of
    - [api/parse-conversation.ts]   (module [Api]),
    - [src/services/chatgptParser.ts] (module [ChatGPTParser]),
    - [src/utils/validators.ts] and [src/utils/constants.ts] (module [Validators]),
    - [src/types/conversation.ts] (module [Types]),
    - [src/services/exportGenerators.ts] (module [Generators]).

    Strings are sequences of 8-bit code units ([string]); the JavaScript
    string primitives and the regular expressions the sources use are
    written out in [JsString].  The DOM tree and the query functions of the
    cheerio library are modelled in [Dom].  [uuidv4()] and [new Date()] are
    reads of an explicit [World]; [fetch], [cheerio.load], [new URL], date
    parsing and date formatting are collaborators gathered in a [Runtime]
    record.  [JSON.stringify] and [JSON.parse] are modelled in [Json]
    through the document tree that a JSON text denotes.  The handler of
    the API is embedded on the requests its client sends ([Api]) and on a
    body of any shape ([ApiRaw]). *)

From Stdlib Require Import String Ascii List Bool Arith Lia ZArith DecimalString.
From Stdlib Require Import Floats.SpecFloat.
Import ListNotations.
Open Scope list_scope.
Open Scope string_scope.
Open Scope nat_scope.

Set Implicit Arguments.

(* ===================================================================== *)
(** * JavaScript string primitives *)
(* ===================================================================== *)

Module JsString.

(** The double quote and the line feed, as one-character strings. *)
Definition dquote : ascii := ascii_of_nat 34.
Definition LF : ascii := ascii_of_nat 10.
Definition DQ : string := String dquote "".
Definition NL : string := String LF "".

(** [\s] of a regular expression and the characters [trim()] removes:
    TAB, LF, VT, FF, CR, SPACE and NO-BREAK SPACE. *)
Definition isSpace (c : ascii) : bool :=
  let n := nat_of_ascii c in
  ((9 <=? n) && (n <=? 13)) || (n =? 32) || (n =? 160).

(** [\w] of a regular expression: [A-Za-z0-9_]. *)
Definition isWord (c : ascii) : bool :=
  let n := nat_of_ascii c in
  ((65 <=? n) && (n <=? 90)) || ((97 <=? n) && (n <=? 122))
  || ((48 <=? n) && (n <=? 57)) || (n =? 95).

(** A string in a condition: only the empty string is falsy. *)
Definition truthy (s : string) : bool :=
  match s with EmptyString => false | String _ _ => true end.

Fixpoint trimStart (s : string) : string :=
  match s with
  | EmptyString => EmptyString
  | String c r => if isSpace c then trimStart r else s
  end.

Fixpoint trimEnd (s : string) : string :=
  match s with
  | EmptyString => EmptyString
  | String c r =>
      match trimEnd r with
      | EmptyString => if isSpace c then EmptyString else String c EmptyString
      | r' => String c r'
      end
  end.

(** [s.trim()] *)
Definition trim (s : string) : string := trimEnd (trimStart s).

(** [s.includes(needle)] *)
Fixpoint includes (s needle : string) : bool :=
  String.prefix needle s
  || match s with
     | EmptyString => false
     | String _ r => includes r needle
     end.

(** [s.toLowerCase()] on code units below 256, where it maps one code unit
    to one.  On other text it need not keep the number of code units (the
    capital I with a dot, U+0130, becomes two), so that no length is
    carried over a change of case below: a length is taken of the very
    string of which the code takes it. *)
Definition lowerChar (c : ascii) : ascii :=
  let n := nat_of_ascii c in
  if ((65 <=? n) && (n <=? 90))
     || ((192 <=? n) && (n <=? 222) && negb (n =? 215))
  then ascii_of_nat (n + 32) else c.

Fixpoint toLowerCase (s : string) : string :=
  match s with
  | EmptyString => EmptyString
  | String c r => String (lowerChar c) (toLowerCase r)
  end.

(** Remove [p] from the front of [s], when it is there. *)
Fixpoint dropPrefix (p s : string) : option string :=
  match p, s with
  | EmptyString, _ => Some s
  | String a p', String b s' =>
      if Ascii.eqb a b then dropPrefix p' s' else None
  | String _ _, EmptyString => None
  end.

(** The same, comparing letters case-insensitively (flag [i]). *)
Fixpoint dropPrefixCI (p s : string) : option string :=
  match p, s with
  | EmptyString, _ => Some s
  | String a p', String b s' =>
      if Ascii.eqb (lowerChar a) (lowerChar b) then dropPrefixCI p' s' else None
  | String _ _, EmptyString => None
  end.

(** The longest prefix of [s] made of characters satisfying [p], and the rest. *)
Fixpoint span (p : ascii -> bool) (s : string) : string * string :=
  match s with
  | EmptyString => (EmptyString, EmptyString)
  | String c r =>
      if p c then let (a, b) := span p r in (String c a, b)
      else (EmptyString, s)
  end.

(** [s.replace(/\s+/g, ' ')]: every maximal run of white space becomes
    one space.  [inRun] tells that the previous character was white space. *)
Fixpoint collapseFrom (inRun : bool) (s : string) : string :=
  match s with
  | EmptyString => EmptyString
  | String c r =>
      if isSpace c
      then if inRun then collapseFrom true r else String " " (collapseFrom true r)
      else String c (collapseFrom false r)
  end.

Definition collapseSpaces (s : string) : string := collapseFrom false s.

(** The part of [s] after the last line feed of its leading white-space
    run, when that run holds a line feed. *)
Fixpoint afterLastLF (s : string) : option string :=
  match s with
  | EmptyString => None
  | String c r =>
      if isSpace c then
        match afterLastLF r with
        | Some rest => Some rest
        | None => if Ascii.eqb c LF then Some r else None
        end
      else None
  end.

(** [s.replace(/\n\s*\n/g, '\n\n')]: a line feed, white space, and the last
    line feed of that white space become two line feeds. *)
Fixpoint blankLinesFuel (fuel : nat) (s : string) : string :=
  match fuel with
  | O => s
  | S fuel' =>
      match s with
      | EmptyString => EmptyString
      | String c r =>
          if Ascii.eqb c LF then
            match afterLastLF r with
            | Some rest => String LF (String LF (blankLinesFuel fuel' rest))
            | None => String c (blankLinesFuel fuel' r)
            end
          else String c (blankLinesFuel fuel' r)
      end
  end.

Definition blankLines (s : string) : string :=
  blankLinesFuel (String.length s) s.

(** [title.replace(/^ChatGPT\s*[-|]\s*/, '')] *)
Definition stripChatGPTPrefix (s : string) : string :=
  match dropPrefix "ChatGPT" s with
  | None => s
  | Some r =>
      match trimStart r with
      | String c r' =>
          if Ascii.eqb c "-"%char || Ascii.eqb c "|"%char then trimStart r' else s
      | EmptyString => s
      end
  end.

(** [s.match(/<key>(\w+)/)?.[1]]: the word after the first place where
    [key] is followed by a word character. *)
Fixpoint matchWordAfter (key s : string) : option string :=
  match
    match dropPrefix key s with
    | Some r =>
        match span isWord r with
        | (EmptyString, _) => None
        | (w, _) => Some w
        end
    | None => None
    end
  with
  | Some w => Some w
  | None =>
      match s with
      | EmptyString => None
      | String _ r => matchWordAfter key r
      end
  end.

(** [s.replace(/c/g, by)] for a one-character pattern [c], as the
    left-to-right scan that [String.prototype.replace] performs. *)
Fixpoint replaceAllChar (c : ascii) (by_ : string) (s : string) : string :=
  match s with
  | EmptyString => EmptyString
  | String a r =>
      if Ascii.eqb a c then by_ ++ replaceAllChar c by_ r
      else String a (replaceAllChar c by_ r)
  end.

(** [parts.join(sep)] *)
Fixpoint join (sep : string) (parts : list string) : string :=
  match parts with
  | [] => EmptyString
  | [p] => p
  | p :: rest => p ++ sep ++ join sep rest
  end.

(** Split at white space, dropping empty pieces (class-attribute tokens). *)
Fixpoint tokensFrom (cur : string) (s : string) : list string :=
  match s with
  | EmptyString => if truthy cur then [cur] else []
  | String c r =>
      if isSpace c
      then ((if truthy cur then [cur] else []) ++ tokensFrom EmptyString r)%list
      else tokensFrom (cur ++ String c EmptyString) r
  end.

Definition tokens (s : string) : list string := tokensFrom EmptyString s.

End JsString.

(* ===================================================================== *)
(** * The DOM tree and the cheerio queries the parsers use *)
(* ===================================================================== *)

Module Dom.
Import JsString.

(** What [cheerio.load] builds: text, comments and elements.  Tag and
    attribute names are in lower case, as the HTML parser leaves them. *)
#[warning="-register-all"] Inductive node : Type :=
| Text (data : string)
| Comment (data : string)
| Element (tag : string) (attrs : list (string * string)) (children : list node).

(** A document is the list of the children of its root. *)
Definition document := list node.

(** An element of a selection: the node with its ancestors, nearest first. *)
Record elem : Type := { self : node; parents : list node }.

Definition attrsOf (n : node) : list (string * string) :=
  match n with Element _ a _ => a | _ => [] end.

Definition childrenOf (n : node) : list node :=
  match n with Element _ _ c => c | _ => [] end.

Fixpoint lookupAttr (name : string) (attrs : list (string * string)) : option string :=
  match attrs with
  | [] => None
  | (k, v) :: rest => if String.eqb k name then Some v else lookupAttr name rest
  end.

(** [$el.attr(name)]; [None] is [undefined]. *)
Definition attr (e : elem) (name : string) : option string :=
  lookupAttr name (attrsOf (self e)).

(** [v === s] for an attribute value. *)
Definition strictEq (v : option string) (s : string) : bool :=
  match v with Some x => String.eqb x s | None => false end.

(** [x || ''] for an attribute value: [undefined] and the empty string
    both give the empty string. *)
Definition orEmpty (v : option string) : string :=
  match v with Some s => s | None => EmptyString end.

(** [textContent]: the text nodes below, in document order. *)
Fixpoint textOf (n : node) : string :=
  match n with
  | Text d => d
  | Comment _ => EmptyString
  | Element _ _ ch =>
      (fix go (l : list node) : string :=
         match l with
         | [] => EmptyString
         | c :: l' => textOf c ++ go l'
         end) ch
  end.

(** [$el.text()] *)
Definition elemText (e : elem) : string := textOf (self e).

Definition classesOf (n : node) : list string :=
  tokens (orEmpty (lookupAttr "class" (attrsOf n))).

Definition memStr (s : string) (l : list string) : bool :=
  existsb (String.eqb s) l.

(** [$el.hasClass(c)] *)
Definition hasClass (e : elem) (c : string) : bool :=
  memStr c (classesOf (self e)).

(** ** Selectors *)

Inductive attrTest : Type :=
| HasAttr (name : string)                 (* [name]        *)
| AttrEq (name value : string).           (* [name=value]  *)

(** A compound selector: [tag.class1.class2[attr]...]. *)
Record compound : Type := {
  selTag : option string;
  selClasses : list string;
  selAttrs : list attrTest
}.

(** A descendant chain [a b c], written innermost first: [c; b; a]. *)
Definition complex := list compound.

(** A selector list [s1, s2, ...]. *)
Definition selector := list complex.

Definition testAttr (n : node) (t : attrTest) : bool :=
  match t with
  | HasAttr name =>
      match lookupAttr name (attrsOf n) with Some _ => true | None => false end
  | AttrEq name v =>
      match lookupAttr name (attrsOf n) with
      | Some v' => String.eqb v' v
      | None => false
      end
  end.

Definition matchCompound (c : compound) (n : node) : bool :=
  match n with
  | Element t _ _ =>
      match selTag c with Some t' => String.eqb t t' | None => true end
      && forallb (fun k => memStr k (classesOf n)) (selClasses c)
      && forallb (testAttr n) (selAttrs c)
  | _ => false
  end.

(** The outer part of a chain is looked for among the ancestors, from the
    nearest one outwards. *)
Fixpoint ancestorsMatch (chain : complex) (anc : list node) {struct anc} : bool :=
  match chain with
  | [] => true
  | c :: cs =>
      match anc with
      | [] => false
      | a :: anc' =>
          if matchCompound c a then ancestorsMatch cs anc'
          else ancestorsMatch chain anc'
      end
  end.

Definition matchComplex (chain : complex) (anc : list node) (n : node) : bool :=
  match chain with
  | [] => false
  | c :: cs => matchCompound c n && ancestorsMatch cs anc
  end.

Definition matchSelector (sel : selector) (anc : list node) (n : node) : bool :=
  existsb (fun chain => matchComplex chain anc n) sel.

(** The elements below (and including) [n] that match, in document order.
    [scope] are the ancestors of [n] among which the outer part of a chain
    is looked for, [outer] the ancestors beyond them. *)
Fixpoint selectIn (sel : selector) (scope outer : list node) (n : node) : list elem :=
  match n with
  | Element _ _ ch =>
      ((if matchSelector sel scope n
        then [ {| self := n; parents := (scope ++ outer)%list |} ] else [])
       ++ (fix go (l : list node) : list elem :=
             match l with
             | [] => []
             | c :: l' => (selectIn sel (n :: scope) outer c ++ go l')%list
             end) ch)%list
  | _ => []
  end.

(** [$(selector)] on a loaded document. *)
Definition query (doc : document) (sel : selector) : list elem :=
  flat_map (selectIn sel [] []) doc.

(** [$el.find(selector)]: the matching descendants of [e].  The selector
    is rooted at [e]: the outermost part of a chain is looked for among the
    ancestors of the candidate up to [e], and may be [e] itself (with
    [$pre.find('pre code')] the [pre] searched from counts), but is never
    above [e]. *)
Definition find (e : elem) (sel : selector) : list elem :=
  flat_map (selectIn sel [self e] (parents e)) (childrenOf (self e)).

(** [$el.parent()]; the parent of a top-level element is the document
    root, which carries no attribute. *)
Definition parent (e : elem) : option elem :=
  match parents e with
  | p :: ps => Some {| self := p; parents := ps |}
  | [] => None
  end.

(** [sel.first()] *)
Definition first (l : list elem) : option elem :=
  match l with e :: _ => Some e | [] => None end.

(** ** Serialization, for [$el.html()] *)

Fixpoint escapeText (s : string) : string :=
  match s with
  | EmptyString => EmptyString
  | String c r =>
      (if Ascii.eqb c "&"%char then "&amp;"
       else if Ascii.eqb c "<"%char then "&lt;"
       else if Ascii.eqb c ">"%char then "&gt;"
       else if Nat.eqb (nat_of_ascii c) 160 then "&nbsp;"
       else String c EmptyString) ++ escapeText r
  end.

Fixpoint escapeAttr (s : string) : string :=
  match s with
  | EmptyString => EmptyString
  | String c r =>
      (if Ascii.eqb c "&"%char then "&amp;"
       else if Ascii.eqb c dquote then "&quot;"
       else if Nat.eqb (nat_of_ascii c) 160 then "&nbsp;"
       else String c EmptyString) ++ escapeAttr r
  end.

Definition voidTags : list string :=
  ["area"; "base"; "basefont"; "bgsound"; "br"; "col"; "embed"; "frame";
   "hr"; "img"; "input"; "keygen"; "link"; "meta"; "param"; "source";
   "track"; "wbr"].

Definition rawTextTags : list string :=
  ["style"; "script"; "xmp"; "iframe"; "noembed"; "noframes"; "plaintext"].

Fixpoint serializeAttrs (attrs : list (string * string)) : string :=
  match attrs with
  | [] => EmptyString
  | (k, v) :: rest => " " ++ k ++ "=" ++ DQ ++ escapeAttr v ++ DQ ++ serializeAttrs rest
  end.

(** The markup of a node; [raw] tells that the parent keeps text unescaped. *)
Fixpoint outerHTML (raw : bool) (n : node) : string :=
  match n with
  | Text d => if raw then d else escapeText d
  | Comment d => "<!--" ++ d ++ "-->"
  | Element t a ch =>
      "<" ++ t ++ serializeAttrs a ++ ">"
      ++ (if memStr t voidTags then EmptyString
          else (fix go (l : list node) : string :=
                  match l with
                  | [] => EmptyString
                  | c :: l' => outerHTML (memStr t rawTextTags) c ++ go l'
                  end) ch ++ "</" ++ t ++ ">")
  end.

Definition innerHTML (n : node) : string :=
  match n with
  | Element t _ ch =>
      fold_right String.append EmptyString (map (outerHTML (memStr t rawTextTags)) ch)
  | _ => EmptyString
  end.

(** [$el.html()] *)
Definition elemHtml (e : elem) : string := innerHTML (self e).

(** ** The selectors that occur in the sources *)

Definition byTag (t : string) : compound :=
  {| selTag := Some t; selClasses := []; selAttrs := [] |}.
Definition byClass (c : string) : compound :=
  {| selTag := None; selClasses := [c]; selAttrs := [] |}.
Definition byAttr (a : string) : compound :=
  {| selTag := None; selClasses := []; selAttrs := [HasAttr a] |}.
Definition byAttrEq (a v : string) : compound :=
  {| selTag := None; selClasses := []; selAttrs := [AttrEq a v] |}.
Definition tagAttr (t a : string) : compound :=
  {| selTag := Some t; selClasses := []; selAttrs := [HasAttr a] |}.
Definition tagAttrEq (t a v : string) : compound :=
  {| selTag := Some t; selClasses := []; selAttrs := [AttrEq a v] |}.

(** One compound selector, as a selector list. *)
Definition one (c : compound) : selector := [[c]].

End Dom.

(* ===================================================================== *)
(** * The data model ([src/types/conversation.ts]) *)
(* ===================================================================== *)

Inductive Platform : Type := chatgpt | claude | gemini | perplexity.

Inductive MessageRole : Type := user | assistant | system.

Inductive ArtifactType : Type := code | image | file | link.

(** A [Date], identified by its ISO-8601 rendering ([toISOString]). *)
Record Date : Type := { toISOString : string }.

(** A thrown [Error] carries its message. *)
Inductive result (A : Type) : Type :=
| Ok (a : A)
| Throw (message : string).
Arguments Ok {A} a.
Arguments Throw {A} message.

(** ** Sources of identifiers and of time

    [uuidv4()] and [new Date()] read the next element of two streams the
    world provides; the counters record how many were consumed. *)
Record World : Type := {
  uuids : nat -> string;
  clock : nat -> Date;
  uuidsDrawn : nat;
  clockReads : nat
}.

Definition uuidv4 (w : World) : string * World :=
  (uuids w (uuidsDrawn w),
   {| uuids := uuids w; clock := clock w;
      uuidsDrawn := S (uuidsDrawn w); clockReads := clockReads w |}).

Definition newDate (w : World) : Date * World :=
  (clock w (clockReads w),
   {| uuids := uuids w; clock := clock w;
      uuidsDrawn := uuidsDrawn w; clockReads := S (clockReads w) |}).

(** What [fetch(url)] comes back with. *)
Inductive FetchOutcome : Type :=
| NetworkError (message : string)
| Response (ok : bool) (status : nat) (statusText : string) (body : string).

(** The collaborators outside of the repository. *)
Record Runtime : Type := {
  cheerio_load : string -> Dom.document;      (* cheerio.load(html)             *)
  fetch : string -> FetchOutcome;             (* fetch(url, {headers})          *)
  URL_parses : string -> bool;                (* new URL(s) does not throw      *)
  Date_parse : string -> option Date;         (* new Date(s), None when invalid *)
  format : Date -> string -> string           (* date-fns format(date, pattern) *)
}.

(** A number inside a template string. *)
Definition showNat (n : nat) : string := NilZero.string_of_uint (Nat.to_uint n).

(* ===================================================================== *)
(** * [api/parse-conversation.ts] *)
(* ===================================================================== *)

Module Api.
Import JsString Dom.

(** The interfaces the file declares: every time stamp is an ISO string. *)
Record Artifact : Type := {
  a_type : ArtifactType;
  a_content : string;
  a_language : option string       (* [None] is [undefined] *)
}.

Record FormattingInfo : Type := {
  isMarkdown : bool;
  hasCodeBlocks : bool;
  hasLinks : bool;
  hasImages : bool
}.

Record MessageContent : Type := {
  text : string;
  artifacts : option (list Artifact);
  formatting : FormattingInfo
}.

Record MessageMetadata : Type := { mm_timestamp : string }.

Record Message : Type := {
  m_id : string;
  m_role : MessageRole;
  m_content : MessageContent;
  m_timestamp : string;
  m_metadata : MessageMetadata
}.

Record ConversationMetadata : Type := {
  cm_platform : string;
  cm_extractedAt : string;
  cm_messageCount : nat;
  cm_title : string;
  cm_url : option string
}.

Record Conversation : Type := {
  c_id : string;
  c_title : string;
  c_platform : string;
  c_createdAt : string;
  c_updatedAt : string;
  c_messages : list Message;
  c_metadata : ConversationMetadata
}.

(** ** extractTitle *)

Definition ogTitle : string := "meta[property=" ++ DQ ++ "og:title" ++ DQ ++ "]".

Definition titleSelectors : list (string * selector) :=
  [ ("title", one (byTag "title"));
    ("h1", one (byTag "h1"));
    ("[data-testid=" ++ DQ ++ "conversation-title" ++ DQ ++ "]",
       one (byAttrEq "data-testid" "conversation-title"));
    (".conversation-title", one (byClass "conversation-title"));
    (ogTitle, one (tagAttrEq "meta" "property" "og:title")) ].

Definition defaultTitle : string := "ChatGPT Conversation".

Fixpoint extractTitleFrom (doc : document) (sels : list (string * selector)) : string :=
  match sels with
  | [] => defaultTitle
  | (name, sel) :: rest =>
      match first (query doc sel) with
      | Some element =>
          let title :=
            if String.eqb name ogTitle
            then orEmpty (attr element "content")
            else trim (elemText element) in
          if truthy title && negb (String.eqb title "ChatGPT") then
            let title' := trim (stripChatGPTPrefix title) in
            if 0 <? String.length title' then title'
            else extractTitleFrom doc rest
          else extractTitleFrom doc rest
      | None => extractTitleFrom doc rest
      end
  end.

Definition extractTitle (doc : document) : string :=
  extractTitleFrom doc titleSelectors.

(** ** extractMessageRole *)

Definition roleAttrName : string := "data-message-author-role".

(** Below this many characters a container without a role counts as short. *)
Definition roleLengthThreshold : nat := 50.

Definition extractMessageRole (e : elem) : MessageRole :=
  let roleAttr := attr e roleAttrName in
  if strictEq roleAttr "user" then user
  else if strictEq roleAttr "assistant" then assistant
  else if strictEq roleAttr "system" then system
  else
    let elementText := toLowerCase (elemText e) in
    let elementHtml := toLowerCase (elemHtml e) in
    if (String.length elementText <? roleLengthThreshold)
       && negb (includes elementHtml "code")
    then user else assistant.

(** ** detectLanguageFromContent *)

Definition detectLanguageFromContent (content : string) : option string :=
  if includes content "import " && includes content "from " then Some "javascript"
  else if includes content "def " && includes content ":" then Some "python"
  else if includes content "function " && includes content "{" then Some "javascript"
  else if includes content "class " && includes content "{" then Some "java"
  else if includes content "<?php" then Some "php"
  else if includes content "#include" then Some "cpp"
  else if includes content "SELECT " || includes content "FROM " then Some "sql"
  else None.

(** ** extractMessageContent *)

(** [text.replace(/\s+/g, ' ').replace(/\n\s*\n/g, '\n\n').trim()] *)
Definition cleanText (t : string) : string :=
  trim (blankLines (collapseSpaces t)).

Definition codeOrPre : selector := [[byTag "code"]; [byTag "pre"]].

(** The language of a code element, from its class or from its content. *)
Definition languageOf (className codeContent : string) : option string :=
  match matchWordAfter "language-" className with
  | Some w => Some w
  | None =>
      match matchWordAfter "lang-" className with
      | Some w => Some w
      | None => detectLanguageFromContent codeContent
      end
  end.

(** The minimal length of a code artifact: longer than this is kept. *)
Definition artifactThreshold : nat := 10.

(** The body of the [each] over the code elements: the artifacts it pushes. *)
Definition codeArtifact (c : elem) : list Artifact :=
  let codeContent := trim (elemText c) in
  if truthy codeContent && (artifactThreshold <? String.length codeContent)
  then [ {| a_type := code;
            a_content := codeContent;
            a_language := languageOf (orEmpty (attr c "class")) codeContent |} ]
  else [].

Definition extractMessageContent (e : elem) : MessageContent :=
  let text0 := trim (elemText e) in
  let text1 := cleanText text0 in
  let hasCode := negb (Nat.eqb (List.length (find e codeOrPre)) 0) in
  let hasA := negb (Nat.eqb (List.length (find e (one (byTag "a")))) 0) in
  let hasImg := negb (Nat.eqb (List.length (find e (one (byTag "img")))) 0) in
  let arts :=
    if hasCode then flat_map codeArtifact (find e (one (byTag "code"))) else [] in
  {| text := text1;
     artifacts := match arts with [] => None | _ => Some arts end;
     formatting := {| isMarkdown := true; hasCodeBlocks := hasCode;
                      hasLinks := hasA; hasImages := hasImg |} |}.

(** ** extractMessages *)

Definition messageSelectors : list selector :=
  [ one (byAttr roleAttrName);
    one (byClass "conversation-turn");
    one (byAttrEq "role" "presentation");
    one (byClass "group") ].

(** The elements of the first selector that finds any. *)
Fixpoint firstMatching (doc : document) (sels : list selector) : list elem :=
  match sels with
  | [] => []
  | sel :: rest =>
      match query doc sel with
      | [] => firstMatching doc rest
      | found => found
      end
  end.

Definition messageElements (doc : document) : list elem :=
  firstMatching doc messageSelectors.

(** The [each] over the message elements.  Nothing in the body can throw
    in this model, so the [catch] branch is never taken. *)
Fixpoint eachMessage (els : list elem) (messages : list Message) (w : World)
  : list Message * World :=
  match els with
  | [] => (messages, w)
  | e :: rest =>
      let role := extractMessageRole e in
      let content := extractMessageContent e in
      if truthy (trim (text content)) then
        let (now, w1) := newDate w in
        let timestamp := toISOString now in
        let (id, w2) := uuidv4 w1 in
        eachMessage rest
          (messages ++ [ {| m_id := id; m_role := role; m_content := content;
                            m_timestamp := timestamp;
                            m_metadata := {| mm_timestamp := timestamp |} |} ])%list
          w2
      else eachMessage rest messages w
  end.

Definition extractMessages (doc : document) (w : World) : list Message * World :=
  eachMessage (messageElements doc) [] w.

(** ** parseConversationFromHtml *)

Definition noMessages : string :=
  "No messages found in the conversation. The page may be private or the structure has changed.".

Definition parseConversationFromHtml (rt : Runtime) (html : string)
    (originalUrl : string) (w : World) : result Conversation * World :=
  let doc := cheerio_load rt html in
  let title := extractTitle doc in
  let (messages, w1) := extractMessages doc w in
  if Nat.eqb (List.length messages) 0 then (Throw noMessages, w1)
  else
    let (d, w2) := newDate w1 in
    let now := toISOString d in
    let (conversationId, w3) := uuidv4 w2 in
    (Ok {| c_id := conversationId;
           c_title := title;
           c_platform := "chatgpt";
           c_createdAt := now;
           c_updatedAt := now;
           c_messages := messages;
           c_metadata := {| cm_platform := "chatgpt";
                            cm_extractedAt := now;
                            cm_messageCount := List.length messages;
                            cm_title := title;
                            cm_url := Some originalUrl |} |}, w3).

(** ** handler

    The reply is its status and its JSON body; the CORS headers, the same
    on every reply, and the console output are left out. *)

(** The requests whose body is an object with a [url] that is a string or
    is missing, as the client of the repository sends them
    ([JSON.stringify({ url })] in [apiService.ts]).  The handler on a body
    of any shape is [ApiRaw.handler], which is this one on these requests. *)
Record Request : Type := {
  method : string;
  body_url : option string        (* req.body.url; [None] is [undefined] *)
}.

Inductive ResponseBody : Type :=
| NoBody
| ErrorBody (error : string)
| SuccessBody (conversation : Conversation).

Record HttpResponse : Type := { status : nat; body : ResponseBody }.

(** What one call of the handler does: the reply, the URLs it fetched (in
    order), and the world afterwards. *)
Record Handled : Type := {
  reply : HttpResponse;
  fetched : list string;
  after : World
}.

Definition failed (message : string) : HttpResponse :=
  {| status := 500; body := ErrorBody ("Failed to parse conversation: " ++ message) |}.

Definition handler (rt : Runtime) (req : Request) (w : World) : Handled :=
  if String.eqb (method req) "OPTIONS" then
    {| reply := {| status := 200; body := NoBody |}; fetched := []; after := w |}
  else if negb (String.eqb (method req) "POST") then
    {| reply := {| status := 405; body := ErrorBody "Method not allowed" |};
       fetched := []; after := w |}
  else
    match body_url req with
    | None =>
        {| reply := {| status := 400; body := ErrorBody "URL is required" |};
           fetched := []; after := w |}
    | Some url =>
        if negb (truthy url) then
          {| reply := {| status := 400; body := ErrorBody "URL is required" |};
             fetched := []; after := w |}
        else if negb (includes url "chatgpt.com") && negb (includes url "chat.openai.com") then
          {| reply := {| status := 400;
                         body := ErrorBody "Invalid URL. Please provide a ChatGPT conversation URL." |};
             fetched := []; after := w |}
        else
          match fetch rt url with
          | NetworkError message =>
              {| reply := failed message; fetched := [url]; after := w |}
          | Response ok st stText html =>
              if negb ok then
                {| reply := failed ("Failed to fetch: " ++ showNat st ++ " " ++ stText);
                   fetched := [url]; after := w |}
              else
                match parseConversationFromHtml rt html url w with
                | (Ok conversation, w') =>
                    {| reply := {| status := 200; body := SuccessBody conversation |};
                       fetched := [url]; after := w' |}
                | (Throw message, w') =>
                    {| reply := failed message; fetched := [url]; after := w' |}
                end
          end
    end.

End Api.

(* ===================================================================== *)
(** * JavaScript values and JSON *)
(* ===================================================================== *)

Module Json.

(** The values a [Conversation] object is made of.  An object is the list
    of its own properties in insertion order, with distinct keys; numbers
    are the integers the data model uses. *)
#[warning="-register-all"] Inductive jsval : Type :=
| VUndefined
| VNull
| VBool (b : bool)
| VNum (n : Z)
| VStr (s : string)
| VDate (d : Date)
| VArr (items : list jsval)
| VObj (fields : list (string * jsval)).

(** A JSON document, as the tree its text denotes. *)
#[warning="-register-all"] Inductive json : Type :=
| JNull
| JBool (b : bool)
| JNum (n : Z)
| JStr (s : string)
| JArr (items : list json)
| JObj (fields : list (string * json)).

(** [JSON.stringify]: [undefined] has no JSON text ([None]); a [Date]
    answers [toJSON] with its ISO string; inside an array [undefined]
    becomes [null]; a property whose value is [undefined] is left out. *)
Fixpoint stringifyValue (v : jsval) : option json :=
  match v with
  | VUndefined => None
  | VNull => Some JNull
  | VBool b => Some (JBool b)
  | VNum n => Some (JNum n)
  | VStr s => Some (JStr s)
  | VDate d => Some (JStr (toISOString d))
  | VArr items =>
      Some (JArr ((fix go (l : list jsval) : list json :=
                     match l with
                     | [] => []
                     | x :: l' =>
                         match stringifyValue x with
                         | Some j => j :: go l'
                         | None => JNull :: go l'
                         end
                     end) items))
  | VObj fields =>
      Some (JObj ((fix go (l : list (string * jsval)) : list (string * json) :=
                     match l with
                     | [] => []
                     | (k, x) :: l' =>
                         match stringifyValue x with
                         | Some j => (k, j) :: go l'
                         | None => go l'
                         end
                     end) fields))
  end.

(** [JSON.stringify(v, null, 2)]; [None] is [undefined]. *)
Definition stringify (v : jsval) : option json := stringifyValue v.

(** [JSON.parse] *)
Fixpoint parse (j : json) : jsval :=
  match j with
  | JNull => VNull
  | JBool b => VBool b
  | JNum n => VNum n
  | JStr s => VStr s
  | JArr items =>
      VArr ((fix go (l : list json) : list jsval :=
               match l with [] => [] | x :: l' => parse x :: go l' end) items)
  | JObj fields =>
      VObj ((fix go (l : list (string * json)) : list (string * jsval) :=
               match l with
               | [] => []
               | (k, x) :: l' => (k, parse x) :: go l'
               end) fields)
  end.

(** [obj[key]]: reading a property; a missing property reads [undefined]. *)
Fixpoint lookupField (key : string) (fields : list (string * jsval)) : jsval :=
  match fields with
  | [] => VUndefined
  | (k, v) :: rest => if String.eqb k key then v else lookupField key rest
  end.

Definition get (v : jsval) (key : string) : jsval :=
  match v with
  | VObj fields => lookupField key fields
  | _ => VUndefined
  end.

(** [{...obj, key: value}]: the property keeps its place when [obj] has
    it, and is added at the end otherwise. *)
Fixpoint spreadSet (fields : list (string * jsval)) (key : string) (value : jsval)
  : list (string * jsval) :=
  match fields with
  | [] => [(key, value)]
  | (k, v) :: rest =>
      if String.eqb k key then (k, value) :: rest
      else (k, v) :: spreadSet rest key value
  end.

End Json.

(* ===================================================================== *)
(** * [src/types/conversation.ts] *)
(* ===================================================================== *)

Module Types.
Import Json.

(** Optional members are [option]s: [None] is [undefined]. *)
Record Artifact : Type := {
  a_type : ArtifactType;
  a_content : string;
  a_language : option string;
  a_filename : option string;
  a_metadata : option (list (string * jsval))     (* Record<string, any> *)
}.

Record FormattingInfo : Type := {
  isMarkdown : option bool;
  hasCodeBlocks : option bool;
  hasImages : option bool;
  hasLinks : option bool
}.

Record MessageContent : Type := {
  text : string;
  artifacts : option (list Artifact);
  formatting : option FormattingInfo
}.

Record MessageMetadata : Type := {
  mm_timestamp : option Date;
  mm_tokens : option Z;
  mm_model : option string;
  mm_edited : option bool;
  mm_regenerated : option bool
}.

Record Message : Type := {
  m_id : string;
  m_role : MessageRole;
  m_content : MessageContent;
  m_timestamp : Date;
  m_metadata : option MessageMetadata
}.

Record ConversationMetadata : Type := {
  cm_platform : Platform;
  cm_extractedAt : Date;
  cm_messageCount : nat;
  cm_title : option string;
  cm_url : option string;
  cm_model : option string;
  cm_totalTokens : option Z;
  cm_createdAt : option Date;
  cm_updatedAt : option Date
}.

Record Conversation : Type := {
  c_id : string;
  c_title : string;
  c_platform : Platform;
  c_createdAt : Date;
  c_updatedAt : Date;
  c_messages : list Message;
  c_metadata : ConversationMetadata
}.

(** The string a member of a union type is at run time. *)
Definition platformName (p : Platform) : string :=
  match p with
  | chatgpt => "chatgpt" | claude => "claude"
  | gemini => "gemini" | perplexity => "perplexity"
  end.

Definition roleName (r : MessageRole) : string :=
  match r with user => "user" | assistant => "assistant" | system => "system" end.

Definition artifactTypeName (t : ArtifactType) : string :=
  match t with code => "code" | image => "image" | file => "file" | link => "link" end.

(** ** The objects behind the records *)

Definition optJS {A : Type} (f : A -> jsval) (o : option A) : jsval :=
  match o with Some a => f a | None => VUndefined end.

Definition artifactJS (a : Artifact) : jsval :=
  VObj [ ("type", VStr (artifactTypeName (a_type a)));
         ("content", VStr (a_content a));
         ("language", optJS VStr (a_language a));
         ("filename", optJS VStr (a_filename a));
         ("metadata", optJS VObj (a_metadata a)) ].

Definition formattingJS (f : FormattingInfo) : jsval :=
  VObj [ ("isMarkdown", optJS VBool (isMarkdown f));
         ("hasCodeBlocks", optJS VBool (hasCodeBlocks f));
         ("hasLinks", optJS VBool (hasLinks f));
         ("hasImages", optJS VBool (hasImages f)) ].

Definition contentJS (c : MessageContent) : jsval :=
  VObj [ ("text", VStr (text c));
         ("artifacts", optJS (fun l => VArr (map artifactJS l)) (artifacts c));
         ("formatting", optJS formattingJS (formatting c)) ].

Definition messageMetadataJS (m : MessageMetadata) : jsval :=
  VObj [ ("timestamp", optJS VDate (mm_timestamp m));
         ("tokens", optJS VNum (mm_tokens m));
         ("model", optJS VStr (mm_model m));
         ("edited", optJS VBool (mm_edited m));
         ("regenerated", optJS VBool (mm_regenerated m)) ].

Definition messageJS (m : Message) : jsval :=
  VObj [ ("id", VStr (m_id m));
         ("role", VStr (roleName (m_role m)));
         ("content", contentJS (m_content m));
         ("timestamp", VDate (m_timestamp m));
         ("metadata", optJS messageMetadataJS (m_metadata m)) ].

Definition metadataJS (m : ConversationMetadata) : jsval :=
  VObj [ ("platform", VStr (platformName (cm_platform m)));
         ("extractedAt", VDate (cm_extractedAt m));
         ("messageCount", VNum (Z.of_nat (cm_messageCount m)));
         ("title", optJS VStr (cm_title m));
         ("url", optJS VStr (cm_url m));
         ("model", optJS VStr (cm_model m));
         ("totalTokens", optJS VNum (cm_totalTokens m));
         ("createdAt", optJS VDate (cm_createdAt m));
         ("updatedAt", optJS VDate (cm_updatedAt m)) ].

Definition conversationFields (c : Conversation) : list (string * jsval) :=
  [ ("id", VStr (c_id c));
    ("title", VStr (c_title c));
    ("platform", VStr (platformName (c_platform c)));
    ("createdAt", VDate (c_createdAt c));
    ("updatedAt", VDate (c_updatedAt c));
    ("messages", VArr (map messageJS (c_messages c)));
    ("metadata", metadataJS (c_metadata c)) ].

Definition conversationJS (c : Conversation) : jsval :=
  VObj (conversationFields c).

End Types.

(* ===================================================================== *)
(** * [src/utils/constants.ts] and [src/utils/validators.ts] *)
(* ===================================================================== *)

Module Validators.
Import JsString.

(** A platform pattern [/^<prefix>([<class>]+)$/i]: a fixed prefix, then a
    non-empty identifier made of the characters of a class, up to the end
    of the input; letters compare case-insensitively. *)
Record Pattern : Type := {
  prefix : string;
  idChar : ascii -> bool
}.

Definition isDigit (c : ascii) : bool :=
  let n := nat_of_ascii c in (48 <=? n) && (n <=? 57).

Definition isLowerAF (c : ascii) : bool :=
  let n := nat_of_ascii c in (97 <=? n) && (n <=? 102).

Definition isAsciiLetter (c : ascii) : bool :=
  let n := nat_of_ascii c in
  ((65 <=? n) && (n <=? 90)) || ((97 <=? n) && (n <=? 122)).

(** [[a-f0-9-]] under the flag [i] *)
Definition hexDash (c : ascii) : bool :=
  isLowerAF (lowerChar c) || isDigit c || Ascii.eqb c "-"%char.

(** [[a-f0-9]] under the flag [i] *)
Definition hexOnly (c : ascii) : bool :=
  isLowerAF (lowerChar c) || isDigit c.

(** [[a-zA-Z0-9_-]] *)
Definition slugChar (c : ascii) : bool :=
  isAsciiLetter c || isDigit c || Ascii.eqb c "_"%char || Ascii.eqb c "-"%char.

Fixpoint allChars (p : ascii -> bool) (s : string) : bool :=
  match s with
  | EmptyString => true
  | String c r => p c && allChars p r
  end.

(** [s.match(pattern)]: the captured identifier, [match[1]]. *)
Definition matchPattern (p : Pattern) (s : string) : option string :=
  match dropPrefixCI (prefix p) s with
  | Some id => if truthy id && allChars (idChar p) id then Some id else None
  | None => None
  end.

Record PlatformConfig : Type := {
  name : string;
  pattern : Pattern;
  baseUrl : string
}.

(** [PLATFORMS], in the order of its properties. *)
Definition PLATFORMS : list (Platform * PlatformConfig) :=
  [ (chatgpt,
     {| name := "ChatGPT";
        pattern := {| prefix := "https://chatgpt.com/share/"; idChar := hexDash |};
        baseUrl := "https://chatgpt.com" |});
    (claude,
     {| name := "Claude";
        pattern := {| prefix := "https://claude.ai/share/"; idChar := hexDash |};
        baseUrl := "https://claude.ai" |});
    (gemini,
     {| name := "Gemini";
        pattern := {| prefix := "https://gemini.google.com/share/"; idChar := hexOnly |};
        baseUrl := "https://gemini.google.com" |});
    (perplexity,
     {| name := "Perplexity";
        pattern := {| prefix := "https://www.perplexity.ai/search/"; idChar := slugChar |};
        baseUrl := "https://www.perplexity.ai" |}) ].

(** [ERROR_MESSAGES] *)
Definition INVALID_URL : string := "Please enter a valid shared chat URL".
Definition UNSUPPORTED_PLATFORM : string := "This platform is not yet supported".

Record URLValidationResult : Type := {
  isValid : bool;
  platform : option Platform;
  chatId : option string;
  error : option string;
  suggestions : option (list string)
}.

(** The loop over [Object.entries(PLATFORMS)]: the first pattern that matches. *)
Fixpoint firstPlatform (entries : list (Platform * PlatformConfig)) (url : string)
  : option (Platform * string) :=
  match entries with
  | [] => None
  | (p, config) :: rest =>
      match matchPattern (pattern config) url with
      | Some id => Some (p, id)
      | None => firstPlatform rest url
      end
  end.

Definition supportedPlatforms : string :=
  join ", " (map (fun e => name (snd e)) PLATFORMS).

Definition invalid (suggest : option (list string)) : URLValidationResult :=
  {| isValid := false; platform := None; chatId := None;
     error := Some INVALID_URL; suggestions := suggest |}.

Definition validateChatURL (rt : Runtime) (url : string) : URLValidationResult :=
  if negb (truthy url) then invalid None
  else
    let trimmedUrl := trim url in
    if negb (truthy trimmedUrl) then invalid None
    else if negb (URL_parses rt trimmedUrl) then
      invalid (Some [ "Make sure the URL starts with https://";
                      "Check that the URL is complete and properly formatted" ])
    else
      match firstPlatform PLATFORMS trimmedUrl with
      | Some (p, id) =>
          {| isValid := true; platform := Some p; chatId := Some id;
             error := None; suggestions := None |}
      | None =>
          {| isValid := false; platform := None; chatId := None;
             error := Some UNSUPPORTED_PLATFORM;
             suggestions :=
               Some [ "Supported platforms: " ++ supportedPlatforms;
                      "Make sure you're using a shared chat link";
                      "Check that the URL format matches the platform's sharing format" ] |}
      end.

(** [validation.platform || null] *)
Definition detectPlatform (rt : Runtime) (url : string) : option Platform :=
  platform (validateChatURL rt url).

(** [validation.chatId || null]; an identifier is never empty. *)
Definition extractChatId (rt : Runtime) (url : string) : option string :=
  chatId (validateChatURL rt url).

(** [PARSING_SELECTORS.chatgpt.messages] *)
Definition chatgptMessages : Dom.selector :=
  Dom.one (Dom.byAttr "data-message-author-role").

End Validators.

(* ===================================================================== *)
(** * [src/services/chatgptParser.ts] *)
(* ===================================================================== *)

Module ChatGPTParser.
Import JsString Dom Types.

Definition defaultTitle : string := "ChatGPT Conversation".

(** extractTitle: the same five selectors and the same cleaning as the
    handler of the API. *)
Definition extractTitle (doc : document) : string :=
  Api.extractTitleFrom doc Api.titleSelectors.

(** ** extractMessageRole *)

Definition hasMarker (e : elem) (c : string) : bool :=
  hasClass e c || negb (Nat.eqb (List.length (find e (one (byClass c)))) 0).

Definition extractMessageRole (e : elem) : MessageRole :=
  let roleAttr := attr e "data-message-author-role" in
  if strictEq roleAttr "user" then user
  else if strictEq roleAttr "assistant" then assistant
  else if strictEq roleAttr "system" then system
  else if hasMarker e "user-message" then user
  else if hasMarker e "assistant-message" then assistant
  else assistant.

(** ** cleanTextContent *)

Definition cleanTextContent (t : string) : string :=
  trim (blankLines (collapseSpaces t)).

(** ** detectCodeLanguage *)

Definition languagePatterns : list string := ["language-"; "lang-"; "highlight-"].

Fixpoint firstPattern (patterns : list string) (className : string) : option string :=
  match patterns with
  | [] => None
  | p :: rest =>
      match matchWordAfter p className with
      | Some w => Some w
      | None => firstPattern rest className
      end
  end.

Definition detectCodeLanguage (c : elem) : option string :=
  let className := orEmpty (attr c "class") in
  match firstPattern languagePatterns className with
  | Some w => Some w
  | None =>
      let parentClass :=
        match parent c with
        | Some p => orEmpty (attr p "class")
        | None => EmptyString
        end in
      firstPattern languagePatterns parentClass
  end.

(** ** extractMessageContent *)

Definition contentSelectors : list selector :=
  [ one (byClass "markdown"); one (byClass "prose");
    one (byClass "message-content"); one (byAttr "data-message-content") ].

Fixpoint contentElementFrom (e : elem) (sels : list selector) : elem :=
  match sels with
  | [] => e
  | sel :: rest =>
      match find e sel with
      | found :: _ => found
      | [] => contentElementFrom e rest
      end
  end.

Definition contentElement (e : elem) : elem := contentElementFrom e contentSelectors.

Definition codeBlockish : selector :=
  [[byTag "pre"]; [byTag "code"]; [byClass "code-block"]].

(** [pre code]: a [code] below a [pre]. *)
Definition preCode : selector := [[byTag "code"; byTag "pre"]].

(** The body of the [each] over the code elements: the artifacts it pushes. *)
Definition codeArtifact (c : elem) : list Artifact :=
  let codeContent := trim (elemText c) in
  let language := detectCodeLanguage c in
  if truthy codeContent
  then [ {| a_type := code; a_content := codeContent; a_language := language;
            a_filename := None; a_metadata := None |} ]
  else [].

Definition extractMessageContent (e : elem) : MessageContent :=
  let ce := contentElement e in
  let text := cleanTextContent (elemText ce) in
  let hasCode := negb (Nat.eqb (List.length (find ce codeBlockish)) 0) in
  let hasA := negb (Nat.eqb (List.length (find ce (one (byTag "a")))) 0) in
  let hasImg := negb (Nat.eqb (List.length (find ce (one (byTag "img")))) 0) in
  let arts := if hasCode then flat_map codeArtifact (find ce preCode) else [] in
  {| text := text;
     artifacts := match arts with [] => None | _ => Some arts end;
     formatting := Some {| isMarkdown := Some true; hasCodeBlocks := Some hasCode;
                           hasLinks := Some hasA; hasImages := Some hasImg |} |}.

(** ** extractTimestamp *)

Definition extractTimestamp (rt : Runtime) (e : elem) (w : World) : Date * World :=
  match first (find e (one (tagAttr "time" "datetime"))) with
  | Some timeElement =>
      match attr timeElement "datetime" with
      | Some datetime =>
          if truthy datetime then
            match Date_parse rt datetime with
            | Some parsed => (parsed, w)
            | None => newDate w
            end
          else newDate w
      | None => newDate w
      end
  | None => newDate w
  end.

(** ** extractMessages *)

Fixpoint eachMessage (rt : Runtime) (els : list elem) (messages : list Message)
    (w : World) : list Message * World :=
  match els with
  | [] => (messages, w)
  | e :: rest =>
      let role := extractMessageRole e in
      let content := extractMessageContent e in
      let (timestamp, w1) := extractTimestamp rt e w in
      if truthy (trim (text content)) then
        let (id, w2) := uuidv4 w1 in
        eachMessage rt rest
          (messages ++ [ {| m_id := id; m_role := role; m_content := content;
                            m_timestamp := timestamp;
                            m_metadata :=
                              Some {| mm_timestamp := Some timestamp;
                                      mm_tokens := None; mm_model := None;
                                      mm_edited := None; mm_regenerated := None |} |} ])%list
          w2
      else eachMessage rt rest messages w1
  end.

Definition extractMessages (rt : Runtime) (doc : document) (messagesSel : selector)
    (w : World) : list Message * World :=
  eachMessage rt (query doc messagesSel) [] w.

(** ** parseFromHtml *)

Definition notAConversation : string :=
  "This does not appear to be a ChatGPT conversation page. Please verify the URL or try copying the page HTML.".

Definition noMessages : string :=
  "No messages found in the conversation. The page structure may have changed or the conversation may be private.".

Definition parseFromHtml (rt : Runtime) (html : string) (originalUrl : option string)
    (w : World) : result Conversation * World :=
  let doc := cheerio_load rt html in
  if negb (includes html "chatgpt") && negb (includes html "conversation")
     && negb (includes html "message")
  then (Throw notAConversation, w)
  else
    let title := extractTitle doc in
    let (messages, w1) := extractMessages rt doc Validators.chatgptMessages w in
    if Nat.eqb (List.length messages) 0 then (Throw noMessages, w1)
    else
      let (now, w2) := newDate w1 in
      let (conversationId, w3) := uuidv4 w2 in
      (Ok {| c_id := conversationId;
             c_title := title;
             c_platform := chatgpt;
             c_createdAt := now;
             c_updatedAt := now;
             c_messages := messages;
             c_metadata := {| cm_platform := chatgpt;
                              cm_extractedAt := now;
                              cm_messageCount := List.length messages;
                              cm_title := Some title;
                              cm_url := originalUrl;
                              cm_model := None; cm_totalTokens := None;
                              cm_createdAt := None; cm_updatedAt := None |} |}, w3).

End ChatGPTParser.

(* ===================================================================== *)
(** * [src/services/exportGenerators.ts] *)
(* ===================================================================== *)

Module Generators.
Import JsString Json Types.

(** [ExportOptions]; a missing option is [None]. *)
Record ExportOptions : Type := {
  includeMetadata : option bool;
  includeTimestamps : option bool;
  includeArtifacts : option bool
}.

(** [options = {}] *)
Definition noOptions : ExportOptions :=
  {| includeMetadata := None; includeTimestamps := None; includeArtifacts := None |}.

(** [const { x = true } = options] *)
Definition orTrue (o : option bool) : bool :=
  match o with Some b => b | None => true end.

(** ** CSVGenerator *)

Definition escapeCSV (t : string) : string :=
  if includes t "," || includes t DQ || includes t NL
  then DQ ++ replaceAllChar dquote (DQ ++ DQ) t ++ DQ
  else t.

Definition csvHeader (withTimestamps : bool) : string :=
  join "," (["Role"; "Content"] ++ (if withTimestamps then ["Timestamp"] else []))%list
  ++ NL.

Definition csvRow (rt : Runtime) (withTimestamps : bool) (m : Message) : string :=
  join ","
    ([ escapeCSV (roleName (m_role m)); escapeCSV (text (m_content m)) ]
     ++ (if withTimestamps
         then [ escapeCSV (format rt (m_timestamp m) "yyyy-MM-dd HH:mm:ss") ]
         else []))%list
  ++ NL.

(** The loop over the messages, appending one line each. *)
Fixpoint csvRows (rt : Runtime) (withTimestamps : bool) (ms : list Message)
    (output : string) : string :=
  match ms with
  | [] => output
  | m :: rest => csvRows rt withTimestamps rest (output ++ csvRow rt withTimestamps m)
  end.

Definition CSV_generate (rt : Runtime) (conversation : Conversation)
    (options : ExportOptions) : string :=
  let withTimestamps := orTrue (includeTimestamps options) in
  csvRows rt withTimestamps (c_messages conversation)
    (EmptyString ++ csvHeader withTimestamps).

(** ** JSONGenerator *)

(** [{ ...conversation, metadata: includeMetadata ? conversation.metadata : undefined }] *)
Definition JSON_data (conversation : Conversation) (options : ExportOptions) : jsval :=
  VObj (spreadSet (conversationFields conversation) "metadata"
          (if orTrue (includeMetadata options)
           then metadataJS (c_metadata conversation)
           else VUndefined)).

(** [JSON.stringify(data, null, 2)]: the JSON document produced. *)
Definition JSON_generate (conversation : Conversation) (options : ExportOptions)
  : option json :=
  stringify (JSON_data conversation options).

End Generators.

(* ===================================================================== *)
(** * Vocabulary of the specification *)
(* ===================================================================== *)

Module Spec.
Import JsString Dom Json.

(** A string has ink when some character of it is not white space. *)
Fixpoint hasInk (s : string) : bool :=
  match s with
  | EmptyString => false
  | String c r => negb (isSpace c) || hasInk r
  end.

(** [InOrder l1 l2]: [l1] is [l2] with some elements left out, the others
    in the order they have in [l2]. *)
Inductive InOrder {A : Type} : list A -> list A -> Prop :=
| InOrder_nil : InOrder [] []
| InOrder_keep : forall x l1 l2, InOrder l1 l2 -> InOrder (x :: l1) (x :: l2)
| InOrder_drop : forall x l1 l2, InOrder l1 l2 -> InOrder l1 (x :: l2).

(** Every element of a document, in the order of the source markup. *)
Definition anyElement : selector :=
  [[ {| selTag := None; selClasses := []; selAttrs := [] |} ]].

Definition allElements (doc : document) : list elem := query doc anyElement.

(** What an HTML parser builds: a void element has no children. *)
Fixpoint wellFormed (n : node) : bool :=
  match n with
  | Element t _ ch =>
      (if memStr t voidTags then match ch with [] => true | _ => false end else true)
      && (fix go (l : list node) : bool :=
            match l with
            | [] => true
            | c :: l' => wellFormed c && go l'
            end) ch
  | _ => true
  end.

(** The input starts with [https://], in any letter case. *)
Definition httpsScheme (s : string) : bool :=
  match dropPrefixCI "https://" s with Some _ => true | None => false end.

(** Standard CSV quoting: each double quote of the text is doubled, and the
    whole is wrapped in double quotes. *)
Fixpoint doubleQuotes (t : string) : string :=
  match t with
  | EmptyString => EmptyString
  | String c r =>
      if Ascii.eqb c dquote
      then String dquote (String dquote (doubleQuotes r))
      else String c (doubleQuotes r)
  end.

Definition csvQuoted (t : string) : string := DQ ++ doubleQuotes t ++ DQ.

(** Reading a quoted CSV field back, after its opening quote: a doubled
    quote is a quote, a single one must close the field at its end. *)
Fixpoint csvUnquote (s : string) : option string :=
  match s with
  | EmptyString => None
  | String c r =>
      if Ascii.eqb c dquote then
        match r with
        | EmptyString => Some EmptyString
        | String c' r' =>
            if Ascii.eqb c' dquote
            then option_map (String dquote) (csvUnquote r')
            else None
        end
      else option_map (String c) (csvUnquote r)
  end.

(** Reading one CSV field: quoted when it starts with a quote, literal
    otherwise. *)
Definition csvReadField (s : string) : option string :=
  match s with
  | String c r => if Ascii.eqb c dquote then csvUnquote r else Some s
  | EmptyString => Some EmptyString
  end.

(** The JSON image of a value: a [Date] is its ISO string, a property whose
    value is [undefined] is absent, [undefined] in an array is [null]. *)
Fixpoint jsonView (v : jsval) : jsval :=
  match v with
  | VDate d => VStr (toISOString d)
  | VArr items =>
      VArr ((fix go (l : list jsval) : list jsval :=
               match l with
               | [] => []
               | VUndefined :: l' => VNull :: go l'
               | x :: l' => jsonView x :: go l'
               end) items)
  | VObj fields =>
      VObj ((fix go (l : list (string * jsval)) : list (string * jsval) :=
               match l with
               | [] => []
               | (_, VUndefined) :: l' => go l'
               | (k, x) :: l' => (k, jsonView x) :: go l'
               end) fields)
  | other => other
  end.

(** Plain data: no [Date] and no [undefined] anywhere. *)
Fixpoint plain (v : jsval) : bool :=
  match v with
  | VUndefined => false
  | VDate _ => false
  | VArr items =>
      (fix go (l : list jsval) : bool :=
         match l with [] => true | x :: l' => plain x && go l' end) items
  | VObj fields =>
      (fix go (l : list (string * jsval)) : bool :=
         match l with [] => true | (_, x) :: l' => plain x && go l' end) fields
  | _ => true
  end.

End Spec.

(** ** What a parsed message keeps of its container *)

Module ApiSpec.
Import JsString Dom.

(** The container passes the guard of the loop: its cleaned text is not blank. *)
Definition kept (e : elem) : bool :=
  truthy (trim (Api.text (Api.extractMessageContent e))).

(** What the parser reads from a container, and what a message holds of it. *)
Definition source (e : elem) : MessageRole * Api.MessageContent :=
  (Api.extractMessageRole e, Api.extractMessageContent e).

Definition payload (m : Api.Message) : MessageRole * Api.MessageContent :=
  (Api.m_role m, Api.m_content m).

(** [content.artifacts], read as a list ([undefined] is no artifact). *)
Definition artifactsOf (c : Api.MessageContent) : list Api.Artifact :=
  match Api.artifacts c with Some l => l | None => [] end.

End ApiSpec.

Module ParserSpec.
Import JsString Dom.

Definition kept (e : elem) : bool :=
  truthy (trim (Types.text (ChatGPTParser.extractMessageContent e))).

Definition source (e : elem) : MessageRole * Types.MessageContent :=
  (ChatGPTParser.extractMessageRole e, ChatGPTParser.extractMessageContent e).

Definition payload (m : Types.Message) : MessageRole * Types.MessageContent :=
  (Types.m_role m, Types.m_content m).

Definition artifactsOf (c : Types.MessageContent) : list Types.Artifact :=
  match Types.artifacts c with Some l => l | None => [] end.

End ParserSpec.

(** ** Containers without an explicit role *)

Module RoleSpec.
Import JsString Dom.

(** The attribute [data-message-author-role] is absent or names no role. *)
Definition noRoleAttribute (e : elem) : bool :=
  negb (strictEq (attr e Api.roleAttrName) "user")
  && negb (strictEq (attr e Api.roleAttrName) "assistant")
  && negb (strictEq (attr e Api.roleAttrName) "system").

(** Neither the container nor an element below it has the class
    [user-message] or [assistant-message]. *)
Definition noMarker (e : elem) : bool :=
  negb (ChatGPTParser.hasMarker e "user-message")
  && negb (ChatGPTParser.hasMarker e "assistant-message").

(** The text of the container, in lower case as the code measures it, is
    below the length threshold. *)
Definition short (e : elem) : bool :=
  String.length (toLowerCase (elemText e)) <? Api.roleLengthThreshold.

(** The markup of the container mentions [code], in any letter case. *)
Definition mentionsCode (e : elem) : bool :=
  includes (toLowerCase (elemHtml e)) "code".

(** The container holds a [code] element. *)
Definition holdsCode (e : elem) : bool :=
  negb (Nat.eqb (List.length (find e (one (byTag "code")))) 0).

End RoleSpec.

(* ===================================================================== *)
(** * Concrete pages, worlds and conversations *)
(* ===================================================================== *)

Module Examples.
Import JsString Dom.

Definition hello : string :=
  "Hello! Can you help me understand how React hooks work?".

Definition intro : string :=
  "Of course! React hooks are functions that let you use state and other React features in functional components. Here's a simple example:".

(** The start of the code block of the demo conversation. *)
Definition hooksCode : string :=
  "import React, { useState, useEffect } from 'react';" ++ NL ++ NL
  ++ "function Counter() {" ++ NL
  ++ "  const [count, setCount] = useState(0);" ++ NL
  ++ "}".

(** A page with one user turn and one assistant turn; the assistant turn
    holds a paragraph and a fenced code block, [<pre><code class=...>]. *)
Definition twoTurnPage (userText assistantText codeClass codeText : string)
  : document :=
  [ Element "html" []
      [ Element "head" [] [ Element "title" [] [ Text "ChatGPT - React hooks" ] ];
        Element "body" []
          [ Element "div" [("data-message-author-role", "user")] [ Text userText ];
            Element "div" [("data-message-author-role", "assistant")]
              [ Element "p" [] [ Text assistantText ];
                Element "pre" []
                  [ Element "code" [("class", codeClass)] [ Text codeText ] ] ] ] ] ].

Definition hooksPage : document := twoTurnPage hello intro "" hooksCode.

(** A page whose only container is blank. *)
Definition blankPage : document :=
  [ Element "div" [("data-message-author-role", "user")] [ Text "   " ] ].

Definition world0 : World :=
  {| uuids := fun n => "uuid-" ++ showNat n;
     clock := fun n => {| toISOString := "2024-01-01T00:00:0" ++ showNat n ++ ".000Z" |};
     uuidsDrawn := 0;
     clockReads := 0 |}.

(** A runtime that loads [page] whatever the markup, is off line, accepts
    as URLs the strings with a colon, and reads no date. *)
Definition runtimeOf (page : document) : Runtime :=
  {| cheerio_load := fun _ => page;
     fetch := fun _ => NetworkError "fetch failed";
     URL_parses := fun s => includes s ":";
     Date_parse := fun _ => None;
     format := fun d _ => toISOString d |}.

Definition shareUrl : string := "https://chatgpt.com/share/abc-123".

(** A page whose only container has a role attribute that names none of
    the three roles: a short turn of a tool. *)
Definition toolShort : elem :=
  {| self := Element "div" [("data-message-author-role", "tool")] [ Text "Hi there" ];
     parents := [] |}.

Definition toolPage : document := [ self toolShort ].

(** A short container of the same kind that holds a code element. *)
Definition toolCode : elem :=
  {| self := Element "div" [("data-message-author-role", "tool")]
               [ Text "Run " ; Element "code" [] [ Text "ls" ] ];
     parents := [] |}.

(** A page whose only container holds a code block of one character. *)
Definition tinyBlock : elem :=
  {| self := Element "div" [("data-message-author-role", "assistant")]
               [ Element "p" [] [ Text "The unknown is" ];
                 Element "pre" [] [ Element "code" [] [ Text "x" ] ] ];
     parents := [] |}.

Definition tinyPage : document := [ self tinyBlock ].

(** A container whose content element, of class [markdown], is the [pre]
    itself. *)
Definition preContent : elem :=
  {| self := Element "div" [("data-message-author-role", "assistant")]
               [ Element "pre" [("class", "markdown")]
                   [ Element "code" [] [ Text "print(1)" ] ] ];
     parents := [] |}.

(** A container holding a short code element and a long one. *)
Definition mixedCode : elem :=
  {| self :=
       Element "div" [("data-message-author-role", "assistant")]
         [ Element "p" [] [ Text "Use " ; Element "code" [] [ Text "npm i" ] ];
           Element "pre" [] [ Element "code" [("class", "language-python")]
                                [ Text "def main(): return 0" ] ] ];
     parents := [] |}.

(** A conversation of one message, whose text has a comma and quotes. *)
Definition quotedText : string := "Say " ++ DQ ++ "hi" ++ DQ ++ ", please".

Definition newYear : Date := {| toISOString := "2024-01-01T00:00:00.000Z" |}.

Definition sampleConversation : Types.Conversation :=
  {| Types.c_id := "c-1";
     Types.c_title := "Greetings";
     Types.c_platform := chatgpt;
     Types.c_createdAt := newYear;
     Types.c_updatedAt := newYear;
     Types.c_messages :=
       [ {| Types.m_id := "m-1";
            Types.m_role := user;
            Types.m_content :=
              {| Types.text := quotedText;
                 Types.artifacts := None;
                 Types.formatting := None |};
            Types.m_timestamp := newYear;
            Types.m_metadata := None |} ];
     Types.c_metadata :=
       {| Types.cm_platform := chatgpt;
          Types.cm_extractedAt := newYear;
          Types.cm_messageCount := 1;
          Types.cm_title := Some "Greetings";
          Types.cm_url := Some shareUrl;
          Types.cm_model := None;
          Types.cm_totalTokens := None;
          Types.cm_createdAt := None;
          Types.cm_updatedAt := None |} |}.

(** A POST of a share link of the former ChatGPT host, which is none of
    the four platform patterns. *)
Definition legacyUrl : string := "https://chat.openai.com/share/abc".

Definition legacyRequest : Api.Request :=
  {| Api.method := "POST"; Api.body_url := Some legacyUrl |}.

End Examples.

(* ===================================================================== *)
(** * More of the sources

    - the rest of [src/utils/validators.ts] and the table [EXPORT_FORMATS]
      of [src/utils/constants.ts] (module [ValidatorsMore]),
    - the Markdown, text and HTML generators and the factory of
      [src/services/exportGenerators.ts] (module [GeneratorsMore]),
    - [ChatGPTParser.parseFromUrl] (module [ParserMore]),
    - [src/services/apiService.ts] (module [ApiService]).

    A generator builds its output with [output += piece]; what one turn of
    a loop appends is given here as one string, appended to the output by
    [appendEach].  Numbers of requests and of milliseconds are integers. *)
(* ===================================================================== *)

Module JsMore.
Import JsString.

(** [s.toUpperCase()] on ASCII letters; it is applied to the platform
    names only, which are ASCII. *)
Definition upperChar (c : ascii) : ascii :=
  let n := nat_of_ascii c in
  if (97 <=? n) && (n <=? 122) then ascii_of_nat (n - 32) else c.

Fixpoint toUpperCase (s : string) : string :=
  match s with
  | EmptyString => EmptyString
  | String c r => String (upperChar c) (toUpperCase r)
  end.

(** [c.repeat(n)] for a one-character string. *)
Fixpoint repeatChar (c : ascii) (n : nat) : string :=
  match n with
  | O => EmptyString
  | S k => String c (repeatChar c k)
  end.

(** [s.replace(/[...]/g, '')]: the characters of a class are removed. *)
Fixpoint removeChars (p : ascii -> bool) (s : string) : string :=
  match s with
  | EmptyString => EmptyString
  | String c r => if p c then removeChars p r else String c (removeChars p r)
  end.

(** [s.replace(/\s+/g, by)] for a one-character replacement: every maximal
    run of white space becomes one [by]. *)
Fixpoint replaceRunsFrom (by_ : ascii) (inRun : bool) (s : string) : string :=
  match s with
  | EmptyString => EmptyString
  | String c r =>
      if isSpace c
      then if inRun then replaceRunsFrom by_ true r
           else String by_ (replaceRunsFrom by_ true r)
      else String c (replaceRunsFrom by_ false r)
  end.

Definition replaceRuns (by_ : ascii) (s : string) : string :=
  replaceRunsFrom by_ false s.

(** [s.split(c)[0]]: the part before the first [c], all of [s] without one. *)
Fixpoint beforeChar (c : ascii) (s : string) : string :=
  match s with
  | EmptyString => EmptyString
  | String a r => if Ascii.eqb a c then EmptyString else String a (beforeChar c r)
  end.

(** A loop [for (x of l) output += f(x)]. *)
Fixpoint appendEach {A : Type} (f : A -> string) (l : list A) (output : string) : string :=
  match l with
  | [] => output
  | x :: rest => appendEach f rest (output ++ f x)
  end.

(** [validFormats.includes(x)] on an array of strings. *)
Definition arrayIncludes (l : list string) (x : string) : bool :=
  existsb (String.eqb x) l.

End JsMore.

(** ** The rest of [src/utils/validators.ts] *)

Module ValidatorsMore.
Import JsString JsMore Validators.

(** The [request: any] of [validateExportRequest], for the members it
    reads; [None] is [undefined]. *)
Record RequestInput : Type := {
  r_url : option string;
  r_format : option string;
  r_options : option Generators.ExportOptions
}.

(** [ExportRequest] *)
Record ExportRequest : Type := {
  er_url : string;
  er_format : string;
  er_options : Generators.ExportOptions
}.

Record RequestValidation : Type := {
  success : bool;
  data : option ExportRequest;
  errors : option (list string)
}.

Definition validFormats : list string := ["pdf"; "markdown"; "json"; "csv"; "text"].

(** [x] in a condition, for an optional string. *)
Definition present (x : option string) : bool :=
  match x with Some s => truthy s | None => false end.

(** The errors, in the order they are pushed. *)
Definition requestErrors (rt : Runtime) (request : RequestInput) : list string :=
  ((if negb (present (r_url request)) then ["URL is required"] else [])
   ++ (if negb (present (r_format request)) then ["Export format is required"] else [])
   ++ (match r_url request with
       | Some url =>
           if truthy url then
             let urlValidation := validateChatURL rt url in
             if negb (isValid urlValidation)
             then [ match error urlValidation with
                    | Some e => if truthy e then e else "Invalid URL"
                    | None => "Invalid URL"
                    end ]
             else []
           else []
       | None => []
       end)
   ++ (match r_format request with
       | Some f =>
           if truthy f && negb (arrayIncludes validFormats f)
           then [("Invalid format. Must be one of: " ++ join ", " validFormats)%string]
           else []
       | None => []
       end))%list.

Definition validateExportRequest (rt : Runtime) (request : RequestInput)
  : RequestValidation :=
  let errors := requestErrors rt request in
  if 0 <? List.length errors then
    {| success := false; data := None; errors := Some errors |}
  else
    {| success := true;
       data := Some {| er_url := Dom.orEmpty (r_url request);
                       er_format := Dom.orEmpty (r_format request);
                       er_options := match r_options request with
                                     | Some o => o
                                     | None => Generators.noOptions
                                     end |};
       errors := None |}.

(** The class of the first [replace]: the characters a file name must not
    hold (the angle brackets, the colon, the double quote, both slashes, the
    bar, the question mark and the star). *)
Definition unsafeChar (c : ascii) : bool :=
  let n := nat_of_ascii c in
  (n =? 60) || (n =? 62) || (n =? 58) || (n =? 34) || (n =? 47)
  || (n =? 92) || (n =? 124) || (n =? 63) || (n =? 42).

(** [const safeTitle = title.replace(...).replace(...).substring(0, 50).toLowerCase()] *)
Definition safeTitle (title : string) : string :=
  toLowerCase (String.substring 0 50 (replaceRuns "_"%char (removeChars unsafeChar title))).

Definition generateSafeFilename (title extension : string) (w : World)
  : string * World :=
  let title := if truthy title then title else "conversation" in
  let safe := safeTitle title in
  let (now, w1) := newDate w in
  let timestamp := beforeChar "T"%char (toISOString now) in
  (safe ++ "_" ++ timestamp ++ "." ++ extension, w1).

(** The numbers of [validateRateLimit] are doubles.  They are modelled
    where they are whole and safe, at most [2 ^ 53] in absolute value: such
    numbers are doubles, they are compared as whole numbers are, and a
    difference of two of them that is safe again is computed exactly. *)
Definition safeInteger (x : Z) : bool :=
  ((- 2 ^ 53 <=? x) && (x <=? 2 ^ 53))%Z.

(** The time value of a [Date] ([getTime()], in milliseconds): [NaN] for
    an invalid date, a whole number otherwise. *)
Inductive TimeValue : Type :=
| InvalidDate
| Time (ms : Z).

(** A number of the result: [NaN] or whole. *)
Inductive Seconds : Type :=
| NaN
| Whole (n : Z).

Record RateLimit : Type := {
  allowed : bool;
  retryAfter : option Seconds
}.

(** [Math.ceil(x / 1000)] for a safe whole number [x] of milliseconds.  The
    quotient of the doubles is the real quotient rounded; it is whole when
    [x] is a multiple of 1000 and otherwise lies at 1/1000 or more from a
    whole number, further than the rounding moves it (below [2 ^ 44] the
    doubles are at most [2 ^ -9] apart), so that its ceiling is the ceiling
    of the real quotient. *)
Definition ceilSeconds (x : Z) : Z := (- ((- x) / 1000))%Z.

(** [validateRateLimit]: [lastRequest] is the optional [Date], given by its
    time value, and [now] is what [Date.now()] returns.  With an invalid
    date the time passed is [NaN]: [NaN >= windowMs] is false and
    [Math.ceil] of [NaN] is [NaN]. *)
Definition validateRateLimit (requestCount maxRequests windowMs : Z)
    (lastRequest : option TimeValue) (now : Z) : RateLimit :=
  if (requestCount <? maxRequests)%Z then {| allowed := true; retryAfter := None |}
  else
    match lastRequest with
    | Some (Time last) =>
        let timeSinceLastRequest := (now - last)%Z in
        if (windowMs <=? timeSinceLastRequest)%Z
        then {| allowed := true; retryAfter := None |}
        else {| allowed := false;
                retryAfter :=
                  Some (Whole (ceilSeconds (windowMs - timeSinceLastRequest))) |}
    | Some InvalidDate => {| allowed := false; retryAfter := Some NaN |}
    | None => {| allowed := false; retryAfter := None |}
    end.

(** The arguments on which the definition above is the code: every number
    given is whole and safe, and so is every difference the code computes
    from them. *)
Definition exactOn (requestCount maxRequests windowMs : Z)
    (lastRequest : option TimeValue) (now : Z) : bool :=
  safeInteger requestCount && safeInteger maxRequests
  && safeInteger windowMs && safeInteger now
  && match lastRequest with
     | Some (Time last) =>
         safeInteger last && safeInteger (now - last)
         && safeInteger (windowMs - (now - last))
     | Some InvalidDate | None => true
     end.

(** [EXPORT_FORMATS] of [constants.ts], for the members compared below. *)
Record FormatInfo : Type := { extension : string; mimeType : string }.

Definition EXPORT_FORMATS : list (string * FormatInfo) :=
  [ ("pdf", {| extension := "pdf"; mimeType := "application/pdf" |});
    ("markdown", {| extension := "md"; mimeType := "text/markdown" |});
    ("json", {| extension := "json"; mimeType := "application/json" |});
    ("csv", {| extension := "csv"; mimeType := "text/csv" |});
    ("text", {| extension := "txt"; mimeType := "text/plain" |}) ].

Fixpoint formatInfo (table : list (string * FormatInfo)) (f : string) : option FormatInfo :=
  match table with
  | [] => None
  | (k, v) :: rest => if String.eqb k f then Some v else formatInfo rest f
  end.

End ValidatorsMore.

(** ** The other generators of [src/services/exportGenerators.ts] *)

Module GeneratorsMore.
Import JsString JsMore Types Generators.

(** [message.role === 'user' ? a : b] *)
Definition ifUser (r : MessageRole) (a b : string) : string :=
  match r with user => a | _ => b end.

(** [x || ''] and [x ? ... : ''] for an optional string. *)
Definition orBlank (x : option string) : string :=
  match x with Some s => s | None => EmptyString end.

Definition isCode (t : ArtifactType) : bool :=
  match t with code => true | _ => false end.

(** [message.content.artifacts], nothing when absent. *)
Definition artifactList (m : Message) : list Artifact :=
  match artifacts (m_content m) with Some l => l | None => [] end.

(** *** MarkdownGenerator *)

Definition mdArtifact (a : Artifact) : string :=
  if isCode (a_type a)
  then ((EmptyString ++ ("```" ++ orBlank (a_language a) ++ NL))
        ++ (a_content a ++ NL)) ++ ("```" ++ NL ++ NL)
  else EmptyString.

Definition mdMessage (rt : Runtime) (withTimestamps : bool) (m : Message) : string :=
  let role := ifUser (m_role m) "**You**" "**Assistant**" in
  let o1 := EmptyString ++ ("## " ++ role) in
  let o2 := if withTimestamps then o1 ++ (" - " ++ format rt (m_timestamp m) "PPp") else o1 in
  let o3 := o2 ++ (NL ++ NL) in
  let o4 := o3 ++ (text (m_content m) ++ NL ++ NL) in
  let o5 := appendEach mdArtifact (artifactList m) o4 in
  o5 ++ ("---" ++ NL ++ NL).

Definition metadataUrl (c : Conversation) : option string :=
  match cm_url (c_metadata c) with
  | Some u => if truthy u then Some u else None
  | None => None
  end.

Definition Markdown_generate (rt : Runtime) (conversation : Conversation)
    (options : ExportOptions) : string :=
  let withMetadata := orTrue (includeMetadata options) in
  let withTimestamps := orTrue (includeTimestamps options) in
  let o1 := EmptyString ++ ("# " ++ c_title conversation ++ NL ++ NL) in
  let o2 :=
    if withMetadata then
      let a := o1 ++ ("**Platform:** "
                      ++ toUpperCase (platformName (c_platform conversation)) ++ NL) in
      let b := a ++ ("**Extracted:** "
                     ++ format rt (cm_extractedAt (c_metadata conversation)) "PPpp" ++ NL) in
      let c := b ++ ("**Messages:** "
                     ++ showNat (cm_messageCount (c_metadata conversation)) ++ NL ++ NL) in
      let d := match metadataUrl conversation with
               | Some u => c ++ ("**Original URL:** " ++ u ++ NL ++ NL)
               | None => c
               end in
      d ++ ("---" ++ NL ++ NL)
    else o1 in
  appendEach (mdMessage rt withTimestamps) (c_messages conversation) o2.

(** *** TextGenerator *)

Definition textArtifact (a : Artifact) : string :=
  if isCode (a_type a)
  then (EmptyString
        ++ ("[Code"
            ++ (match a_language a with
                | Some l => if truthy l then " - " ++ l else EmptyString
                | None => EmptyString
                end)
            ++ "]:" ++ NL))
       ++ (a_content a ++ NL ++ NL)
  else EmptyString.

Definition textMessage (rt : Runtime) (withTimestamps : bool) (m : Message) : string :=
  let role := ifUser (m_role m) "You" "Assistant" in
  let o1 := EmptyString ++ role in
  let o2 := if withTimestamps then o1 ++ (" (" ++ format rt (m_timestamp m) "PPp" ++ ")") else o1 in
  let o3 := o2 ++ (":" ++ NL) in
  let o4 := o3 ++ (text (m_content m) ++ NL ++ NL) in
  let o5 := appendEach textArtifact (artifactList m) o4 in
  o5 ++ (repeatChar "-"%char 50 ++ NL ++ NL).

Definition Text_generate (rt : Runtime) (conversation : Conversation)
    (options : ExportOptions) : string :=
  let withMetadata := orTrue (includeMetadata options) in
  let withTimestamps := orTrue (includeTimestamps options) in
  let o1 := EmptyString ++ (c_title conversation ++ NL) in
  let o2 := o1 ++ (repeatChar "="%char (String.length (c_title conversation)) ++ NL ++ NL) in
  let o3 :=
    if withMetadata then
      let a := o2 ++ ("Platform: "
                      ++ toUpperCase (platformName (c_platform conversation)) ++ NL) in
      let b := a ++ ("Extracted: "
                     ++ format rt (cm_extractedAt (c_metadata conversation)) "PPpp" ++ NL) in
      let c := b ++ ("Messages: "
                     ++ showNat (cm_messageCount (c_metadata conversation)) ++ NL ++ NL) in
      match metadataUrl conversation with
      | Some u => c ++ ("Original URL: " ++ u ++ NL ++ NL)
      | None => c
      end
    else o2 in
  appendEach (textMessage rt withTimestamps) (c_messages conversation) o3.

(** *** The two helpers of PDFGenerator *)

Definition apostrophe : ascii := ascii_of_nat 39.

Definition escapeHTML (t : string) : string :=
  replaceAllChar apostrophe "&#39;"
    (replaceAllChar dquote "&quot;"
       (replaceAllChar ">"%char "&gt;"
          (replaceAllChar "<"%char "&lt;"
             (replaceAllChar "&"%char "&amp;" t)))).

Definition formatContentForHTML (t : string) : string :=
  replaceAllChar LF "<br>" (escapeHTML t).

(** *** PDFGenerator.generate

    The generator writes an HTML page.  [unlines] writes the lines of a
    template, each followed by a line feed. *)

Fixpoint unlines (l : list string) : string :=
  match l with
  | [] => EmptyString
  | s :: rest => s ++ NL ++ unlines rest
  end.

Definition htmlHead (title : string) : string :=
  NL ++ unlines
    [ "<!DOCTYPE html>";
      "<html>";
      "<head>";
      "    <meta charset=" ++ DQ ++ "utf-8" ++ DQ ++ ">";
      "    <title>" ++ title ++ "</title>";
      "    <style>";
      "        body { font-family: -apple-system, BlinkMacSystemFont, sans-serif; max-width: 800px; margin: 0 auto; padding: 20px; }";
      "        h1 { color: #1f2937; border-bottom: 2px solid #e5e7eb; padding-bottom: 10px; }";
      "        .metadata { background: #f9fafb; padding: 15px; border-radius: 8px; margin-bottom: 20px; }";
      "        .message { margin-bottom: 20px; padding: 15px; border-radius: 8px; }";
      "        .user { background: #eff6ff; border-left: 4px solid #3b82f6; }";
      "        .assistant { background: #f0f9ff; border-left: 4px solid #10b981; }";
      "        .role { font-weight: 600; margin-bottom: 8px; }";
      "        .timestamp { color: #6b7280; font-size: 0.875rem; }";
      "        .content { line-height: 1.6; }";
      "        pre { background: #f3f4f6; padding: 12px; border-radius: 6px; overflow-x: auto; }";
      "        code { font-family: 'SF Mono', Monaco, monospace; }";
      "    </style>";
      "</head>";
      "<body>";
      "    <h1>" ++ title ++ "</h1>" ].

Definition htmlMetadata (rt : Runtime) (conversation : Conversation) : string :=
  NL ++ unlines
    [ "    <div class=" ++ DQ ++ "metadata" ++ DQ ++ ">";
      "        <strong>Platform:</strong> "
        ++ toUpperCase (platformName (c_platform conversation)) ++ "<br>";
      "        <strong>Extracted:</strong> "
        ++ format rt (cm_extractedAt (c_metadata conversation)) "PPpp" ++ "<br>";
      "        <strong>Messages:</strong> "
        ++ showNat (cm_messageCount (c_metadata conversation));
      "        "
        ++ match metadataUrl conversation with
           | Some u => "<br><strong>Original URL:</strong> " ++ u
           | None => EmptyString
           end;
      "    </div>" ].

Definition htmlArtifact (a : Artifact) : string :=
  if isCode (a_type a)
  then NL ++ unlines [ "        <pre><code>" ++ escapeHTML (a_content a) ++ "</code></pre>" ]
  else EmptyString.

Definition htmlMessage (rt : Runtime) (withTimestamps : bool) (m : Message) : string :=
  let roleClass := ifUser (m_role m) "user" "assistant" in
  let roleName := ifUser (m_role m) "You" "Assistant" in
  let o1 :=
    EmptyString
    ++ (NL ++ unlines
          [ "    <div class=" ++ DQ ++ "message " ++ roleClass ++ DQ ++ ">";
            "        <div class=" ++ DQ ++ "role" ++ DQ ++ ">";
            "            " ++ roleName;
            "            "
              ++ (if withTimestamps
                  then "<span class=" ++ DQ ++ "timestamp" ++ DQ ++ ">"
                       ++ format rt (m_timestamp m) "PPp" ++ "</span>"
                  else EmptyString);
            "        </div>";
            "        <div class=" ++ DQ ++ "content" ++ DQ ++ ">"
              ++ formatContentForHTML (text (m_content m)) ++ "</div>" ]) in
  let o2 := appendEach htmlArtifact (artifactList m) o1 in
  o2 ++ ("    </div>" ++ NL).

Definition PDF_generate (rt : Runtime) (conversation : Conversation)
    (options : ExportOptions) : string :=
  let withMetadata := orTrue (includeMetadata options) in
  let withTimestamps := orTrue (includeTimestamps options) in
  let html0 := htmlHead (c_title conversation) in
  let html1 := if withMetadata then html0 ++ htmlMetadata rt conversation else html0 in
  let html2 := appendEach (htmlMessage rt withTimestamps) (c_messages conversation) html1 in
  html2 ++ "</body></html>".

(** *** createExportGenerator *)

Inductive Generator : Type :=
| MarkdownGenerator | JSONGenerator | CSVGenerator | TextGenerator | PDFGenerator.

Definition createExportGenerator (f : string) : result Generator :=
  if String.eqb f "markdown" then Ok MarkdownGenerator
  else if String.eqb f "json" then Ok JSONGenerator
  else if String.eqb f "csv" then Ok CSVGenerator
  else if String.eqb f "text" then Ok TextGenerator
  else if String.eqb f "pdf" then Ok PDFGenerator
  else Throw ("Unsupported export format: " ++ f).

Definition getContentType (g : Generator) : string :=
  match g with
  | MarkdownGenerator => "text/markdown"
  | JSONGenerator => "application/json"
  | CSVGenerator => "text/csv"
  | TextGenerator => "text/plain"
  | PDFGenerator => "text/html"
  end.

Definition getFileExtension (g : Generator) : string :=
  match g with
  | MarkdownGenerator => "md"
  | JSONGenerator => "json"
  | CSVGenerator => "csv"
  | TextGenerator => "txt"
  | PDFGenerator => "html"
  end.

End GeneratorsMore.

(** ** [ChatGPTParser.parseFromUrl] *)

Module ParserMore.
Import JsString Dom Types.

Definition directFetchRefused : string :=
  "Direct URL fetching is not supported due to CORS restrictions. Please use the copy-paste method or deploy to a server with proxy.".

Definition corsRestriction : string :=
  "CORS restriction: Cannot fetch ChatGPT conversations directly from browser. Please copy the HTML content or use a server deployment.".

(** What one call does: the outcome, the URLs it fetched, the world after. *)
Record Attempt : Type := {
  outcome : result Conversation;
  fetched : list string;
  after : World
}.

(** The body of the [try]. *)
Definition tryFetchAndParse (rt : Runtime) (inBrowser : bool) (url : string) (w : World)
  : Attempt :=
  if inBrowser then
    {| outcome := Throw directFetchRefused; fetched := []; after := w |}
  else
    match fetch rt url with
    | NetworkError message =>
        {| outcome := Throw message; fetched := [url]; after := w |}
    | Response ok st stText html =>
        if negb ok then
          {| outcome := Throw ("Failed to fetch conversation: " ++ showNat st ++ " " ++ stText);
             fetched := [url]; after := w |}
        else
          let (r, w') := ChatGPTParser.parseFromHtml rt html (Some url) w in
          {| outcome := r; fetched := [url]; after := w' |}
    end.

(** [parseFromUrl]; [inBrowser] is [typeof window !== 'undefined']. *)
Definition parseFromUrl (rt : Runtime) (inBrowser : bool) (url : string) (w : World)
  : Attempt :=
  let a := tryFetchAndParse rt inBrowser url w in
  match outcome a with
  | Ok c => a
  | Throw message =>
      {| outcome :=
           if includes message "CORS" then Throw corsRestriction
           else Throw ("Failed to parse ChatGPT conversation: " ++ message);
         fetched := fetched a;
         after := after a |}
  end.

End ParserMore.

(** ** [src/services/apiService.ts] *)

Module ApiService.
Import JsString.

Definition apiUnavailable : string :=
  "API server not available. Make sure to run " ++ DQ ++ "vercel dev" ++ DQ
  ++ " in another terminal to start the local API server. "
  ++ "See instructions below for setup.".

(** What the [fetch] of the client ends with: it rejects, with an error
    of the given message, or it resolves to the reply of the handler. *)
Inductive ServerOutcome : Type :=
| Unreachable (message : string)
| Reply (r : Api.HttpResponse).

(** [response.ok] *)
Definition ok (r : Api.HttpResponse) : bool :=
  (200 <=? Api.status r) && (Api.status r <=? 299).

(** [data.error], of the JSON body of a reply. *)
Definition errorOf (b : Api.ResponseBody) : option string :=
  match b with
  | Api.ErrorBody e => Some e
  | _ => None
  end.

(** [x || fallback] for an optional string. *)
Definition orElse (x : option string) (fallback : string) : string :=
  match x with
  | Some s => if truthy s then s else fallback
  | None => fallback
  end.

(** The body of the [try].  [noJson] is the message of the error with
    which [response.json()] rejects when the reply has no body. *)
Definition request (noJson : string) (o : ServerOutcome) : result Api.Conversation :=
  match o with
  | Unreachable message => Throw message
  | Reply r =>
      if negb (ok r) then
        Throw (orElse (errorOf (Api.body r))
                 ("API request failed: " ++ showNat (Api.status r)))
      else
        match Api.body r with
        | Api.NoBody => Throw noJson
        | Api.SuccessBody conversation => Ok conversation
        | Api.ErrorBody e => Throw (orElse (Some e) "Invalid response from API")
        end
  end.

Definition parseConversation (noJson : string) (o : ServerOutcome)
  : result Api.Conversation :=
  match request noJson o with
  | Ok conversation => Ok conversation
  | Throw message =>
      if includes message "fetch" || includes message "Failed to fetch"
      then Throw apiUnavailable
      else Throw message
  end.

(** [checkApiHealth] *)
Definition checkApiHealth (o : ServerOutcome) : bool :=
  match o with
  | Unreachable _ => false
  | Reply r => ok r
  end.

End ApiService.

(* ===================================================================== *)
(** * [api/parse-conversation.ts]: the handler on a body of any shape *)
(* ===================================================================== *)

Module ApiRaw.
Import JsString.

(** [req.body] is not typed.  A value of it, as [JSON.parse] builds it: a
    number is a double, an object is the list of its own members (each key
    once), and there is no function in it. *)
Inductive Value : Type :=
| Undefined
| Null
| Boolean (b : bool)
| Number (x : spec_float)
| Str (s : string)
| Array (items : list Value)
| Object (members : list (string * Value)).

(** What the JavaScript engine decides: how it writes a number, and the
    messages of its [TypeError]s. *)
Record Engine : Type := {
  Number_toString : spec_float -> string;   (* String(x)                          *)
  cannotDestructure : Value -> string;      (* const { url } = undefined, or null *)
  notAFunction : string;                    (* url.includes is not a function     *)
  notPrimitive : string                     (* an object without a string form    *)
}.

(** A value in a condition. *)
Definition truthy (v : Value) : bool :=
  match v with
  | Undefined | Null => false
  | Boolean b => b
  | Number (S754_zero _) | Number S754_nan => false
  | Number _ => true
  | Str s => JsString.truthy s
  | Array _ | Object _ => true
  end.

Fixpoint lookup (key : string) (members : list (string * Value)) : option Value :=
  match members with
  | [] => None
  | (k, v) :: rest => if String.eqb k key then Some v else lookup key rest
  end.

(** [v[key]] for a [v] that is neither [undefined] nor [null] and a key
    that no prototype has: only an object can hold it. *)
Definition get (v : Value) (key : string) : Value :=
  match v with
  | Object members =>
      match lookup key members with
      | Some x => x
      | None => Undefined
      end
  | _ => Undefined
  end.

(** [url.includes], when it is a function: the one of a string looks for a
    part of it, the one of an array for an item that is the string.  No
    other value has one (a member [includes] of an object is no function). *)
Definition includesOf (url : Value) : option (string -> bool) :=
  match url with
  | Str s => Some (JsString.includes s)
  | Array items =>
      Some (fun needle =>
              existsb (fun item => match item with
                                   | Str s => String.eqb s needle
                                   | _ => false
                                   end) items)
  | _ => None
  end.

(** [String(v)], the conversion [fetch] makes of its first argument.  The
    items of an array are joined by commas, [undefined] and [null] items
    being empty; an object reads [[object Object]], unless a member
    [toString] hides the function it inherits: then it has no string form
    and the conversion throws. *)
Fixpoint toString (en : Engine) (v : Value) : result string :=
  match v with
  | Undefined => Ok "undefined"
  | Null => Ok "null"
  | Boolean b => Ok (if b then "true" else "false")
  | Number x => Ok (Number_toString en x)
  | Str s => Ok s
  | Array items =>
      match
        (fix each (l : list Value) : result (list string) :=
           match l with
           | [] => Ok []
           | item :: rest =>
               match (match item with
                      | Undefined | Null => Ok ""
                      | _ => toString en item
                      end) with
               | Throw message => Throw message
               | Ok shown =>
                   match each rest with
                   | Throw message => Throw message
                   | Ok others => Ok (shown :: others)
                   end
               end
           end) items
      with
      | Throw message => Throw message
      | Ok parts => Ok (join "," parts)
      end
  | Object members =>
      match lookup "toString" members with
      | Some _ => Throw (notPrimitive en)
      | None => Ok "[object Object]"
      end
  end.

(** The conversation as it is at run time: [metadata.url] is the value
    that came with the request, whatever it is. *)
Record ConversationMetadata : Type := {
  cm_platform : string;
  cm_extractedAt : string;
  cm_messageCount : nat;
  cm_title : string;
  cm_url : Value
}.

Record Conversation : Type := {
  c_id : string;
  c_title : string;
  c_platform : string;
  c_createdAt : string;
  c_updatedAt : string;
  c_messages : list Api.Message;
  c_metadata : ConversationMetadata
}.

Definition parseConversationFromHtml (rt : Runtime) (html : string)
    (originalUrl : Value) (w : World) : result Conversation * World :=
  let doc := cheerio_load rt html in
  let title := Api.extractTitle doc in
  let (messages, w1) := Api.extractMessages doc w in
  if Nat.eqb (List.length messages) 0 then (Throw Api.noMessages, w1)
  else
    let (d, w2) := newDate w1 in
    let now := toISOString d in
    let (conversationId, w3) := uuidv4 w2 in
    (Ok {| c_id := conversationId;
           c_title := title;
           c_platform := "chatgpt";
           c_createdAt := now;
           c_updatedAt := now;
           c_messages := messages;
           c_metadata := {| cm_platform := "chatgpt";
                            cm_extractedAt := now;
                            cm_messageCount := List.length messages;
                            cm_title := title;
                            cm_url := originalUrl |} |}, w3).

(** Reading [req.body] gives the parsed body, [undefined] when there is
    none, or throws when the platform cannot parse what was sent. *)
Record Request : Type := {
  method : string;
  body : result Value
}.

Inductive ResponseBody : Type :=
| NoBody
| ErrorBody (error : string)
| SuccessBody (conversation : Conversation).

Record HttpResponse : Type := { status : nat; sent : ResponseBody }.

(** What one call of the handler does: the reply, or the error it throws
    without having replied; the addresses it fetched; the world after.  As
    in [Api], a reply is its status and its JSON body. *)
Record Handled : Type := {
  reply : result HttpResponse;
  fetched : list string;
  after : World
}.

Definition failed (message : string) : HttpResponse :=
  {| status := 500; sent := ErrorBody ("Failed to parse conversation: " ++ message) |}.

Definition urlRequired : HttpResponse :=
  {| status := 400; sent := ErrorBody "URL is required" |}.

Definition handler (en : Engine) (rt : Runtime) (req : Request) (w : World) : Handled :=
  if String.eqb (method req) "OPTIONS" then
    {| reply := Ok {| status := 200; sent := NoBody |}; fetched := []; after := w |}
  else if negb (String.eqb (method req) "POST") then
    {| reply := Ok {| status := 405; sent := ErrorBody "Method not allowed" |};
       fetched := []; after := w |}
  else
    match body req with
    | Throw message => {| reply := Throw message; fetched := []; after := w |}
    | Ok Undefined =>
        {| reply := Throw (cannotDestructure en Undefined); fetched := []; after := w |}
    | Ok Null =>
        {| reply := Throw (cannotDestructure en Null); fetched := []; after := w |}
    | Ok b =>
        let url := get b "url" in
        if negb (truthy url) then {| reply := Ok urlRequired; fetched := []; after := w |}
        else
          match includesOf url with
          | None =>
              {| reply := Ok (failed (notAFunction en)); fetched := []; after := w |}
          | Some url_includes =>
              if negb (url_includes "chatgpt.com") && negb (url_includes "chat.openai.com")
              then
                {| reply :=
                     Ok {| status := 400;
                           sent := ErrorBody
                                     "Invalid URL. Please provide a ChatGPT conversation URL." |};
                   fetched := []; after := w |}
              else
                match toString en url with
                | Throw message =>
                    {| reply := Ok (failed message); fetched := []; after := w |}
                | Ok address =>
                    match fetch rt address with
                    | NetworkError message =>
                        {| reply := Ok (failed message); fetched := [address]; after := w |}
                    | Response ok st stText html =>
                        if negb ok then
                          {| reply := Ok (failed ("Failed to fetch: " ++ showNat st
                                                  ++ " " ++ stText));
                             fetched := [address]; after := w |}
                        else
                          match parseConversationFromHtml rt html url w with
                          | (Ok conversation, w') =>
                              {| reply := Ok {| status := 200;
                                                sent := SuccessBody conversation |};
                                 fetched := [address]; after := w' |}
                          | (Throw message, w') =>
                              {| reply := Ok (failed message);
                                 fetched := [address]; after := w' |}
                          end
                    end
                end
          end
    end.

End ApiRaw.

(** The typed requests of [Api] among the requests of [ApiRaw], and what
    [Api.handler] does seen as a result of [ApiRaw.handler]. *)
Module RawSpec.

Definition request (req : Api.Request) : ApiRaw.Request :=
  {| ApiRaw.method := Api.method req;
     ApiRaw.body :=
       Ok (ApiRaw.Object match Api.body_url req with
                         | Some url => [("url", ApiRaw.Str url)]
                         | None => []
                         end) |}.

Definition value (url : option string) : ApiRaw.Value :=
  match url with
  | Some s => ApiRaw.Str s
  | None => ApiRaw.Undefined
  end.

Definition conversation (c : Api.Conversation) : ApiRaw.Conversation :=
  {| ApiRaw.c_id := Api.c_id c;
     ApiRaw.c_title := Api.c_title c;
     ApiRaw.c_platform := Api.c_platform c;
     ApiRaw.c_createdAt := Api.c_createdAt c;
     ApiRaw.c_updatedAt := Api.c_updatedAt c;
     ApiRaw.c_messages := Api.c_messages c;
     ApiRaw.c_metadata :=
       {| ApiRaw.cm_platform := Api.cm_platform (Api.c_metadata c);
          ApiRaw.cm_extractedAt := Api.cm_extractedAt (Api.c_metadata c);
          ApiRaw.cm_messageCount := Api.cm_messageCount (Api.c_metadata c);
          ApiRaw.cm_title := Api.cm_title (Api.c_metadata c);
          ApiRaw.cm_url := value (Api.cm_url (Api.c_metadata c)) |} |}.

Definition response (r : Api.HttpResponse) : ApiRaw.HttpResponse :=
  {| ApiRaw.status := Api.status r;
     ApiRaw.sent := match Api.body r with
                    | Api.NoBody => ApiRaw.NoBody
                    | Api.ErrorBody e => ApiRaw.ErrorBody e
                    | Api.SuccessBody c => ApiRaw.SuccessBody (conversation c)
                    end |}.

Definition handled (h : Api.Handled) : ApiRaw.Handled :=
  {| ApiRaw.reply := Ok (response (Api.reply h));
     ApiRaw.fetched := Api.fetched h;
     ApiRaw.after := Api.after h |}.

(** The body [{ url: 123 }], and an engine with the messages of V8. *)
Definition numberBody : ApiRaw.Value :=
  ApiRaw.Object [("url", ApiRaw.Number (S754_finite false 123 0))].

Definition v8 (Number_toString : spec_float -> string) : ApiRaw.Engine :=
  {| ApiRaw.Number_toString := Number_toString;
     ApiRaw.cannotDestructure := fun v =>
       "Cannot destructure property 'url' of 'req.body' as it is "
       ++ match v with ApiRaw.Null => "null" | _ => "undefined" end ++ ".";
     ApiRaw.notAFunction := "url.includes is not a function";
     ApiRaw.notPrimitive := "Cannot convert object to primitive value" |}.

End RawSpec.

(** ** Vocabulary for the properties of these *)

Module MoreSpec.
Import JsString JsMore.

(** No character of [s] satisfies [p]. *)
Fixpoint noChar (p : ascii -> bool) (s : string) : bool :=
  match s with
  | EmptyString => true
  | String c r => negb (p c) && noChar p r
  end.

(** The white space of [s] is single spaces between other characters: no
    white space other than the space, none at either end, no two in a row. *)
Fixpoint singleSpacedFrom (afterSpace : bool) (s : string) : bool :=
  match s with
  | EmptyString => negb afterSpace
  | String c r =>
      if isSpace c
      then Ascii.eqb c " "%char && negb afterSpace && singleSpacedFrom true r
      else singleSpacedFrom false r
  end.

Definition singleSpaced (s : string) : bool :=
  match s with
  | EmptyString => true
  | String c _ => negb (isSpace c) && singleSpacedFrom false s
  end.

(** The markup characters that [escapeHTML] replaces, the ampersand apart. *)
Definition markupChar (c : ascii) : bool :=
  let n := nat_of_ascii c in
  (n =? 60) || (n =? 62) || (n =? 34) || (n =? 39).

(** An upper-case ASCII letter. *)
Definition upperAscii (c : ascii) : bool :=
  let n := nat_of_ascii c in (65 <=? n) && (n <=? 90).

(** A system message, relabelled as an assistant message. *)
Definition asAssistant (m : Types.Message) : Types.Message :=
  {| Types.m_id := Types.m_id m;
     Types.m_role := match Types.m_role m with system => assistant | r => r end;
     Types.m_content := Types.m_content m;
     Types.m_timestamp := Types.m_timestamp m;
     Types.m_metadata := Types.m_metadata m |}.

(** A message with only its code artifacts. *)
Definition codeOnly (m : Types.Message) : Types.Message :=
  {| Types.m_id := Types.m_id m;
     Types.m_role := Types.m_role m;
     Types.m_content :=
       {| Types.text := Types.text (Types.m_content m);
          Types.artifacts :=
            option_map (filter (fun a => GeneratorsMore.isCode (Types.a_type a)))
                       (Types.artifacts (Types.m_content m));
          Types.formatting := Types.formatting (Types.m_content m) |};
     Types.m_timestamp := Types.m_timestamp m;
     Types.m_metadata := Types.m_metadata m |}.

Definition withMessages (c : Types.Conversation) (ms : list Types.Message)
  : Types.Conversation :=
  {| Types.c_id := Types.c_id c;
     Types.c_title := Types.c_title c;
     Types.c_platform := Types.c_platform c;
     Types.c_createdAt := Types.c_createdAt c;
     Types.c_updatedAt := Types.c_updatedAt c;
     Types.c_messages := ms;
     Types.c_metadata := Types.c_metadata c |}.

(** What [escapeHTML] writes for one character, and what
    [formatContentForHTML] writes for it. *)
Definition escapeOne (c : ascii) : string :=
  if Ascii.eqb c "&"%char then "&amp;"
  else if Ascii.eqb c "<"%char then "&lt;"
  else if Ascii.eqb c ">"%char then "&gt;"
  else if Ascii.eqb c dquote then "&quot;"
  else if Ascii.eqb c GeneratorsMore.apostrophe then "&#39;"
  else String c EmptyString.

Definition formatOne (c : ascii) : string :=
  if Ascii.eqb c LF then "<br>" else escapeOne c.

(** The text a browser shows for a piece of markup made of characters, the
    five entities [&amp;] [&lt;] [&gt;] [&quot;] [&#39;] and the tag
    [<br>], which it shows as a line feed.  [skip] counts the characters
    of an entity or of a tag still to pass over. *)
Fixpoint shownFrom (skip : nat) (s : string) : string :=
  match s with
  | EmptyString => EmptyString
  | String c r =>
      match skip with
      | S k => shownFrom k r
      | O =>
          if Ascii.eqb c "&"%char then
            if String.prefix "amp;" r then String "&"%char (shownFrom 4 r)
            else if String.prefix "lt;" r then String "<"%char (shownFrom 3 r)
            else if String.prefix "gt;" r then String ">"%char (shownFrom 3 r)
            else if String.prefix "quot;" r then String dquote (shownFrom 5 r)
            else if String.prefix "#39;" r
                 then String GeneratorsMore.apostrophe (shownFrom 4 r)
            else String c (shownFrom 0 r)
          else if Ascii.eqb c "<"%char then
            if String.prefix "br>" r then String LF (shownFrom 3 r)
            else String c (shownFrom 0 r)
          else String c (shownFrom 0 r)
      end
  end.

Definition shown (s : string) : string := shownFrom 0 s.

(** [HoldsInOrder parts s]: the strings of [parts] occur in [s] one after
    the other, without overlap, in the order of the list. *)
Inductive HoldsInOrder : list string -> string -> Prop :=
| holds_nil : forall s, HoldsInOrder [] s
| holds_cons : forall p ps gap rest,
    HoldsInOrder ps rest -> HoldsInOrder (p :: ps) (gap ++ p ++ rest).

(** What a reader of an export is to find of a message: its text, then the
    content of each of its code artifacts. *)
Definition readable (m : Types.Message) : list string :=
  Types.text (Types.m_content m)
  :: map Types.a_content
       (filter (fun a => GeneratorsMore.isCode (Types.a_type a))
               (GeneratorsMore.artifactList m)).

(** Every white-space character of [s] is a space that follows no other
    white space; [afterSpace] tells that [s] comes after white space. *)
Fixpoint collapsed (afterSpace : bool) (s : string) : bool :=
  match s with
  | EmptyString => true
  | String c r =>
      if isSpace c
      then Ascii.eqb c " "%char && negb afterSpace && collapsed true r
      else collapsed false r
  end.

(** The world after [ids] more identifiers and [reads] more readings of
    the clock. *)
Definition later (w : World) (ids reads : nat) : World :=
  {| uuids := uuids w; clock := clock w;
     uuidsDrawn := uuidsDrawn w + ids; clockReads := clockReads w + reads |}.

(** The next [n] identifiers of the world, and its next [n] times. *)
Definition nextIds (w : World) (n : nat) : list string :=
  map (uuids w) (seq (uuidsDrawn w) n).

Definition nextTimes (w : World) (n : nat) : list Date :=
  map (clock w) (seq (clockReads w) n).

(** ** Reading a CSV document

    The reader of RFC 4180, with the line feed as the end of a record, as
    the generator writes it: fields are separated by commas; a field that
    starts with a double quote runs to its closing quote, a doubled quote
    inside standing for one quote; a plain field holds no quote; a line
    feed at the very end starts no further record. *)
Inductive csvMode : Type := FieldStart | InPlain | InQuoted | AfterQuote.

(** What is still to come: the rest of the field being read, the further
    fields of its record, and the further records. *)
Definition csvRest : Type := (string * list string * list (list string))%type.

Definition csvNothing : csvRest := (EmptyString, [], []).

Definition addChar (c : ascii) (x : option csvRest) : option csvRest :=
  match x with
  | Some (f, fs, rs) => Some (String c f, fs, rs)
  | None => None
  end.

Definition endField (x : option csvRest) : option csvRest :=
  match x with
  | Some (f, fs, rs) => Some (EmptyString, f :: fs, rs)
  | None => None
  end.

Definition endRecord (x : option csvRest) : option csvRest :=
  match x with
  | Some (f, fs, rs) => Some (EmptyString, [], (f :: fs) :: rs)
  | None => None
  end.

Fixpoint csvScan (mode : csvMode) (s : string) : option csvRest :=
  match s with
  | EmptyString =>
      match mode with InQuoted => None | _ => Some csvNothing end
  | String c r =>
      match mode with
      | InQuoted =>
          if Ascii.eqb c dquote then
            match r with
            | String c' r' =>
                if Ascii.eqb c' dquote then addChar dquote (csvScan InQuoted r')
                else csvScan AfterQuote r
            | EmptyString => Some csvNothing
            end
          else addChar c (csvScan InQuoted r)
      | _ =>
          if Ascii.eqb c ","%char then endField (csvScan FieldStart r)
          else if Ascii.eqb c LF then
            match r with
            | EmptyString => Some csvNothing
            | _ => endRecord (csvScan FieldStart r)
            end
          else
            match mode with
            | FieldStart =>
                if Ascii.eqb c dquote then csvScan InQuoted r
                else addChar c (csvScan InPlain r)
            | InPlain =>
                if Ascii.eqb c dquote then None else addChar c (csvScan InPlain r)
            | _ => None
            end
      end
  end.

(** The records of a document; the empty document has none. *)
Definition csvRead (s : string) : option (list (list string)) :=
  match s with
  | EmptyString => Some []
  | _ =>
      match csvScan FieldStart s with
      | Some (f, fs, rs) => Some ((f :: fs) :: rs)
      | None => None
      end
  end.

(** The fields of the header and of the line of a message. *)
Definition headerFields (withTimestamps : bool) : list string :=
  (["Role"; "Content"] ++ (if withTimestamps then ["Timestamp"] else []))%list.

Definition messageFields (rt : Runtime) (withTimestamps : bool) (m : Types.Message)
  : list string :=
  ([ Types.roleName (Types.m_role m); Types.text (Types.m_content m) ]
   ++ (if withTimestamps
       then [ format rt (Types.m_timestamp m) "yyyy-MM-dd HH:mm:ss" ]
       else []))%list.

(** The characters that make [escapeCSV] quote a field. *)
Definition csvSpecial (c : ascii) : bool :=
  Ascii.eqb ","%char c || Ascii.eqb dquote c || Ascii.eqb LF c.

(** The line the generator writes for a record. *)
Definition csvLine (fields : list string) : string :=
  join "," (map Generators.escapeCSV fields) ++ NL.

(** [rest] follows a field: it is empty or starts with a comma or a line feed. *)
Definition atSeparator (rest : string) : bool :=
  match rest with
  | EmptyString => true
  | String c _ => Ascii.eqb c ","%char || Ascii.eqb c LF
  end.

(** [t] put before the field being read. *)
Definition prepend (t : string) (x : option csvRest) : option csvRest :=
  match x with
  | Some (f, fs, rs) => Some (t ++ f, fs, rs)
  | None => None
  end.

(** What follows a line in a document. *)
Definition thenRecords (x : string) (xs : list string) (more : string) : option csvRest :=
  match more with
  | EmptyString => Some (x, xs, [])
  | _ =>
      match csvScan FieldStart more with
      | Some (f, fs, rs) => Some (x, xs, (f :: fs) :: rs)
      | None => None
      end
  end.

(** The element the HTML export writes for the text of a message, and the
    one it writes for a code artifact. *)
Definition contentElement (t : string) : string :=
  "<div class=" ++ DQ ++ "content" ++ DQ ++ ">"
  ++ GeneratorsMore.formatContentForHTML t ++ "</div>".

Definition codeElement (a : Types.Artifact) : string :=
  "<pre><code>" ++ GeneratorsMore.escapeHTML (Types.a_content a) ++ "</code></pre>".

Definition htmlElements (m : Types.Message) : list string :=
  contentElement (Types.text (Types.m_content m))
  :: map codeElement
       (filter (fun a => GeneratorsMore.isCode (Types.a_type a))
               (GeneratorsMore.artifactList m)).

End MoreSpec.

Module MoreExamples.

(** A runtime for which ChatGPT answers 404 to every request. *)
Definition notFound : Runtime :=
  {| cheerio_load := fun _ => [];
     fetch := fun _ => Response false 404 "Not Found" EmptyString;
     URL_parses := fun _ => true;
     Date_parse := fun _ => None;
     format := fun d _ => toISOString d |}.

End MoreExamples.

(* ===================================================================== *)
(** * Facts about the string primitives *)
(* ===================================================================== *)

Module JsStringFacts.
Import JsString Spec.

Lemma truthy_true_iff (s : string) : truthy s = true <-> s <> EmptyString.
Proof.
  destruct s; simpl; split; intro H; try discriminate; try reflexivity.
  now contradiction H.
Qed.

Lemma length_pos_nonempty (s : string) :
  (0 <? String.length s) = true -> s <> EmptyString.
Proof.
  destruct s; simpl; intros H; [discriminate | discriminate].
Qed.

Lemma truthy_trim_nonempty (s : string) : truthy (trim s) = true -> s <> EmptyString.
Proof.
  intros H ->. discriminate H.
Qed.

(** ** Ink *)

Lemma hasInk_app (a b : string) : hasInk (a ++ b) = hasInk a || hasInk b.
Proof.
  induction a as [|c a IH]; simpl; [reflexivity|].
  rewrite IH. now rewrite orb_assoc.
Qed.

Lemma hasInk_trimStart (s : string) : hasInk (trimStart s) = hasInk s.
Proof.
  induction s as [|c s IH]; simpl; [reflexivity|].
  destruct (isSpace c) eqn:E; simpl.
  - exact IH.
  - now rewrite E.
Qed.

Lemma truthy_trimEnd (s : string) : truthy (trimEnd s) = hasInk s.
Proof.
  induction s as [|c s IH]; simpl; [reflexivity|].
  destruct (trimEnd s) eqn:E; simpl in *.
  - rewrite <- IH. destruct (isSpace c); reflexivity.
  - rewrite <- IH. now rewrite orb_true_r.
Qed.

Lemma hasInk_trimEnd (s : string) : hasInk (trimEnd s) = hasInk s.
Proof.
  induction s as [|c s IH]; simpl; [reflexivity|].
  destruct (trimEnd s) eqn:E.
  - simpl in IH. rewrite <- IH.
    destruct (isSpace c) eqn:Ec; simpl; now rewrite ?Ec.
  - simpl. now rewrite <- IH.
Qed.

Lemma truthy_trim (s : string) : truthy (trim s) = hasInk s.
Proof.
  unfold trim. now rewrite truthy_trimEnd, hasInk_trimStart.
Qed.

Lemma hasInk_trim (s : string) : hasInk (trim s) = hasInk s.
Proof.
  unfold trim. now rewrite hasInk_trimEnd, hasInk_trimStart.
Qed.

Lemma hasInk_collapseFrom (b : bool) (s : string) :
  hasInk (collapseFrom b s) = hasInk s.
Proof.
  revert b. induction s as [|c s IH]; intros b; simpl; [reflexivity|].
  destruct (isSpace c) eqn:E; simpl.
  - destruct b; simpl; now rewrite IH.
  - now rewrite E, IH.
Qed.

Lemma afterLastLF_ink (s rest : string) :
  afterLastLF s = Some rest -> hasInk rest = hasInk s.
Proof.
  revert rest. induction s as [|c s IH]; intros rest; simpl; [discriminate|].
  destruct (isSpace c) eqn:E; [|discriminate].
  simpl. destruct (afterLastLF s) as [r|] eqn:El.
  - intros [= <-]. now apply IH.
  - destruct (Ascii.eqb c LF); [|discriminate]. now intros [= <-].
Qed.

Lemma hasInk_blankLinesFuel (n : nat) (s : string) :
  hasInk (blankLinesFuel n s) = hasInk s.
Proof.
  revert s. induction n as [|n IH]; intros s; simpl; [reflexivity|].
  destruct s as [|c s]; [reflexivity|].
  destruct (Ascii.eqb c LF) eqn:E.
  - apply Ascii.eqb_eq in E. subst c.
    destruct (afterLastLF s) as [rest|] eqn:El; simpl.
    + rewrite IH. now apply afterLastLF_ink.
    + now rewrite IH.
  - simpl. now rewrite IH.
Qed.

Lemma hasInk_blankLines (s : string) : hasInk (blankLines s) = hasInk s.
Proof. apply hasInk_blankLinesFuel. Qed.

(** ** Substrings *)

Lemma prefix_app (n a b : string) :
  String.prefix n a = true -> String.prefix n (a ++ b) = true.
Proof.
  revert a. induction n as [|c n IH]; intros a.
  - intros _. destruct (a ++ b); reflexivity.
  - destruct a as [|d a]; simpl; [discriminate|].
    destruct (ascii_dec c d); [|discriminate]. apply IH.
Qed.

Lemma prefix_self_app (n b : string) : String.prefix n (n ++ b) = true.
Proof.
  induction n as [|c n IH]; simpl.
  - destruct b; reflexivity.
  - destruct (ascii_dec c c); [exact IH | congruence].
Qed.

Lemma includes_prefix (s n : string) :
  String.prefix n s = true -> includes s n = true.
Proof.
  intros H. destruct s; cbn [includes]; rewrite H; reflexivity.
Qed.

Lemma includes_app_l (a b n : string) :
  includes a n = true -> includes (a ++ b) n = true.
Proof.
  induction a as [|c a IH]; simpl.
  - rewrite orb_false_r. intros H.
    destruct n; [apply includes_prefix; destruct b; reflexivity | discriminate].
  - intros H. apply orb_true_iff in H as [H|H].
    + change (String c a ++ b) with (String c (a ++ b)) in *.
      apply orb_true_iff. left.
      exact (prefix_app n (String c a) b H).
    + apply orb_true_iff. right. now apply IH.
Qed.

Lemma includes_app_r (a b n : string) :
  includes b n = true -> includes (a ++ b) n = true.
Proof.
  induction a as [|c a IH]; simpl; intros H; [exact H|].
  apply orb_true_iff. right. now apply IH.
Qed.

Lemma includes_here (n b : string) : includes (n ++ b) n = true.
Proof. apply includes_prefix, prefix_self_app. Qed.

Lemma toLowerCase_app (a b : string) :
  toLowerCase (a ++ b) = toLowerCase a ++ toLowerCase b.
Proof.
  induction a as [|c a IH]; simpl; [reflexivity | now rewrite IH].
Qed.

End JsStringFacts.

(* ===================================================================== *)
(** * Facts about the DOM queries *)
(* ===================================================================== *)

Module DomFacts.
Import JsString Dom Spec JsStringFacts.

(** Induction on a tree, with the property known of every child. *)
Lemma node_ind2 (P : node -> Prop) :
  (forall d, P (Text d)) ->
  (forall d, P (Comment d)) ->
  (forall t a ch, Forall P ch -> P (Element t a ch)) ->
  forall n, P n.
Proof.
  intros HT HC HE. fix IH 1. intros [d|d|t a ch].
  - apply HT.
  - apply HC.
  - apply HE.
    exact ((fix go (l : list node) : Forall P l :=
              match l with
              | [] => Forall_nil P
              | c :: l' => Forall_cons c (IH c) (go l')
              end) ch).
Qed.

(** ** The recursive functions, unfolded one level *)

Lemma selectIn_Element sel scope outer t a ch :
  selectIn sel scope outer (Element t a ch) =
  ((if matchSelector sel scope (Element t a ch)
    then [ {| self := Element t a ch; parents := (scope ++ outer)%list |} ] else [])
   ++ flat_map (selectIn sel (Element t a ch :: scope) outer) ch)%list.
Proof.
  reflexivity.
Qed.

Lemma outerHTML_Element raw t a ch :
  outerHTML raw (Element t a ch) =
  "<" ++ t ++ serializeAttrs a ++ ">"
  ++ (if memStr t voidTags then EmptyString
      else fold_right String.append EmptyString
             (map (outerHTML (memStr t rawTextTags)) ch) ++ "</" ++ t ++ ">").
Proof.
  cbn [outerHTML].
  destruct (memStr t voidTags); [reflexivity|].
  do 5 f_equal.
  induction ch as [|c ch IH]; [reflexivity|].
  cbn [map fold_right]. now rewrite <- IH.
Qed.

Lemma wellFormed_Element t a ch :
  wellFormed (Element t a ch) =
  (if memStr t voidTags then match ch with [] => true | _ => false end else true)
  && forallb wellFormed ch.
Proof.
  reflexivity.
Qed.

(** ** Order *)

Lemma InOrder_refl {A : Type} (l : list A) : InOrder l l.
Proof. induction l; constructor; assumption. Qed.

Lemma InOrder_nil_l {A : Type} (l : list A) : InOrder [] l.
Proof. induction l; constructor; assumption. Qed.

Lemma InOrder_app {A : Type} (a b c d : list A) :
  InOrder a b -> InOrder c d -> InOrder (a ++ c)%list (b ++ d)%list.
Proof.
  intros H. induction H; intros Hcd; simpl.
  - exact Hcd.
  - constructor. now apply IHInOrder.
  - constructor. now apply IHInOrder.
Qed.

Lemma InOrder_filter {A : Type} (f : A -> bool) (l : list A) :
  InOrder (filter f l) l.
Proof.
  induction l as [|x l IH]; simpl; [constructor|].
  destruct (f x); constructor; assumption.
Qed.

Lemma ancestorsMatch_nil anc : ancestorsMatch [] anc = true.
Proof. destruct anc; reflexivity. Qed.

Lemma matchSelector_any scope t a ch :
  matchSelector anyElement scope (Element t a ch) = true.
Proof.
  unfold matchSelector, anyElement. cbn [existsb matchComplex].
  now rewrite ancestorsMatch_nil.
Qed.

(** A selection lists its elements in the order of the document. *)
Lemma selectIn_in_order sel n :
  forall scope outer,
    InOrder (selectIn sel scope outer n) (selectIn anyElement scope outer n).
Proof.
  induction n as [d|d|t a ch IH] using node_ind2; intros scope outer.
  - constructor.
  - constructor.
  - rewrite !selectIn_Element. rewrite matchSelector_any.
    apply InOrder_app.
    + destruct (matchSelector sel scope (Element t a ch)).
      * apply InOrder_refl.
      * apply InOrder_nil_l.
    + generalize (Element t a ch :: scope). intros sc.
      induction IH as [|c ch Hc _ IHch]; simpl; [constructor|].
      apply InOrder_app; [apply Hc | exact IHch].
Qed.

Lemma query_in_order doc sel : InOrder (query doc sel) (allElements doc).
Proof.
  unfold allElements, query.
  induction doc as [|n doc IH]; simpl; [constructor|].
  apply InOrder_app; [apply selectIn_in_order | exact IH].
Qed.

(** ** A wider selector finds at least as much *)

Lemma selectIn_mono sel1 sel2 :
  (forall anc n, matchSelector sel1 anc n = true -> matchSelector sel2 anc n = true) ->
  forall n scope outer e,
    In e (selectIn sel1 scope outer n) -> In e (selectIn sel2 scope outer n).
Proof.
  intros Hsel n.
  induction n as [d|d|t a ch IH] using node_ind2; intros scope outer e; try (simpl; tauto).
  rewrite !selectIn_Element, !in_app_iff. intros [H|H].
  - left. destruct (matchSelector sel1 scope (Element t a ch)) eqn:E; [|destruct H].
    now rewrite (Hsel _ _ E).
  - right. apply in_flat_map in H as (c & Hc & He). apply in_flat_map.
    exists c. split; [assumption|].
    rewrite Forall_forall in IH. now apply IH.
Qed.

Lemma find_mono sel1 sel2 e :
  (forall anc n, matchSelector sel1 anc n = true -> matchSelector sel2 anc n = true) ->
  forall x, In x (find e sel1) -> In x (find e sel2).
Proof.
  intros Hsel x. unfold find. rewrite !in_flat_map.
  intros (c & Hc & Hx). exists c. split; [assumption|].
  now apply (selectIn_mono sel1 sel2 Hsel).
Qed.

Lemma nonempty_length {A : Type} (l : list A) :
  negb (Nat.eqb (List.length l) 0) = true <-> l <> [].
Proof.
  destruct l; simpl; split; intro H; try discriminate; try reflexivity.
  now contradiction H.
Qed.

Lemma find_mono_nonempty sel1 sel2 e :
  (forall anc n, matchSelector sel1 anc n = true -> matchSelector sel2 anc n = true) ->
  negb (Nat.eqb (List.length (find e sel2)) 0) = false -> find e sel1 = [].
Proof.
  intros Hsel H. destruct (find e sel1) as [|x l] eqn:E; [reflexivity|].
  assert (Hin : In x (find e sel2)).
  { apply (find_mono sel1 sel2 e Hsel). rewrite E. now left. }
  destruct (find e sel2); [destruct Hin | discriminate H].
Qed.

(** ** A code element shows in the markup *)

Lemma flat_map_nonempty {A B : Type} (f : A -> list B) (l : list A) :
  flat_map f l <> [] -> exists x, In x l /\ f x <> [].
Proof.
  induction l as [|x l IH]; simpl; [congruence|].
  intros H. destruct (f x) eqn:E.
  - destruct (IH H) as (y & Hy & Hf). exists y. split; [now right | assumption].
  - exists x. split; [now left | rewrite E; discriminate].
Qed.

Lemma matchSelector_code_tag scope n :
  matchSelector (one (byTag "code")) scope n = true ->
  exists a ch, n = Element "code" a ch.
Proof.
  destruct n as [d|d|t a ch]; try discriminate.
  unfold matchSelector, one. cbn [existsb matchComplex matchCompound byTag selTag].
  intros H. exists a, ch.
  destruct (String.eqb t "code") eqn:E; [|discriminate H].
  apply String.eqb_eq in E. now subst.
Qed.

Lemma code_in_outerHTML n :
  wellFormed n = true ->
  forall raw scope outer,
    selectIn (one (byTag "code")) scope outer n <> [] ->
    includes (toLowerCase (outerHTML raw n)) "code" = true.
Proof.
  induction n as [d|d|t a ch IH] using node_ind2; intros Hwf raw scope outer;
    try (simpl; congruence).
  rewrite selectIn_Element, outerHTML_Element.
  destruct (matchSelector (one (byTag "code")) scope (Element t a ch)) eqn:E.
  - intros _. apply matchSelector_code_tag in E as (a' & ch' & [= -> _ _]).
    rewrite !toLowerCase_app.
    apply includes_app_r. apply includes_app_l. reflexivity.
  - cbn [app]. intros H.
    apply flat_map_nonempty in H as (c & Hc & Hsel).
    rewrite wellFormed_Element in Hwf. apply andb_true_iff in Hwf as [Hvoid Hch].
    destruct (memStr t voidTags).
    + destruct ch; [destruct Hc | discriminate Hvoid].
    + rewrite !toLowerCase_app.
      do 4 apply includes_app_r. apply includes_app_l.
      rewrite forallb_forall in Hch. rewrite Forall_forall in IH.
      assert (Hin : includes (toLowerCase (outerHTML (memStr t rawTextTags) c)) "code" = true)
        by (eapply IH; eauto).
      clear - Hc Hin. induction ch as [|y ch IHch]; [destruct Hc|].
      cbn [map fold_right]. rewrite toLowerCase_app.
      destruct Hc as [->|Hc]; [now apply includes_app_l|].
      apply includes_app_r. now apply IHch.
Qed.

Lemma code_in_elemHtml e :
  wellFormed (self e) = true ->
  find e (one (byTag "code")) <> [] ->
  includes (toLowerCase (elemHtml e)) "code" = true.
Proof.
  unfold find, elemHtml. destruct (self e) as [d|d|t a ch]; try (simpl; congruence).
  intros Hwf H. cbn [childrenOf] in H. cbn [innerHTML].
  apply flat_map_nonempty in H as (c & Hc & Hsel).
  rewrite wellFormed_Element in Hwf. apply andb_true_iff in Hwf as [_ Hch].
  rewrite forallb_forall in Hch.
  assert (Hin : includes (toLowerCase (outerHTML (memStr t rawTextTags) c)) "code" = true)
    by (eapply code_in_outerHTML; eauto).
  clear - Hc Hin. induction ch as [|y ch IHch]; [destruct Hc|].
  cbn [map fold_right]. rewrite toLowerCase_app.
  destruct Hc as [->|Hc]; [now apply includes_app_l|].
  apply includes_app_r. now apply IHch.
Qed.

End DomFacts.

(* ===================================================================== *)
(** * Facts about the two parsers *)
(* ===================================================================== *)

Module ApiFacts.
Import JsString Dom Spec JsStringFacts DomFacts.

Lemma extractTitleFrom_nonempty doc sels :
  Api.extractTitleFrom doc sels <> EmptyString.
Proof.
  induction sels as [|[name sel] rest IH]; cbn [Api.extractTitleFrom].
  - discriminate.
  - destruct (first (query doc sel)) as [element|]; [|exact IH].
    match goal with |- context [if ?c then _ else _] => destruct c end; [|exact IH].
    match goal with |- context [if ?c then _ else _] => destruct c eqn:E end; [|exact IH].
    now apply length_pos_nonempty.
Qed.

(** The loop over the containers appends, for each kept container in
    turn, one message made from it. *)
Lemma api_eachMessage_payload els :
  forall acc w,
    map ApiSpec.payload (fst (Api.eachMessage els acc w)) =
    (map ApiSpec.payload acc ++ map ApiSpec.source (filter ApiSpec.kept els))%list.
Proof.
  induction els as [|e els IH]; intros acc w; cbn [Api.eachMessage filter].
  - cbn [map fst]. now rewrite app_nil_r.
  - unfold ApiSpec.kept at 1.
    destruct (truthy (trim (Api.text (Api.extractMessageContent e)))) eqn:E.
    + cbn [newDate uuidv4]. rewrite IH, map_app. cbn [map]. now rewrite <- app_assoc.
    + apply IH.
Qed.

Lemma api_eachMessage_none els :
  (forall e, In e els -> Api.text (Api.extractMessageContent e) = EmptyString) ->
  forall acc w, Api.eachMessage els acc w = (acc, w).
Proof.
  induction els as [|e els IH]; intros H acc w; cbn [Api.eachMessage]; [reflexivity|].
  rewrite (H e (or_introl eq_refl)). cbn [trim trimStart trimEnd truthy].
  apply IH. intros x Hx. apply H. now right.
Qed.

Lemma firstMatching_in_order doc sels :
  InOrder (Api.firstMatching doc sels) (allElements doc).
Proof.
  induction sels as [|sel rest IH]; cbn [Api.firstMatching].
  - apply InOrder_nil_l.
  - destruct (query doc sel) eqn:E; [exact IH|]. rewrite <- E. apply query_in_order.
Qed.

Lemma code_is_codeOrPre anc n :
  matchSelector (one (byTag "code")) anc n = true ->
  matchSelector Api.codeOrPre anc n = true.
Proof.
  unfold matchSelector, one, Api.codeOrPre. cbn [existsb].
  rewrite orb_false_r. intros ->. reflexivity.
Qed.

(** The artifacts of a message are what the code elements below its
    container contribute, in order. *)
Lemma api_artifacts_of_content e :
  ApiSpec.artifactsOf (Api.extractMessageContent e) =
  flat_map Api.codeArtifact (find e (one (byTag "code"))).
Proof.
  unfold ApiSpec.artifactsOf, Api.extractMessageContent. cbn [Api.artifacts].
  destruct (negb (Nat.eqb (List.length (find e Api.codeOrPre)) 0)) eqn:E.
  - destruct (flat_map Api.codeArtifact (find e (one (byTag "code")))); reflexivity.
  - rewrite (find_mono_nonempty (one (byTag "code")) Api.codeOrPre e code_is_codeOrPre E).
    reflexivity.
Qed.

End ApiFacts.

Module ParserFacts.
Import JsString Dom Spec JsStringFacts DomFacts.

Lemma parser_eachMessage_payload rt els :
  forall acc w,
    map ParserSpec.payload (fst (ChatGPTParser.eachMessage rt els acc w)) =
    (map ParserSpec.payload acc ++ map ParserSpec.source (filter ParserSpec.kept els))%list.
Proof.
  induction els as [|e els IH]; intros acc w; cbn [ChatGPTParser.eachMessage filter].
  - cbn [map fst]. now rewrite app_nil_r.
  - destruct (ChatGPTParser.extractTimestamp rt e w) as [timestamp w1].
    unfold ParserSpec.kept at 1.
    destruct (truthy (trim (Types.text (ChatGPTParser.extractMessageContent e)))) eqn:E.
    + cbn [uuidv4]. rewrite IH, map_app. cbn [map]. now rewrite <- app_assoc.
    + apply IH.
Qed.

Lemma parser_eachMessage_none rt els :
  (forall e, In e els -> Types.text (ChatGPTParser.extractMessageContent e) = EmptyString) ->
  forall acc w, fst (ChatGPTParser.eachMessage rt els acc w) = acc.
Proof.
  induction els as [|e els IH]; intros H acc w; cbn [ChatGPTParser.eachMessage]; [reflexivity|].
  destruct (ChatGPTParser.extractTimestamp rt e w) as [timestamp w1].
  rewrite (H e (or_introl eq_refl)). cbn [trim trimStart trimEnd truthy].
  apply IH. intros x Hx. apply H. now right.
Qed.

Lemma preCode_is_codeBlockish anc n :
  matchSelector ChatGPTParser.preCode anc n = true ->
  matchSelector ChatGPTParser.codeBlockish anc n = true.
Proof.
  unfold matchSelector, ChatGPTParser.preCode, ChatGPTParser.codeBlockish.
  cbn [existsb matchComplex]. rewrite orb_false_r.
  intros H. apply andb_true_iff in H as [H _].
  rewrite ancestorsMatch_nil, andb_true_r. rewrite H. now rewrite orb_true_r.
Qed.

Lemma parser_artifacts_of_content e :
  ParserSpec.artifactsOf (ChatGPTParser.extractMessageContent e) =
  flat_map ChatGPTParser.codeArtifact
    (find (ChatGPTParser.contentElement e) ChatGPTParser.preCode).
Proof.
  unfold ParserSpec.artifactsOf, ChatGPTParser.extractMessageContent. cbn [Types.artifacts].
  set (ce := ChatGPTParser.contentElement e).
  destruct (negb (Nat.eqb (List.length (find ce ChatGPTParser.codeBlockish)) 0)) eqn:E.
  - destruct (flat_map ChatGPTParser.codeArtifact (find ce ChatGPTParser.preCode)); reflexivity.
  - rewrite (find_mono_nonempty ChatGPTParser.preCode ChatGPTParser.codeBlockish ce
               preCode_is_codeBlockish E).
    reflexivity.
Qed.

End ParserFacts.

(* ===================================================================== *)
(** * Properties of the parsers, the validators and the generators *)
(* ===================================================================== *)

Section ParsedConversations.
Import JsString Dom Spec JsStringFacts DomFacts.

Lemma api_messages_inked els :
  forall acc w,
    Forall (fun m => Api.text (Api.m_content m) <> EmptyString) acc ->
    Forall (fun m => Api.text (Api.m_content m) <> EmptyString)
           (fst (Api.eachMessage els acc w)).
Proof.
  induction els as [|e els IH]; intros acc w Hacc; cbn [Api.eachMessage]; [exact Hacc|].
  destruct (truthy (trim (Api.text (Api.extractMessageContent e)))) eqn:E.
  - cbn [newDate uuidv4]. apply IH. apply Forall_app. split; [exact Hacc|].
    constructor; [|constructor]. cbn. now apply truthy_trim_nonempty.
  - now apply IH.
Qed.

Lemma parser_messages_inked rt els :
  forall acc w,
    Forall (fun m => Types.text (Types.m_content m) <> EmptyString) acc ->
    Forall (fun m => Types.text (Types.m_content m) <> EmptyString)
           (fst (ChatGPTParser.eachMessage rt els acc w)).
Proof.
  induction els as [|e els IH]; intros acc w Hacc;
    cbn [ChatGPTParser.eachMessage]; [exact Hacc|].
  destruct (ChatGPTParser.extractTimestamp rt e w) as [timestamp w1].
  destruct (truthy (trim (Types.text (ChatGPTParser.extractMessageContent e)))) eqn:E.
  - cbn [uuidv4]. apply IH. apply Forall_app. split; [exact Hacc|].
    constructor; [|constructor]. cbn. now apply truthy_trim_nonempty.
  - now apply IH.
Qed.

Lemma role_is_known (r : MessageRole) : In r [user; assistant; system].
Proof. destruct r; simpl; auto. Qed.

(** What [parseConversationFromHtml] returns, when it returns. *)
Lemma api_parse_inversion rt html url w c w' :
  Api.parseConversationFromHtml rt html url w = (Ok c, w') ->
  let doc := cheerio_load rt html in
  let ms := fst (Api.extractMessages doc w) in
  ms <> [] /\
  Api.c_title c = Api.extractTitle doc /\
  Api.c_platform c = "chatgpt" /\
  Api.c_messages c = ms /\
  Api.c_metadata c =
    {| Api.cm_platform := "chatgpt";
       Api.cm_extractedAt := Api.c_createdAt c;
       Api.cm_messageCount := List.length ms;
       Api.cm_title := Api.extractTitle doc;
       Api.cm_url := Some url |}.
Proof.
  unfold Api.parseConversationFromHtml. cbn zeta.
  destruct (Api.extractMessages (cheerio_load rt html) w) as [ms w1] eqn:E.
  cbn [fst].
  destruct (Nat.eqb (List.length ms) 0) eqn:El; [discriminate|].
  cbn [newDate uuidv4]. intros [= <- _].
  cbn [Api.c_title Api.c_platform Api.c_messages Api.c_metadata Api.c_createdAt].
  repeat split. intros ->. discriminate El.
Qed.

Lemma parser_parse_inversion rt html url w c w' :
  ChatGPTParser.parseFromHtml rt html url w = (Ok c, w') ->
  let doc := cheerio_load rt html in
  let ms := fst (ChatGPTParser.extractMessages rt doc Validators.chatgptMessages w) in
  ms <> [] /\
  Types.c_title c = ChatGPTParser.extractTitle doc /\
  Types.c_platform c = chatgpt /\
  Types.c_messages c = ms /\
  Types.cm_platform (Types.c_metadata c) = chatgpt /\
  Types.cm_messageCount (Types.c_metadata c) = List.length ms /\
  Types.cm_title (Types.c_metadata c) = Some (ChatGPTParser.extractTitle doc) /\
  Types.cm_url (Types.c_metadata c) = url.
Proof.
  unfold ChatGPTParser.parseFromHtml. cbn zeta.
  match goal with |- context [if ?b then _ else _] => destruct b end; [discriminate|].
  destruct (ChatGPTParser.extractMessages rt (cheerio_load rt html)
              Validators.chatgptMessages w) as [ms w1] eqn:E.
  cbn [fst].
  destruct (Nat.eqb (List.length ms) 0) eqn:El; [discriminate|].
  cbn [newDate uuidv4]. intros [= <- _].
  cbn [Types.c_title Types.c_platform Types.c_messages Types.c_metadata
       Types.cm_platform Types.cm_messageCount Types.cm_title Types.cm_url].
  repeat split. intros ->. discriminate El.
Qed.

End ParsedConversations.

(** C1.  Every Conversation the HTML parsers return
    ([parseConversationFromHtml] of the API, [ChatGPTParser.parseFromHtml])
    has at least one message, a non-empty title, and messages that all have
    a non-empty text and a role among user, assistant and system; and when
    no message container of the page has a non-empty cleaned text, the
    parser throws instead of returning a Conversation. *)
Theorem C1_parsed_conversation_is_valid (rt : Runtime) (html : string) (w : World) :
  (forall url c w',
      Api.parseConversationFromHtml rt html url w = (Ok c, w') ->
      0 < List.length (Api.c_messages c)
      /\ Api.c_title c <> EmptyString
      /\ Forall (fun m => Api.text (Api.m_content m) <> EmptyString
                          /\ In (Api.m_role m) [user; assistant; system])
                (Api.c_messages c))
  /\ (forall url c w',
      ChatGPTParser.parseFromHtml rt html url w = (Ok c, w') ->
      0 < List.length (Types.c_messages c)
      /\ Types.c_title c <> EmptyString
      /\ Forall (fun m => Types.text (Types.m_content m) <> EmptyString
                          /\ In (Types.m_role m) [user; assistant; system])
                (Types.c_messages c))
  /\ ((forall e, In e (Api.messageElements (cheerio_load rt html)) ->
                 Api.text (Api.extractMessageContent e) = EmptyString) ->
      forall url,
        Api.parseConversationFromHtml rt html url w = (Throw Api.noMessages, w))
  /\ ((forall e, In e (Dom.query (cheerio_load rt html) Validators.chatgptMessages) ->
                 Types.text (ChatGPTParser.extractMessageContent e) = EmptyString) ->
      forall url, exists message w',
        ChatGPTParser.parseFromHtml rt html url w = (Throw message, w')).
Proof.
  split; [|split; [|split]].
  - intros url c w' H.
    apply api_parse_inversion in H as (Hne & Ht & _ & Hm & _).
    rewrite Hm, Ht. split; [|split].
    + destruct (fst (Api.extractMessages (cheerio_load rt html) w));
        [now contradiction Hne | simpl; lia].
    + apply ApiFacts.extractTitleFrom_nonempty.
    + unfold Api.extractMessages.
      eapply Forall_impl; [|apply api_messages_inked; constructor].
      intros m Hink. split; [exact Hink | apply role_is_known].
  - intros url c w' H.
    apply parser_parse_inversion in H as (Hne & Ht & _ & Hm & _).
    rewrite Hm, Ht. split; [|split].
    + destruct (fst (ChatGPTParser.extractMessages rt (cheerio_load rt html)
                       Validators.chatgptMessages w));
        [now contradiction Hne | simpl; lia].
    + apply ApiFacts.extractTitleFrom_nonempty.
    + unfold ChatGPTParser.extractMessages.
      eapply Forall_impl; [|apply parser_messages_inked; constructor].
      intros m Hink. split; [exact Hink | apply role_is_known].
  - intros Hblank url. unfold Api.parseConversationFromHtml, Api.extractMessages.
    cbn zeta. now rewrite (ApiFacts.api_eachMessage_none _ Hblank).
  - intros Hblank url. unfold ChatGPTParser.parseFromHtml. cbn zeta.
    match goal with |- context [if ?b then _ else _] => destruct b end; [eauto|].
    unfold ChatGPTParser.extractMessages.
    pose proof (ParserFacts.parser_eachMessage_none rt _ Hblank [] w) as Hnone.
    destruct (ChatGPTParser.eachMessage rt _ [] w) as [ms w1]. cbn [fst] in Hnone.
    subst ms. cbn [List.length Nat.eqb]. eauto.
Qed.

(** The demo page parses to a valid conversation, and the blank page is
    refused. *)
Lemma C1_witness :
  (exists c w',
      Api.parseConversationFromHtml (Examples.runtimeOf Examples.hooksPage)
        "chatgpt" Examples.shareUrl Examples.world0 = (Ok c, w')
      /\ 0 < List.length (Api.c_messages c)
      /\ Api.c_title c <> EmptyString
      /\ Forall (fun m => Api.text (Api.m_content m) <> EmptyString
                          /\ In (Api.m_role m) [user; assistant; system])
                (Api.c_messages c))
  /\ Api.parseConversationFromHtml (Examples.runtimeOf Examples.blankPage)
       "chatgpt" Examples.shareUrl Examples.world0
     = (Throw Api.noMessages, Examples.world0).
Proof.
  split.
  - destruct (Api.parseConversationFromHtml (Examples.runtimeOf Examples.hooksPage)
                "chatgpt" Examples.shareUrl Examples.world0) as [[c|m] w'] eqn:E;
      [|vm_compute in E; discriminate E].
    exists c, w'. split; [reflexivity|].
    exact (proj1 (C1_parsed_conversation_is_valid
                    (Examples.runtimeOf Examples.hooksPage) "chatgpt" Examples.world0)
                 Examples.shareUrl c w' E).
  - apply (proj1 (proj2 (proj2 (C1_parsed_conversation_is_valid
                    (Examples.runtimeOf Examples.blankPage) "chatgpt" Examples.world0)))).
    intros e He. vm_compute in He. destruct He as [<-|[]]. reflexivity.
Defined.

(** C10.  In every Conversation a parser produces, the metadata block
    agrees with the top-level fields: [messageCount] is the number of
    messages, [title] the title, [platform] the platform, and [url] the
    source URL the parse was called with. *)
Theorem C10_metadata_agrees (rt : Runtime) (html : string) (w : World) :
  (forall url c w',
      Api.parseConversationFromHtml rt html url w = (Ok c, w') ->
      Api.cm_messageCount (Api.c_metadata c) = List.length (Api.c_messages c)
      /\ Api.cm_title (Api.c_metadata c) = Api.c_title c
      /\ Api.cm_platform (Api.c_metadata c) = Api.c_platform c
      /\ Api.cm_url (Api.c_metadata c) = Some url)
  /\ (forall url c w',
      ChatGPTParser.parseFromHtml rt html url w = (Ok c, w') ->
      Types.cm_messageCount (Types.c_metadata c) = List.length (Types.c_messages c)
      /\ Types.cm_title (Types.c_metadata c) = Some (Types.c_title c)
      /\ Types.cm_platform (Types.c_metadata c) = Types.c_platform c
      /\ Types.cm_url (Types.c_metadata c) = url).
Proof.
  split; intros url c w' H.
  - apply api_parse_inversion in H as (_ & -> & -> & -> & ->).
    cbn [Api.cm_messageCount Api.cm_title Api.cm_platform Api.cm_url]. auto.
  - apply parser_parse_inversion in H as (_ & -> & -> & -> & -> & -> & -> & ->). auto.
Qed.

(** On the demo page both parsers count two messages and record the URL. *)
Lemma C10_witness :
  (exists c w',
      Api.parseConversationFromHtml (Examples.runtimeOf Examples.hooksPage)
        "chatgpt" Examples.shareUrl Examples.world0 = (Ok c, w')
      /\ Api.cm_messageCount (Api.c_metadata c) = 2
      /\ Api.cm_messageCount (Api.c_metadata c) = List.length (Api.c_messages c)
      /\ Api.cm_title (Api.c_metadata c) = Api.c_title c
      /\ Api.cm_platform (Api.c_metadata c) = Api.c_platform c
      /\ Api.cm_url (Api.c_metadata c) = Some Examples.shareUrl)
  /\ (exists c w',
      ChatGPTParser.parseFromHtml (Examples.runtimeOf Examples.hooksPage)
        "chatgpt" (Some Examples.shareUrl) Examples.world0 = (Ok c, w')
      /\ Types.cm_messageCount (Types.c_metadata c) = List.length (Types.c_messages c)
      /\ Types.cm_title (Types.c_metadata c) = Some (Types.c_title c)
      /\ Types.cm_platform (Types.c_metadata c) = Types.c_platform c
      /\ Types.cm_url (Types.c_metadata c) = Some Examples.shareUrl).
Proof.
  split.
  - destruct (Api.parseConversationFromHtml (Examples.runtimeOf Examples.hooksPage)
                "chatgpt" Examples.shareUrl Examples.world0) as [[c|m] w'] eqn:E;
      [|vm_compute in E; discriminate E].
    exists c, w'. split; [reflexivity|]. split.
    + vm_compute in E. injection E as <- _. reflexivity.
    + exact (proj1 (C10_metadata_agrees (Examples.runtimeOf Examples.hooksPage)
                      "chatgpt" Examples.world0) Examples.shareUrl c w' E).
  - destruct (ChatGPTParser.parseFromHtml (Examples.runtimeOf Examples.hooksPage)
                "chatgpt" (Some Examples.shareUrl) Examples.world0) as [[c|m] w'] eqn:E;
      [|vm_compute in E; discriminate E].
    exists c, w'. split; [reflexivity|].
    exact (proj2 (C10_metadata_agrees (Examples.runtimeOf Examples.hooksPage)
                    "chatgpt" Examples.world0) (Some Examples.shareUrl) c w' E).
Defined.

(** C3.  The messages of the produced Conversation are made from the
    message containers in the order the containers have in the source
    markup: the containers are a selection of the elements of the document
    in document order, and the messages are, in the same order, the
    containers whose cleaned text is not blank. *)
Theorem C3_messages_keep_source_order (rt : Runtime) (doc : Dom.document) (w : World) :
  (map ApiSpec.payload (fst (Api.extractMessages doc w))
   = map ApiSpec.source (filter ApiSpec.kept (Api.messageElements doc))
   /\ Spec.InOrder (filter ApiSpec.kept (Api.messageElements doc))
                   (Api.messageElements doc)
   /\ Spec.InOrder (Api.messageElements doc) (Spec.allElements doc))
  /\ (map ParserSpec.payload
          (fst (ChatGPTParser.extractMessages rt doc Validators.chatgptMessages w))
      = map ParserSpec.source
          (filter ParserSpec.kept (Dom.query doc Validators.chatgptMessages))
      /\ Spec.InOrder (filter ParserSpec.kept (Dom.query doc Validators.chatgptMessages))
                      (Dom.query doc Validators.chatgptMessages)
      /\ Spec.InOrder (Dom.query doc Validators.chatgptMessages) (Spec.allElements doc)).
Proof.
  split; (split; [|split]).
  - unfold Api.extractMessages. now rewrite ApiFacts.api_eachMessage_payload.
  - apply DomFacts.InOrder_filter.
  - apply ApiFacts.firstMatching_in_order.
  - unfold ChatGPTParser.extractMessages.
    now rewrite ParserFacts.parser_eachMessage_payload.
  - apply DomFacts.InOrder_filter.
  - apply DomFacts.query_in_order.
Qed.

(** C7, as the code has it.  In the parser of the API a code element
    found in a message becomes a code artifact only when its trimmed
    content is longer than 10 characters: every artifact of the message is
    of type code, is the trimmed text of one of the code elements and is
    longer than the threshold; every code element longer than the
    threshold gives an artifact; one at or below it gives none.
    [ChatGPTParser] has no such threshold: every code element below a
    [pre] (the content element itself may be that [pre]) whose trimmed text
    is not empty gives an artifact, whatever its length, and the artifacts
    of the message are exactly these. *)
Theorem C7_code_artifacts (e : Dom.elem) :
  (let found := Dom.find e (Dom.one (Dom.byTag "code")) in
   let arts := ApiSpec.artifactsOf (Api.extractMessageContent e) in
   (forall a, In a arts ->
      Api.a_type a = code
      /\ Api.artifactThreshold < String.length (Api.a_content a)
      /\ exists c, In c found /\ Api.a_content a = JsString.trim (Dom.elemText c))
   /\ (forall c, In c found ->
         Api.artifactThreshold < String.length (JsString.trim (Dom.elemText c)) ->
         exists a, In a arts /\ Api.a_content a = JsString.trim (Dom.elemText c))
   /\ (forall c, In c found ->
         String.length (JsString.trim (Dom.elemText c)) <= Api.artifactThreshold ->
         Api.codeArtifact c = []))
  /\ (let found := Dom.find (ChatGPTParser.contentElement e) ChatGPTParser.preCode in
      let arts := ParserSpec.artifactsOf (ChatGPTParser.extractMessageContent e) in
      (forall a, In a arts ->
         Types.a_type a = code
         /\ Types.a_content a <> EmptyString
         /\ exists c, In c found /\ Types.a_content a = JsString.trim (Dom.elemText c))
      /\ (forall c, In c found ->
            JsString.trim (Dom.elemText c) <> EmptyString ->
            exists a, In a arts /\ Types.a_content a = JsString.trim (Dom.elemText c))
      /\ (forall c, In c found ->
            JsString.trim (Dom.elemText c) = EmptyString ->
            ChatGPTParser.codeArtifact c = [])).
Proof.
  split; cbn zeta.
  - rewrite ApiFacts.api_artifacts_of_content. split; [|split].
    + intros a Ha. apply in_flat_map in Ha as (c & Hc & Ha).
      unfold Api.codeArtifact in Ha.
      destruct (_ && _) eqn:E; [|destruct Ha]. destruct Ha as [<-|[]].
      cbn [Api.a_type Api.a_content].
      apply andb_true_iff in E as [_ E]. apply Nat.ltb_lt in E.
      split; [reflexivity|]. split; [exact E|]. now exists c.
    + intros c Hc Hlen.
      exists {| Api.a_type := code;
                Api.a_content := JsString.trim (Dom.elemText c);
                Api.a_language :=
                  Api.languageOf (Dom.orEmpty (Dom.attr c "class"))
                    (JsString.trim (Dom.elemText c)) |}.
      split; [|reflexivity].
      apply in_flat_map. exists c. split; [exact Hc|]. unfold Api.codeArtifact.
      apply Nat.ltb_lt in Hlen. rewrite Hlen.
      destruct (JsString.trim (Dom.elemText c)); [discriminate Hlen|].
      left. reflexivity.
    + intros c _ Hlen. unfold Api.codeArtifact.
      apply Nat.ltb_ge in Hlen. rewrite Hlen. now rewrite andb_false_r.
  - rewrite ParserFacts.parser_artifacts_of_content. split; [|split].
    + intros a Ha. apply in_flat_map in Ha as (c & Hc & Ha).
      unfold ChatGPTParser.codeArtifact in Ha.
      destruct (JsString.trim (Dom.elemText c)) as [|x t] eqn:E; [destruct Ha|].
      destruct Ha as [<-|[]]. cbn [Types.a_type Types.a_content].
      split; [reflexivity|]. split; [discriminate|]. exists c. now rewrite E.
    + intros c Hc Hne.
      exists {| Types.a_type := code;
                Types.a_content := JsString.trim (Dom.elemText c);
                Types.a_language := ChatGPTParser.detectCodeLanguage c;
                Types.a_filename := None;
                Types.a_metadata := None |}.
      split; [|reflexivity].
      apply in_flat_map. exists c. split; [exact Hc|]. unfold ChatGPTParser.codeArtifact.
      destruct (JsString.trim (Dom.elemText c)); [congruence|].
      left. reflexivity.
    + intros c _ Hempty. unfold ChatGPTParser.codeArtifact. now rewrite Hempty.
Qed.

(** In a message with the inline code [npm i] and a block of Python, only
    the block is an artifact, in both parsers; and [ChatGPTParser] takes
    the block of a container whose content element is the [pre] itself. *)
Lemma C7_witness :
  (exists a,
      ApiSpec.artifactsOf (Api.extractMessageContent Examples.mixedCode) = [a]
      /\ Api.a_type a = code
      /\ Api.artifactThreshold < String.length (Api.a_content a))
  /\ (exists a,
      ParserSpec.artifactsOf (ChatGPTParser.extractMessageContent Examples.mixedCode) = [a]
      /\ Types.a_type a = code
      /\ Types.a_content a <> EmptyString)
  /\ (exists a,
      ParserSpec.artifactsOf (ChatGPTParser.extractMessageContent Examples.preContent) = [a]
      /\ Types.a_content a = "print(1)").
Proof.
  split; [|split].
  - eexists. split; [reflexivity|].
    destruct (proj1 (proj1 (C7_code_artifacts Examples.mixedCode)) _
                (or_introl eq_refl)) as (Ht & Hl & _).
    split; [exact Ht | exact Hl].
  - eexists. split; [reflexivity|].
    destruct (proj1 (proj2 (C7_code_artifacts Examples.mixedCode)) _
                (or_introl eq_refl)) as (Ht & Hl & _).
    split; [exact Ht | exact Hl].
  - eexists. split; reflexivity.
Defined.

(** C7 as the specification words it does not hold of [ChatGPTParser]: on
    a page whose only message holds a code block of one character, far
    below any useful threshold, the message extracted has that block as
    its artifact; the parser of the API discards it. *)
Lemma C7_counterexample :
  Dom.query Examples.tinyPage Validators.chatgptMessages = [Examples.tinyBlock]
  /\ map (fun m => ParserSpec.artifactsOf (Types.m_content m))
       (fst (ChatGPTParser.extractMessages (Examples.runtimeOf Examples.tinyPage)
               Examples.tinyPage Validators.chatgptMessages Examples.world0))
     = [[ {| Types.a_type := code; Types.a_content := "x"; Types.a_language := None;
             Types.a_filename := None; Types.a_metadata := None |} ]]
  /\ String.length "x" <= Api.artifactThreshold
  /\ ApiSpec.artifactsOf (Api.extractMessageContent Examples.tinyBlock) = [].
Proof.
  split; [reflexivity|]. split; [vm_compute; reflexivity|].
  split; [vm_compute; lia | reflexivity].
Qed.

Section CsvExport.
Import JsString Spec JsStringFacts Generators.

Lemma append_assoc (a b c : string) : (a ++ b) ++ c = a ++ (b ++ c).
Proof. induction a as [|x a IH]; simpl; [reflexivity | now rewrite IH]. Qed.

Lemma append_nil_r (a : string) : a ++ EmptyString = a.
Proof. induction a as [|x a IH]; simpl; [reflexivity | now rewrite IH]. Qed.

(** The scan of [replace] doubles the quotes. *)
Lemma replace_doubles (t : string) :
  replaceAllChar dquote (DQ ++ DQ) t = doubleQuotes t.
Proof.
  change (DQ ++ DQ) with (String dquote (String dquote EmptyString)).
  induction t as [|c t IH]; cbn [replaceAllChar doubleQuotes]; [reflexivity|].
  destruct (Ascii.eqb c dquote); rewrite IH; reflexivity.
Qed.

Lemma csvUnquote_quoted (t : string) : csvUnquote (doubleQuotes t ++ DQ) = Some t.
Proof.
  induction t as [|c t IH]; [reflexivity|].
  cbn [doubleQuotes]. destruct (Ascii.eqb c dquote) eqn:E.
  - apply Ascii.eqb_eq in E. subst c.
    change (csvUnquote (String dquote (String dquote (doubleQuotes t ++ DQ))) = Some (String dquote t)).
    cbn [csvUnquote]. rewrite Ascii.eqb_refl. rewrite IH. reflexivity.
  - change (csvUnquote (String c (doubleQuotes t ++ DQ)) = Some (String c t)).
    cbn [csvUnquote]. rewrite E, IH. reflexivity.
Qed.

Lemma escapeCSV_role (r : MessageRole) : escapeCSV (Types.roleName r) = Types.roleName r.
Proof. destruct r; reflexivity. Qed.

Lemma csvRows_append rt b ms :
  forall output,
    csvRows rt b ms output =
    output ++ fold_right String.append EmptyString (map (csvRow rt b) ms).
Proof.
  induction ms as [|m ms IH]; intros output; cbn [csvRows map fold_right].
  - now rewrite append_nil_r.
  - now rewrite IH, append_assoc.
Qed.

End CsvExport.

(** C8.  The CSV generator writes one line per message whose second field
    is the escaped text of the message.  A text with a comma and a double
    quote is written wrapped in double quotes with each of its double
    quotes doubled (and reads back, as a quoted CSV field, to the text); a
    text with no comma, no double quote and no line feed is written
    unchanged. *)
Theorem C8_csv_escaping (rt : Runtime) (conversation : Types.Conversation)
    (options : Generators.ExportOptions) (t : string) :
  (JsString.includes t "," = true -> JsString.includes t JsString.DQ = true ->
   Generators.escapeCSV t = Spec.csvQuoted t
   /\ Spec.csvReadField (Generators.escapeCSV t) = Some t)
  /\ (JsString.includes t "," = false -> JsString.includes t JsString.DQ = false ->
      JsString.includes t JsString.NL = false ->
      Generators.escapeCSV t = t)
  /\ Generators.CSV_generate rt conversation options
     = Generators.csvHeader (Generators.orTrue (Generators.includeTimestamps options))
       ++ fold_right String.append EmptyString
            (map (fun m =>
                    Types.roleName (Types.m_role m) ++ ","
                    ++ Generators.escapeCSV (Types.text (Types.m_content m))
                    ++ (if Generators.orTrue (Generators.includeTimestamps options)
                        then "," ++ Generators.escapeCSV
                                      (format rt (Types.m_timestamp m) "yyyy-MM-dd HH:mm:ss")
                        else EmptyString)
                    ++ JsString.NL)
                 (Types.c_messages conversation)).
Proof.
  split; [|split].
  - intros Hc Hq. unfold Generators.escapeCSV, Spec.csvQuoted.
    rewrite Hc, replace_doubles. cbn [orb]. split; [reflexivity|].
    change (JsString.DQ ++ ?x) with (String JsString.dquote x).
    cbn [Spec.csvReadField]. rewrite Ascii.eqb_refl. apply csvUnquote_quoted.
  - intros Hc Hq Hn. unfold Generators.escapeCSV. now rewrite Hc, Hq, Hn.
  - unfold Generators.CSV_generate. rewrite csvRows_append. cbn [String.append].
    f_equal. f_equal. apply map_ext. intros m. unfold Generators.csvRow.
    rewrite escapeCSV_role.
    destruct (Generators.orTrue (Generators.includeTimestamps options));
      cbn [app JsString.join]; now rewrite ?append_assoc.
Qed.

(** The sample conversation: its text, with a comma and quotes, is written
    quoted and doubled; the role, with none of them, is written as it is. *)
Lemma C8_witness :
  Generators.escapeCSV Examples.quotedText
  = Spec.csvQuoted Examples.quotedText
  /\ Spec.csvReadField (Generators.escapeCSV Examples.quotedText) = Some Examples.quotedText
  /\ Generators.escapeCSV "user" = "user".
Proof.
  pose proof (C8_csv_escaping (Examples.runtimeOf []) Examples.sampleConversation
                Generators.noOptions Examples.quotedText) as (Hq & _ & _).
  pose proof (C8_csv_escaping (Examples.runtimeOf []) Examples.sampleConversation
                Generators.noOptions "user") as (_ & Hp & _).
  destruct (Hq eq_refl eq_refl) as [H1 H2].
  split; [exact H1 | split; [exact H2 | exact (Hp eq_refl eq_refl eq_refl)]].
Defined.

Section UrlValidation.
Import JsString Spec JsStringFacts Validators.

Lemma firstPlatform_none entries url :
  (forall p config, In (p, config) entries -> matchPattern (pattern config) url = None) ->
  firstPlatform entries url = None.
Proof.
  induction entries as [|[p config] rest IH]; intros H; cbn [firstPlatform]; [reflexivity|].
  rewrite (H p config (or_introl eq_refl)). apply IH.
  intros q c Hq. apply (H q c). now right.
Qed.

Lemma firstPlatform_some entries url p id :
  firstPlatform entries url = Some (p, id) ->
  exists config, In (p, config) entries /\ matchPattern (pattern config) url = Some id.
Proof.
  induction entries as [|[q config] rest IH]; cbn [firstPlatform]; [discriminate|].
  destruct (matchPattern (pattern config) url) as [i|] eqn:E.
  - intros [= <- <-]. exists config. split; [now left | exact E].
  - intros H. destruct (IH H) as (c & Hc & Hm). exists c. split; [now right | exact Hm].
Qed.

Lemma dropPrefixCI_app (a b s r : string) :
  dropPrefixCI (a ++ b) s = Some r -> exists r', dropPrefixCI a s = Some r'.
Proof.
  revert s. induction a as [|x a IH]; intros s; cbn [String.append dropPrefixCI].
  - intros _. now exists s.
  - destruct s as [|y s]; [discriminate|].
    destruct (Ascii.eqb (lowerChar x) (lowerChar y)); [apply IH | discriminate].
Qed.

(** Each of the four patterns asks for the scheme [https]. *)
Lemma platform_pattern_https p config url id :
  In (p, config) PLATFORMS ->
  matchPattern (pattern config) url = Some id ->
  httpsScheme url = true.
Proof.
  intros Hin Hm. unfold matchPattern in Hm.
  destruct (dropPrefixCI (prefix (pattern config)) url) as [r|] eqn:E; [|discriminate].
  unfold httpsScheme.
  assert (Hp : exists rest, prefix (pattern config) = "https://" ++ rest).
  { cbn in Hin. destruct Hin as [H|[H|[H|[H|[]]]]]; injection H as _ <-; cbn;
      eexists; reflexivity. }
  destruct Hp as (rest & Hp). rewrite Hp in E.
  apply dropPrefixCI_app in E as (r' & ->). reflexivity.
Qed.

Lemma trim_truthy_nonempty (s : string) : truthy (trim s) = true -> truthy s = true.
Proof. destruct s; [discriminate | reflexivity]. Qed.

(** Where the handler of the API stops before [fetch]. *)
Lemma handler_fetches rt req w :
  Api.fetched (Api.handler rt req w) = []
  \/ exists u,
       Api.method req = "POST"
       /\ Api.body_url req = Some u
       /\ u <> EmptyString
       /\ (includes u "chatgpt.com" || includes u "chat.openai.com") = true
       /\ Api.fetched (Api.handler rt req w) = [u].
Proof.
  unfold Api.handler.
  destruct (String.eqb (Api.method req) "OPTIONS"); [now left|].
  destruct (String.eqb (Api.method req) "POST") eqn:Em; [|now left].
  apply String.eqb_eq in Em. cbn [negb].
  destruct (Api.body_url req) as [u|]; [|now left].
  destruct (truthy u) eqn:Et; [|now left]. cbn [negb].
  destruct (includes u "chatgpt.com") eqn:E1;
    destruct (includes u "chat.openai.com") eqn:E2; cbn [negb andb];
    try (right; exists u; rewrite E1, E2;
         split; [exact Em|]; split; [reflexivity|];
         split; [now apply truthy_true_iff|]; split; [reflexivity|];
         destruct (fetch rt u) as [m|[|] st stText html]; cbn [negb]; try reflexivity;
         destruct (Api.parseConversationFromHtml rt html u w) as [[c|m] w']; reflexivity).
  now left.
Qed.

End UrlValidation.

(** C5.  A well-formed URL that matches none of the platform patterns is
    refused with the error of an unsupported platform, the result carries
    the names of the supported platforms as its first suggestion, and no
    platform is returned.  (The URL is the input without the white space
    around it, which is what [validateChatURL] tests.) *)
Theorem C5_unsupported_platform (rt : Runtime) (url : string) :
  URL_parses rt EmptyString = false ->
  URL_parses rt (JsString.trim url) = true ->
  (forall p config, In (p, config) Validators.PLATFORMS ->
     Validators.matchPattern (Validators.pattern config) (JsString.trim url) = None) ->
  Validators.validateChatURL rt url
  = {| Validators.isValid := false;
       Validators.platform := None;
       Validators.chatId := None;
       Validators.error := Some Validators.UNSUPPORTED_PLATFORM;
       Validators.suggestions :=
         Some [ "Supported platforms: ChatGPT, Claude, Gemini, Perplexity";
                "Make sure you're using a shared chat link";
                "Check that the URL format matches the platform's sharing format" ] |}
  /\ JsString.join ", " (map (fun e => Validators.name (snd e)) Validators.PLATFORMS)
     = "ChatGPT, Claude, Gemini, Perplexity"
  /\ Validators.detectPlatform rt url = None.
Proof.
  intros Hempty Hurl Hnone.
  assert (Ht : JsString.truthy (JsString.trim url) = true).
  { destruct (JsString.trim url); [congruence | reflexivity]. }
  assert (Hv : Validators.validateChatURL rt url
               = {| Validators.isValid := false;
                    Validators.platform := None;
                    Validators.chatId := None;
                    Validators.error := Some Validators.UNSUPPORTED_PLATFORM;
                    Validators.suggestions :=
                      Some [ "Supported platforms: ChatGPT, Claude, Gemini, Perplexity";
                             "Make sure you're using a shared chat link";
                             "Check that the URL format matches the platform's sharing format" ] |}).
  { unfold Validators.validateChatURL.
    rewrite (trim_truthy_nonempty url Ht), Ht, Hurl. cbn [negb].
    now rewrite (firstPlatform_none Validators.PLATFORMS (JsString.trim url) Hnone). }
  split; [exact Hv | split; [reflexivity|]].
  unfold Validators.detectPlatform. now rewrite Hv.
Qed.

(** The URL of the scenario, [https://example.com/chat/123]. *)
Lemma C5_witness :
  Validators.error
    (Validators.validateChatURL (Examples.runtimeOf []) "https://example.com/chat/123")
  = Some Validators.UNSUPPORTED_PLATFORM
  /\ Validators.detectPlatform (Examples.runtimeOf []) "https://example.com/chat/123" = None.
Proof.
  assert (Hnone : forall p config, In (p, config) Validators.PLATFORMS ->
            Validators.matchPattern (Validators.pattern config)
              (JsString.trim "https://example.com/chat/123") = None).
  { intros p config Hin. cbn in Hin.
    destruct Hin as [H|[H|[H|[H|[]]]]]; injection H as _ <-; reflexivity. }
  destruct (C5_unsupported_platform (Examples.runtimeOf [])
              "https://example.com/chat/123" eq_refl eq_refl Hnone) as (Hv & _ & Hd).
  split; [now rewrite Hv | exact Hd].
Defined.

(** C4, as the code has it.  [validateChatURL] accepts an input only if,
    without the white space around it, it parses as a URL, starts with
    [https://] and matches one of the four platform patterns (letters in
    any case); it is a function of its input and fetches nothing.  The
    handler of the API fetches only for a POST whose URL is not empty and
    contains [chatgpt.com] or [chat.openai.com], and then only that URL; a
    POST whose URL contains neither is answered 400 with nothing fetched. *)
Theorem C4_url_checks (rt : Runtime) (url : string) (req : Api.Request) (w : World) :
  (Validators.isValid (Validators.validateChatURL rt url) = true ->
     URL_parses rt (JsString.trim url) = true
     /\ Spec.httpsScheme (JsString.trim url) = true
     /\ exists p config id,
          In (p, config) Validators.PLATFORMS
          /\ Validators.matchPattern (Validators.pattern config) (JsString.trim url) = Some id
          /\ Validators.platform (Validators.validateChatURL rt url) = Some p
          /\ Validators.chatId (Validators.validateChatURL rt url) = Some id)
  /\ (Api.fetched (Api.handler rt req w) = []
      \/ exists u,
           Api.method req = "POST"
           /\ Api.body_url req = Some u
           /\ u <> EmptyString
           /\ (JsString.includes u "chatgpt.com" || JsString.includes u "chat.openai.com") = true
           /\ Api.fetched (Api.handler rt req w) = [u])
  /\ (forall u, Api.body_url req = Some u ->
        JsString.includes u "chatgpt.com" = false ->
        JsString.includes u "chat.openai.com" = false ->
        Api.fetched (Api.handler rt req w) = []
        /\ (Api.method req = "POST" ->
            Api.status (Api.reply (Api.handler rt req w)) = 400)).
Proof.
  split; [|split].
  - unfold Validators.validateChatURL.
    destruct (JsString.truthy url); cbn [negb]; [|discriminate].
    destruct (JsString.truthy (JsString.trim url)); cbn [negb]; [|discriminate].
    destruct (URL_parses rt (JsString.trim url)) eqn:Eu; cbn [negb]; [|discriminate].
    destruct (Validators.firstPlatform Validators.PLATFORMS (JsString.trim url))
      as [[p id]|] eqn:Ef; [|discriminate].
    intros _. cbn.
    apply firstPlatform_some in Ef as (config & Hin & Hm).
    split; [reflexivity|]. split; [eapply platform_pattern_https; eassumption|].
    exists p, config, id. auto.
  - apply handler_fetches.
  - intros u Hu H1 H2. unfold Api.handler. rewrite Hu, H1, H2.
    destruct (String.eqb (Api.method req) "OPTIONS") eqn:Eo.
    + split; [reflexivity|]. intros Hm. rewrite Hm in Eo. discriminate Eo.
    + destruct (String.eqb (Api.method req) "POST") eqn:Ep; cbn [negb].
      * destruct (JsString.truthy u); cbn; split; reflexivity.
      * split; [reflexivity|]. intros Hm. rewrite Hm in Ep. discriminate Ep.
Qed.

(** A share link in capitals is accepted, and a POST of another site is
    answered 400 with nothing fetched. *)
Lemma C4_witness :
  (URL_parses (Examples.runtimeOf []) (JsString.trim " HTTPS://ChatGPT.com/share/ABC-123 ") = true
   /\ Spec.httpsScheme (JsString.trim " HTTPS://ChatGPT.com/share/ABC-123 ") = true)
  /\ Api.fetched (Api.handler (Examples.runtimeOf [])
                    {| Api.method := "POST";
                       Api.body_url := Some "https://example.com/chat/123" |}
                    Examples.world0) = []
  /\ Api.status (Api.reply (Api.handler (Examples.runtimeOf [])
                    {| Api.method := "POST";
                       Api.body_url := Some "https://example.com/chat/123" |}
                    Examples.world0)) = 400.
Proof.
  pose proof (C4_url_checks (Examples.runtimeOf []) " HTTPS://ChatGPT.com/share/ABC-123 "
                {| Api.method := "POST";
                   Api.body_url := Some "https://example.com/chat/123" |}
                Examples.world0) as (Hv & _ & Hh).
  split.
  - destruct (Hv eq_refl) as (H1 & H2 & _). split; [exact H1 | exact H2].
  - destruct (Hh _ eq_refl eq_refl eq_refl) as [H1 H2]. split; [exact H1 | exact (H2 eq_refl)].
Defined.

(** C4 as the specification words it does not hold of the handler of the
    API: a POST of [https://chat.openai.com/share/abc], a well-formed
    HTTPS URL that matches none of the four patterns and that
    [validateChatURL] refuses, passes the test of the handler and is
    fetched. *)
Lemma C4_counterexample :
  Api.fetched (Api.handler (Examples.runtimeOf Examples.hooksPage)
                 Examples.legacyRequest Examples.world0)
  = [Examples.legacyUrl]
  /\ URL_parses (Examples.runtimeOf Examples.hooksPage) Examples.legacyUrl = true
  /\ Spec.httpsScheme Examples.legacyUrl = true
  /\ Validators.firstPlatform Validators.PLATFORMS Examples.legacyUrl = None
  /\ Validators.isValid
       (Validators.validateChatURL (Examples.runtimeOf Examples.hooksPage)
          Examples.legacyUrl) = false.
Proof. repeat split. Qed.

(** C6, as the code has it.  For a container whose role attribute names no
    role: the parser of the API gives it the role user when its text, put
    in lower case, is shorter than 50 code units and its markup does not
    mention [code], and the role assistant when that text is longer, or the
    markup mentions [code], in particular when the container holds a code
    element.  [ChatGPTParser] has no length heuristic: it gives such a
    container the role user when it carries the marker class
    [user-message], and the role assistant when it carries no marker. *)
Theorem C6_role_without_attribute (e : Dom.elem) :
  RoleSpec.noRoleAttribute e = true ->
  (RoleSpec.short e = true -> RoleSpec.mentionsCode e = false ->
   Api.extractMessageRole e = user)
  /\ (RoleSpec.short e = false -> Api.extractMessageRole e = assistant)
  /\ (RoleSpec.mentionsCode e = true -> Api.extractMessageRole e = assistant)
  /\ (Spec.wellFormed (Dom.self e) = true -> RoleSpec.holdsCode e = true ->
      Api.extractMessageRole e = assistant)
  /\ (ChatGPTParser.hasMarker e "user-message" = true ->
      ChatGPTParser.extractMessageRole e = user)
  /\ (RoleSpec.noMarker e = true -> ChatGPTParser.extractMessageRole e = assistant).
Proof.
  unfold RoleSpec.noRoleAttribute, Api.roleAttrName. intros Hno.
  apply andb_true_iff in Hno as [Hno Hs]. apply andb_true_iff in Hno as [Hu Ha].
  apply negb_true_iff in Hu, Ha, Hs.
  assert (Hapi : Api.extractMessageRole e
                 = if RoleSpec.short e && negb (RoleSpec.mentionsCode e)
                   then user else assistant).
  { unfold Api.extractMessageRole, RoleSpec.short, RoleSpec.mentionsCode, Api.roleAttrName.
    now rewrite Hu, Ha, Hs. }
  repeat split.
  - intros Hshort Hcode. now rewrite Hapi, Hshort, Hcode.
  - intros Hshort. now rewrite Hapi, Hshort.
  - intros Hcode. rewrite Hapi, Hcode. now rewrite andb_false_r.
  - intros Hwf Hholds. rewrite Hapi.
    unfold RoleSpec.mentionsCode.
    rewrite (DomFacts.code_in_elemHtml e Hwf).
    + now rewrite andb_false_r.
    + now apply DomFacts.nonempty_length.
  - intros Hm. unfold ChatGPTParser.extractMessageRole. now rewrite Hu, Ha, Hs, Hm.
  - intros Hm. unfold RoleSpec.noMarker in Hm.
    apply andb_true_iff in Hm as [Hm _]. apply negb_true_iff in Hm.
    unfold ChatGPTParser.extractMessageRole. rewrite Hu, Ha, Hs, Hm.
    destruct (ChatGPTParser.hasMarker e "assistant-message"); reflexivity.
Qed.

(** A short turn of a tool is a user turn for the API and an assistant
    turn for [ChatGPTParser]; one that holds a code element is an assistant
    turn for the API. *)
Lemma C6_witness :
  Api.extractMessageRole Examples.toolShort = user
  /\ ChatGPTParser.extractMessageRole Examples.toolShort = assistant
  /\ Api.extractMessageRole Examples.toolCode = assistant.
Proof.
  destruct (C6_role_without_attribute Examples.toolShort eq_refl)
    as (H1 & _ & _ & _ & _ & H2).
  destruct (C6_role_without_attribute Examples.toolCode eq_refl)
    as (_ & _ & _ & H3 & _).
  split; [exact (H1 eq_refl eq_refl) | split; [exact (H2 eq_refl) | exact (H3 eq_refl eq_refl)]].
Defined.

(** C6 as the specification words it does not hold of [ChatGPTParser]: on
    a page whose only container is a turn of a tool, of eight characters,
    without marker and without code, the selector of the parser finds the
    container and the message extracted from it has the role assistant,
    not user. *)
Lemma C6_counterexample :
  Dom.query Examples.toolPage Validators.chatgptMessages = [Examples.toolShort]
  /\ RoleSpec.noRoleAttribute Examples.toolShort = true
  /\ RoleSpec.noMarker Examples.toolShort = true
  /\ String.length (JsString.toLowerCase (Dom.elemText Examples.toolShort)) = 8
  /\ RoleSpec.short Examples.toolShort = true
  /\ RoleSpec.mentionsCode Examples.toolShort = false
  /\ RoleSpec.holdsCode Examples.toolShort = false
  /\ ChatGPTParser.extractMessageRole Examples.toolShort = assistant
  /\ ChatGPTParser.extractMessageRole Examples.toolShort <> user
  /\ map Types.m_role
       (fst (ChatGPTParser.extractMessages (Examples.runtimeOf Examples.toolPage)
               Examples.toolPage Validators.chatgptMessages Examples.world0))
     = [assistant].
Proof.
  split; [reflexivity|]. split; [reflexivity|]. split; [reflexivity|].
  split; [reflexivity|]. split; [reflexivity|]. split; [reflexivity|].
  split; [reflexivity|]. split; [reflexivity|]. split; [discriminate|].
  vm_compute. reflexivity.
Qed.

Section TwoTurnScenario.
Import JsString Dom Spec JsStringFacts DomFacts.

Lemma cleaned_ink (s : string) :
  truthy (trim (Api.cleanText (trim s))) = hasInk s.
Proof.
  unfold Api.cleanText, collapseSpaces.
  now rewrite truthy_trim, hasInk_trim, hasInk_blankLines, hasInk_collapseFrom, hasInk_trim.
Qed.

Lemma long_has_ink (s : string) (n : nat) :
  n < String.length (trim s) -> hasInk s = true.
Proof.
  intros H. rewrite <- truthy_trim. destruct (trim s); [inversion H | reflexivity].
Qed.

Lemma filter_all {A : Type} (f : A -> bool) (l : list A) :
  forallb f l = true -> filter f l = l.
Proof.
  induction l as [|x l IH]; simpl; [reflexivity|].
  intros H. apply andb_true_iff in H as [-> H]. now rewrite IH.
Qed.

Variables assistantText codeClass codeText : string.
Hypothesis Hlong : Api.artifactThreshold < String.length (trim codeText).
Hypothesis Hjs : Api.languageOf codeClass (trim codeText) = Some "javascript".

(** What the parser reads from the two containers of the page. *)
Lemma two_turn_sources :
  map ApiSpec.source
      (Api.messageElements
         (Examples.twoTurnPage Examples.hello assistantText codeClass codeText))
  = [ (user,
       {| Api.text := Examples.hello;
          Api.artifacts := None;
          Api.formatting := {| Api.isMarkdown := true; Api.hasCodeBlocks := false;
                               Api.hasLinks := false; Api.hasImages := false |} |});
      (assistant,
       {| Api.text := Api.cleanText (trim (assistantText ++ codeText));
          Api.artifacts :=
            Some [ {| Api.a_type := code;
                      Api.a_content := trim codeText;
                      Api.a_language := Some "javascript" |} ];
          Api.formatting := {| Api.isMarkdown := true; Api.hasCodeBlocks := true;
                               Api.hasLinks := false; Api.hasImages := false |} |}) ].
Proof.
  assert (Ht : truthy (trim codeText) = true).
  { destruct (trim codeText); [inversion Hlong | reflexivity]. }
  apply Nat.ltb_lt in Hlong.
  cbv -[Examples.hello String.append trim Api.cleanText Nat.ltb String.length
        Api.languageOf truthy Api.artifactThreshold].
  rewrite !append_nil_r. rewrite Ht, Hlong, Hjs.
  f_equal.
Qed.

Lemma two_turn_kept :
  filter ApiSpec.kept
    (Api.messageElements
       (Examples.twoTurnPage Examples.hello assistantText codeClass codeText))
  = Api.messageElements
      (Examples.twoTurnPage Examples.hello assistantText codeClass codeText).
Proof.
  apply filter_all.
  cbv -[Examples.hello String.append trim Api.cleanText truthy].
  rewrite !append_nil_r, !cleaned_ink, hasInk_app.
  rewrite (long_has_ink codeText Hlong). now rewrite orb_true_r.
Qed.

End TwoTurnScenario.

(** C2.  Scenario: the page holds exactly one user container, with the text
    [Hello! Can you help me understand how React hooks work?], and one
    assistant container with a paragraph and a fenced code block whose
    language is recognised as javascript (from the class of the code
    element or from its content) and whose code is longer than the
    artifact threshold.  The parser of the API returns a Conversation of
    two messages, the first of role user, the second of role assistant,
    and the artifacts of the second are exactly one artifact, of type code
    and language [javascript]. *)
Theorem C2_two_turn_scenario (rt : Runtime) (html url : string) (w : World)
    (assistantText codeClass codeText : string) :
  cheerio_load rt html
  = Examples.twoTurnPage Examples.hello assistantText codeClass codeText ->
  Api.artifactThreshold < String.length (JsString.trim codeText) ->
  Api.languageOf codeClass (JsString.trim codeText) = Some "javascript" ->
  exists c w' m0 m1 a,
    Api.parseConversationFromHtml rt html url w = (Ok c, w')
    /\ Api.c_messages c = [m0; m1]
    /\ List.length (Api.c_messages c) = 2
    /\ Api.m_role m0 = user
    /\ Api.text (Api.m_content m0) = Examples.hello
    /\ Api.m_role m1 = assistant
    /\ Api.artifacts (Api.m_content m1) = Some [a]
    /\ Api.a_type a = code
    /\ Api.a_language a = Some "javascript"
    /\ Api.a_content a = JsString.trim codeText.
Proof.
  intros Hload Hlong Hjs.
  pose proof (ApiFacts.api_eachMessage_payload
                (Api.messageElements (cheerio_load rt html)) [] w) as Hpay.
  rewrite Hload in Hpay.
  rewrite (@two_turn_kept assistantText codeClass codeText Hlong) in Hpay.
  rewrite (@two_turn_sources assistantText codeClass codeText Hlong Hjs) in Hpay.
  cbn [map app] in Hpay.
  unfold Api.parseConversationFromHtml, Api.extractMessages. cbn zeta.
  rewrite Hload.
  destruct (Api.eachMessage _ [] w) as [ms w1]. cbn [fst] in Hpay.
  destruct ms as [|m0 [|m1 [|m2 ms]]]; try discriminate Hpay.
  cbn [map] in Hpay. unfold ApiSpec.payload in Hpay.
  injection Hpay as Hr0 Hc0 Hr1 Hc1.
  cbn [List.length Nat.eqb newDate uuidv4].
  eexists. eexists. exists m0, m1.
  exists {| Api.a_type := code; Api.a_content := JsString.trim codeText;
            Api.a_language := Some "javascript" |}.
  split; [reflexivity|]. cbn [Api.c_messages List.length].
  rewrite Hr0, Hc0, Hr1, Hc1. cbn [Api.text Api.artifacts Api.a_type Api.a_language Api.a_content].
  repeat split.
Qed.

(** The demo page, whose code block has no class: the language is read
    from its content ([import] ... [from]). *)
Lemma C2_witness :
  exists c w' m0 m1 a,
    Api.parseConversationFromHtml (Examples.runtimeOf Examples.hooksPage)
      "chatgpt" Examples.shareUrl Examples.world0 = (Ok c, w')
    /\ Api.c_messages c = [m0; m1]
    /\ List.length (Api.c_messages c) = 2
    /\ Api.m_role m0 = user
    /\ Api.text (Api.m_content m0) = Examples.hello
    /\ Api.m_role m1 = assistant
    /\ Api.artifacts (Api.m_content m1) = Some [a]
    /\ Api.a_type a = code
    /\ Api.a_language a = Some "javascript"
    /\ Api.a_content a = JsString.trim Examples.hooksCode.
Proof.
  apply (@C2_two_turn_scenario (Examples.runtimeOf Examples.hooksPage) "chatgpt"
           Examples.shareUrl Examples.world0 Examples.intro "" Examples.hooksCode).
  - reflexivity.
  - vm_compute. lia.
  - reflexivity.
Defined.

Section JsonRoundTrip.
Import Json Spec Types Generators.

(** Induction on a value, with the property known of every item of an
    array and of every property value of an object. *)
Lemma jsval_ind2 (P : jsval -> Prop) :
  P VUndefined -> P VNull ->
  (forall b, P (VBool b)) -> (forall n, P (VNum n)) ->
  (forall s, P (VStr s)) -> (forall d, P (VDate d)) ->
  (forall items, Forall P items -> P (VArr items)) ->
  (forall fields, Forall (fun kv => P (snd kv)) fields -> P (VObj fields)) ->
  forall v, P v.
Proof.
  intros HU HN HB HZ HS HD HA HO. fix IH 1. intros [| |b|n|s|d|items|fields].
  - exact HU.
  - exact HN.
  - apply HB.
  - apply HZ.
  - apply HS.
  - apply HD.
  - apply HA.
    exact ((fix go (l : list jsval) : Forall P l :=
              match l with
              | [] => Forall_nil P
              | x :: l' => Forall_cons x (IH x) (go l')
              end) items).
  - apply HO.
    exact ((fix go (l : list (string * jsval)) : Forall (fun kv => P (snd kv)) l :=
              match l with
              | [] => Forall_nil _
              | kv :: l' => Forall_cons kv (IH (snd kv)) (go l')
              end) fields).
Qed.

(** The recursive functions, unfolded one level. *)
Lemma stringify_arr (items : list jsval) :
  stringifyValue (VArr items)
  = Some (JArr (map (fun x => match stringifyValue x with
                              | Some j => j | None => JNull end) items)).
Proof.
  cbn [stringifyValue]. do 2 f_equal.
  induction items as [|x l IH]; [reflexivity|].
  cbn [map]. rewrite <- IH. destruct (stringifyValue x); reflexivity.
Qed.

Lemma stringify_obj (fields : list (string * jsval)) :
  stringifyValue (VObj fields)
  = Some (JObj (flat_map (fun kv => match stringifyValue (snd kv) with
                                    | Some j => [(fst kv, j)] | None => [] end)
                         fields)).
Proof.
  cbn [stringifyValue]. do 2 f_equal.
  induction fields as [|[k x] l IH]; [reflexivity|].
  cbn [flat_map fst snd]. rewrite <- IH. destruct (stringifyValue x); reflexivity.
Qed.

Lemma parse_arr (items : list json) : parse (JArr items) = VArr (map parse items).
Proof. reflexivity. Qed.

Lemma parse_obj (fields : list (string * json)) :
  parse (JObj fields) = VObj (map (fun kv => (fst kv, parse (snd kv))) fields).
Proof.
  cbn [parse]. f_equal.
  induction fields as [|[k x] l IH]; [reflexivity|]. cbn [map fst snd]. now rewrite <- IH.
Qed.

Lemma jsonView_arr (items : list jsval) :
  jsonView (VArr items)
  = VArr (map (fun x => match x with VUndefined => VNull | _ => jsonView x end) items).
Proof.
  cbn [jsonView]. f_equal.
  induction items as [|x l IH]; [reflexivity|].
  cbn [map]. rewrite <- IH. destruct x; reflexivity.
Qed.

Lemma jsonView_obj (fields : list (string * jsval)) :
  jsonView (VObj fields)
  = VObj (flat_map (fun kv => match snd kv with
                              | VUndefined => []
                              | x => [(fst kv, jsonView x)] end) fields).
Proof.
  cbn [jsonView]. f_equal.
  induction fields as [|[k x] l IH]; [reflexivity|].
  cbn [flat_map fst snd]. rewrite <- IH. destruct x; reflexivity.
Qed.

Lemma plain_arr (items : list jsval) : plain (VArr items) = forallb plain items.
Proof. reflexivity. Qed.

Lemma plain_obj (fields : list (string * jsval)) :
  plain (VObj fields) = forallb (fun kv => plain (snd kv)) fields.
Proof.
  cbn [plain]. induction fields as [|[k x] l IH]; [reflexivity|].
  cbn [forallb snd]. now rewrite <- IH.
Qed.

(** Parsing what [JSON.stringify] wrote gives the JSON image of the value. *)
Lemma parse_stringify (v : jsval) :
  option_map parse (stringifyValue v)
  = match v with VUndefined => None | _ => Some (jsonView v) end.
Proof.
  induction v as [| |b|n|s|d|items IH|fields IH] using jsval_ind2; try reflexivity.
  - rewrite stringify_arr, jsonView_arr. cbn [option_map]. rewrite parse_arr, map_map.
    do 2 f_equal. induction IH as [|x l Hx _ IHl]; [reflexivity|].
    cbn [map]. rewrite IHl. f_equal.
    destruct (stringifyValue x) as [j|]; destruct x; cbn in Hx;
      try discriminate Hx; try reflexivity; now injection Hx.
  - rewrite stringify_obj, jsonView_obj. cbn [option_map]. rewrite parse_obj.
    do 2 f_equal. induction IH as [|[k x] l Hx _ IHl]; [reflexivity|].
    cbn [flat_map fst snd] in *. rewrite map_app, IHl. f_equal.
    destruct (stringifyValue x) as [j|]; destruct x; cbn in Hx;
      try discriminate Hx; try reflexivity; cbn; injection Hx as ->; reflexivity.
Qed.

(** On plain data the JSON image is the value itself. *)
Lemma jsonView_plain (v : jsval) : plain v = true -> jsonView v = v.
Proof.
  induction v as [| |b|n|s|d|items IH|fields IH] using jsval_ind2;
    try reflexivity; try discriminate.
  - rewrite plain_arr, jsonView_arr. intros H. f_equal.
    induction IH as [|x l Hx _ IHl]; [reflexivity|].
    cbn [forallb] in H. apply andb_true_iff in H as [Hp Hl].
    cbn [map]. rewrite (IHl Hl). f_equal.
    destruct x; try discriminate Hp; now apply Hx.
  - rewrite plain_obj, jsonView_obj. intros H. f_equal.
    induction IH as [|[k x] l Hx _ IHl]; [reflexivity|].
    cbn [forallb snd] in H, Hx. apply andb_true_iff in H as [Hp Hl].
    cbn [flat_map fst snd]. rewrite (IHl Hl).
    destruct x; try discriminate Hp; cbn [app]; f_equal; f_equal; now apply Hx.
Qed.

(** An object has a JSON document, which parses to the image of the object. *)
Lemma object_round_trip (fields : list (string * jsval)) :
  exists document,
    stringifyValue (VObj fields) = Some document
    /\ parse document = jsonView (VObj fields).
Proof.
  pose proof (parse_stringify (VObj fields)) as H.
  destruct (stringifyValue (VObj fields)) as [document|]; [|discriminate H].
  cbn [option_map] in H. exists document. split; [reflexivity|]. congruence.
Qed.

Lemma jsonView_messages (ms : list Message) :
  jsonView (VArr (map messageJS ms))
  = VArr (map (fun m => jsonView (messageJS m)) ms).
Proof.
  cbn [jsonView]. f_equal.
  induction ms as [|m ms IH]; [reflexivity|]. cbn [map]. now rewrite IH.
Qed.

End JsonRoundTrip.

(** C9, as the code has it.  [JSONGenerator.generate] (default options)
    followed by [JSON.parse] gives the JSON image of the Conversation: the
    same members with the same values, except that every [Date]
    ([createdAt], [updatedAt], the time stamps of the messages and of the
    metadata) comes back as its ISO string, and members whose value is
    [undefined] are absent.  On a value with no [Date] and no [undefined]
    the round trip is the identity. *)
Theorem C9_json_round_trip (conversation : Types.Conversation) :
  (exists document,
      Generators.JSON_generate conversation Generators.noOptions = Some document
      /\ Json.parse document = Spec.jsonView (Types.conversationJS conversation)
      /\ Json.get (Json.parse document) "id" = Json.VStr (Types.c_id conversation)
      /\ Json.get (Json.parse document) "title" = Json.VStr (Types.c_title conversation)
      /\ Json.get (Json.parse document) "platform"
         = Json.VStr (Types.platformName (Types.c_platform conversation))
      /\ Json.get (Json.parse document) "createdAt"
         = Json.VStr (toISOString (Types.c_createdAt conversation))
      /\ Json.get (Json.parse document) "updatedAt"
         = Json.VStr (toISOString (Types.c_updatedAt conversation))
      /\ Json.get (Json.parse document) "messages"
         = Json.VArr (map (fun m => Spec.jsonView (Types.messageJS m))
                          (Types.c_messages conversation)))
  /\ (forall v, Spec.plain v = true ->
        option_map Json.parse (Json.stringify v) = Some v).
Proof.
  split.
  - destruct (object_round_trip (Types.conversationFields conversation))
      as (document & Hs & Hp).
    exists document. split; [exact Hs|]. split; [exact Hp|].
    rewrite Hp. clear Hs Hp.
    split; [reflexivity|]. split; [reflexivity|]. split; [reflexivity|].
    split; [reflexivity|]. split; [reflexivity|].
    transitivity (Spec.jsonView (Json.VArr (map Types.messageJS
                                              (Types.c_messages conversation))));
      [reflexivity | apply jsonView_messages].
  - intros v Hplain. unfold Json.stringify. rewrite parse_stringify.
    rewrite (jsonView_plain v Hplain). destruct v; try reflexivity. discriminate Hplain.
Qed.

(** The sample conversation comes back with its dates as strings; a plain
    object comes back as it was. *)
Lemma C9_witness :
  (exists document,
      Generators.JSON_generate Examples.sampleConversation Generators.noOptions
      = Some document
      /\ Json.get (Json.parse document) "title" = Json.VStr "Greetings"
      /\ Json.get (Json.parse document) "createdAt"
         = Json.VStr "2024-01-01T00:00:00.000Z")
  /\ option_map Json.parse
       (Json.stringify (Json.VObj [("title", Json.VStr "Greetings");
                                   ("messageCount", Json.VNum 1%Z)]))
     = Some (Json.VObj [("title", Json.VStr "Greetings");
                        ("messageCount", Json.VNum 1%Z)]).
Proof.
  destruct (C9_json_round_trip Examples.sampleConversation)
    as ((document & Hg & _ & _ & Ht & _ & Hc & _) & Hplain).
  split.
  - exists document. split; [exact Hg | split; [exact Ht | exact Hc]].
  - apply Hplain. reflexivity.
Defined.

(** C9 as the specification words it does not hold: the sample
    conversation has a [Date] in
    [createdAt], and the parsed document has a string there. *)
Lemma C9_counterexample :
  exists document,
    Generators.JSON_generate Examples.sampleConversation Generators.noOptions
    = Some document
    /\ Json.get (Json.parse document) "createdAt"
       = Json.VStr "2024-01-01T00:00:00.000Z"
    /\ Json.get (Types.conversationJS Examples.sampleConversation) "createdAt"
       = Json.VDate Examples.newYear
    /\ Json.parse document <> Types.conversationJS Examples.sampleConversation.
Proof.
  eexists. split; [reflexivity|]. split; [reflexivity|]. split; [reflexivity|].
  discriminate.
Qed.

(* ===================================================================== *)
(** * Properties of the rest of the validators and of the other generators *)
(* ===================================================================== *)

Module JsMoreFacts.
Import JsString JsMore Validators MoreSpec.

Lemma ascii_cases (P : ascii -> Prop) :
  (forall b0 b1 b2 b3 b4 b5 b6 b7, P (Ascii b0 b1 b2 b3 b4 b5 b6 b7)) -> forall c, P c.
Proof. intros H [b0 b1 b2 b3 b4 b5 b6 b7]. apply H. Qed.

(** A check of a decidable fact on each of the 256 characters. *)
Ltac each_char c :=
  pattern c; apply ascii_cases;
  intros [] [] [] [] [] [] [] []; vm_compute; try reflexivity; try discriminate;
  intros; try discriminate; try reflexivity.

Lemma trimStart_unspaced c r : isSpace c = false -> trimStart (String c r) = String c r.
Proof. intros H. cbn [trimStart]. now rewrite H. Qed.

Lemma trimStart_head s :
  match trimStart s with EmptyString => True | String c _ => isSpace c = false end.
Proof.
  induction s as [|c r IH]; cbn [trimStart]; [exact I|].
  destruct (isSpace c) eqn:E; [exact IH | exact E].
Qed.

Lemma trimEnd_idem s : trimEnd (trimEnd s) = trimEnd s.
Proof.
  induction s as [|c r IH]; [reflexivity|].
  cbn [trimEnd]. destruct (trimEnd r) as [|a t] eqn:E.
  - destruct (isSpace c) eqn:Ec; [reflexivity|]. cbn [trimEnd]. now rewrite Ec.
  - cbn [trimEnd] in *. destruct (trimEnd t) eqn:Et.
    + destruct (isSpace a); [discriminate|]. injection IH as ->. reflexivity.
    + now rewrite IH.
Qed.

Lemma trimEnd_head c r :
  isSpace c = false -> exists r', trimEnd (String c r) = String c r'.
Proof.
  intros H. cbn [trimEnd]. destruct (trimEnd r).
  - rewrite H. now eexists.
  - now eexists.
Qed.

Lemma trim_idem s : trim (trim s) = trim s.
Proof.
  unfold trim. pose proof (trimStart_head s) as H.
  destruct (trimStart s) as [|c r]; [reflexivity|].
  destruct (@trimEnd_head c r H) as (r' & E). rewrite E.
  rewrite (@trimStart_unspaced c r' H), <- E. apply trimEnd_idem.
Qed.

Lemma dropPrefixCI_some p s r :
  dropPrefixCI p s = Some r ->
  exists h, s = h ++ r /\ toLowerCase h = toLowerCase p.
Proof.
  revert s. induction p as [|a p IH]; intros s; cbn [dropPrefixCI].
  - intros E. exists EmptyString. split; [|reflexivity].
    destruct s; injection E as <-; reflexivity.
  - destruct s as [|b s]; [discriminate|].
    destruct (Ascii.eqb (lowerChar a) (lowerChar b)) eqn:E; [|discriminate].
    apply Ascii.eqb_eq in E. intros H. destruct (IH s H) as (h & -> & Hh).
    exists (String b h). split; [reflexivity|]. cbn [toLowerCase]. now rewrite Hh, E.
Qed.

End JsMoreFacts.

(** X1.  White space around a URL never changes the verdict of
    [validateChatURL]: the input and the input without its surrounding
    white space get the same result, whatever the URL. *)
Theorem X1_validation_ignores_padding (rt : Runtime) (url : string) :
  Validators.validateChatURL rt url
  = Validators.validateChatURL rt (JsString.trim url).
Proof.
  unfold Validators.validateChatURL.
  destruct url as [|c r]; [reflexivity|].
  cbn [JsString.truthy negb].
  destruct (JsString.truthy (JsString.trim (String c r))) eqn:E; cbn [negb].
  - now rewrite JsMoreFacts.trim_idem, E.
  - reflexivity.
Qed.

Section ShareLinkPatterns.
Import JsString JsMore Validators MoreSpec JsStringFacts JsMoreFacts.

Lemma dropPrefixCI_any_case p head r :
  toLowerCase head = toLowerCase p -> dropPrefixCI p (head ++ r) = Some r.
Proof.
  revert head. induction p as [|a p IH]; intros [|b head]; cbn [toLowerCase];
    try discriminate.
  - intros _. cbn [String.append dropPrefixCI]. now destruct r.
  - intros [= Hc Hr]. cbn [String.append dropPrefixCI].
    rewrite Hc, Ascii.eqb_refl. now apply IH.
Qed.

Lemma prefixes_lower p c :
  In (p, c) PLATFORMS -> toLowerCase (prefix (pattern c)) = prefix (pattern c).
Proof.
  intros H. cbn in H.
  destruct H as [H|[H|[H|[H|[]]]]]; injection H as _ <-; vm_compute; reflexivity.
Qed.

(** No input starts with the prefixes of two platforms. *)
Lemma prefixes_exclusive p1 c1 p2 c2 s r1 r2 :
  In (p1, c1) PLATFORMS -> In (p2, c2) PLATFORMS ->
  dropPrefixCI (prefix (pattern c1)) s = Some r1 ->
  dropPrefixCI (prefix (pattern c2)) s = Some r2 ->
  (p1, c1) = (p2, c2).
Proof.
  intros H1 H2 E1 E2.
  destruct (@dropPrefixCI_some _ _ _ E1) as (h1 & -> & L1).
  destruct (@dropPrefixCI_some _ _ _ E2) as (h2 & Hs & L2).
  apply (f_equal toLowerCase) in Hs.
  rewrite !toLowerCase_app, L1, L2, (prefixes_lower H1), (prefixes_lower H2) in Hs.
  clear E1 E2 L1 L2. revert Hs.
  generalize (toLowerCase r1) (toLowerCase r2). intros x y.
  cbn in H1, H2.
  destruct H1 as [H1|[H1|[H1|[H1|[]]]]]; destruct H2 as [H2|[H2|[H2|[H2|[]]]]];
    injection H1 as <- <-; injection H2 as <- <-; try reflexivity;
    cbn [pattern prefix String.append]; intros Hs; discriminate Hs.
Qed.

Lemma firstPlatform_exclusive entries p config s id :
  (forall q c, In (q, c) entries -> In (q, c) PLATFORMS) ->
  In (p, config) entries ->
  matchPattern (pattern config) s = Some id ->
  firstPlatform entries s = Some (p, id).
Proof.
  intros Hsub Hin Hm. induction entries as [|[q c] rest IH]; [destruct Hin|].
  cbn [firstPlatform].
  destruct (matchPattern (pattern c) s) as [id'|] eqn:E.
  - assert (Hq : (q, c) = (p, config)).
    { unfold matchPattern in E, Hm.
      destruct (dropPrefixCI (prefix (pattern c)) s) as [r1|] eqn:E1; [|discriminate].
      destruct (dropPrefixCI (prefix (pattern config)) s) as [r2|] eqn:E2; [|discriminate].
      apply (@prefixes_exclusive q c p config s r1 r2); try assumption.
      - apply Hsub. now left.
      - apply Hsub. exact Hin. }
    injection Hq as -> ->. congruence.
  - destruct Hin as [Hq|Hin]; [injection Hq as -> ->; congruence|].
    apply IH; [|exact Hin]. intros q' c' H. apply Hsub. now right.
Qed.

End ShareLinkPatterns.

(** X2.  Every share link of a supported platform is accepted.  When the
    input, without the white space around it, is a well-formed URL made of
    the prefix of one of the four platforms, in any letter case, followed
    by a non-empty identifier of characters of that platform,
    [validateChatURL] answers with that platform and that identifier, and
    so do [detectPlatform] and [extractChatId]: the patterns never compete
    for an input. *)
Theorem X2_share_link_is_accepted (rt : Runtime) (url : string) (p : Platform)
    (config : Validators.PlatformConfig) (head id : string) :
  In (p, config) Validators.PLATFORMS ->
  JsString.trim url = head ++ id ->
  JsString.toLowerCase head
  = JsString.toLowerCase (Validators.prefix (Validators.pattern config)) ->
  id <> EmptyString ->
  Validators.allChars (Validators.idChar (Validators.pattern config)) id = true ->
  URL_parses rt (JsString.trim url) = true ->
  Validators.validateChatURL rt url
  = {| Validators.isValid := true;
       Validators.platform := Some p;
       Validators.chatId := Some id;
       Validators.error := None;
       Validators.suggestions := None |}
  /\ Validators.detectPlatform rt url = Some p
  /\ Validators.extractChatId rt url = Some id.
Proof.
  intros Hin Htrim Hhead Hne Hc Hu.
  assert (Ht : JsString.truthy id = true) by (destruct id; [congruence | reflexivity]).
  assert (Hm : Validators.matchPattern (Validators.pattern config) (JsString.trim url)
               = Some id).
  { unfold Validators.matchPattern.
    now rewrite Htrim, (@dropPrefixCI_any_case _ head id Hhead), Ht, Hc. }
  assert (Hv : Validators.validateChatURL rt url
               = {| Validators.isValid := true;
                    Validators.platform := Some p;
                    Validators.chatId := Some id;
                    Validators.error := None;
                    Validators.suggestions := None |}).
  { unfold Validators.validateChatURL.
    assert (Hnt : JsString.truthy (JsString.trim url) = true).
    { rewrite Htrim. destruct head; [exact Ht | reflexivity]. }
    rewrite (@trim_truthy_nonempty url Hnt), Hnt, Hu.
    now rewrite (@firstPlatform_exclusive Validators.PLATFORMS p config
                   (JsString.trim url) id (fun q c H => H) Hin Hm). }
  split; [exact Hv|].
  unfold Validators.detectPlatform, Validators.extractChatId. now rewrite Hv.
Qed.

(** A Claude share link, in capital letters and with white space around it. *)
Lemma X2_witness :
  Validators.validateChatURL (Examples.runtimeOf []) "  HTTPS://CLAUDE.AI/share/AB-12 "
  = {| Validators.isValid := true;
       Validators.platform := Some claude;
       Validators.chatId := Some "AB-12";
       Validators.error := None;
       Validators.suggestions := None |}.
Proof.
  refine (proj1 (@X2_share_link_is_accepted (Examples.runtimeOf [])
            "  HTTPS://CLAUDE.AI/share/AB-12 " claude
            {| Validators.name := "Claude";
               Validators.pattern :=
                 {| Validators.prefix := "https://claude.ai/share/";
                    Validators.idChar := Validators.hexDash |};
               Validators.baseUrl := "https://claude.ai" |}
            "HTTPS://CLAUDE.AI/share/" "AB-12" _ _ _ _ _ _)).
  - right. left. reflexivity.
  - vm_compute. reflexivity.
  - vm_compute. reflexivity.
  - discriminate.
  - vm_compute. reflexivity.
  - vm_compute. reflexivity.
Defined.

Section ExportRequests.
Import JsString JsMore Validators ValidatorsMore GeneratorsMore MoreSpec JsMoreFacts.

Lemma validFormats_spec f :
  arrayIncludes validFormats f = true <-> In f validFormats.
Proof.
  unfold arrayIncludes. rewrite existsb_exists. split.
  - intros (x & Hx & E). apply String.eqb_eq in E. now subst.
  - intros H. exists f. split; [exact H | apply String.eqb_refl].
Qed.

Lemma valid_url_truthy rt url :
  isValid (validateChatURL rt url) = true -> truthy url = true.
Proof. destruct url; [discriminate | reflexivity]. Qed.

Lemma valid_format_truthy f : In f validFormats -> truthy f = true.
Proof.
  intros H. cbn in H.
  destruct H as [<-|[<-|[<-|[<-|[<-|[]]]]]]; reflexivity.
Qed.

Lemma generator_of_valid f :
  In f validFormats -> exists g, createExportGenerator f = Ok g.
Proof.
  intros H. cbn in H.
  destruct H as [<-|[<-|[<-|[<-|[<-|[]]]]]]; eexists; reflexivity.
Qed.

Lemma requestErrors_nil rt request :
  requestErrors rt request = [] <->
  exists url f,
    r_url request = Some url /\ r_format request = Some f
    /\ isValid (validateChatURL rt url) = true /\ In f validFormats.
Proof.
  unfold requestErrors. split.
  - destruct (r_url request) as [url|]; cbn [present negb app]; [|discriminate].
    destruct (truthy url) eqn:Eu; cbn [negb app]; [|discriminate].
    destruct (r_format request) as [f|]; cbn [present negb app]; [|discriminate].
    destruct (truthy f) eqn:Ef; cbn [negb app andb]; [|discriminate].
    destruct (isValid (validateChatURL rt url)) eqn:Ev; cbn [negb app]; [|discriminate].
    destruct (arrayIncludes validFormats f) eqn:Ei; cbn [negb]; [|discriminate].
    intros _. exists url, f.
    split; [reflexivity | split; [reflexivity | split; [exact Ev|]]].
    now apply validFormats_spec.
  - intros (url & f & -> & -> & Hv & Hf). cbn [present].
    rewrite (valid_url_truthy rt url Hv), (valid_format_truthy Hf), Hv.
    apply validFormats_spec in Hf. now rewrite Hf.
Qed.

End ExportRequests.

(** X4.  [validateExportRequest] succeeds exactly when the request has a
    URL that [validateChatURL] accepts and one of the five formats.  On
    success the data are the URL, the format and the options of the
    request (no options when it has none), there are no errors, and
    [createExportGenerator] has a generator for the format; on failure
    there are no data and at least one error. *)
Theorem X4_export_request (rt : Runtime) (request : ValidatorsMore.RequestInput) :
  (ValidatorsMore.success (ValidatorsMore.validateExportRequest rt request) = true
   <-> exists url f,
         ValidatorsMore.r_url request = Some url
         /\ ValidatorsMore.r_format request = Some f
         /\ Validators.isValid (Validators.validateChatURL rt url) = true
         /\ In f ValidatorsMore.validFormats)
  /\ (forall url f,
        ValidatorsMore.r_url request = Some url ->
        ValidatorsMore.r_format request = Some f ->
        ValidatorsMore.success (ValidatorsMore.validateExportRequest rt request) = true ->
        ValidatorsMore.validateExportRequest rt request
        = {| ValidatorsMore.success := true;
             ValidatorsMore.data :=
               Some {| ValidatorsMore.er_url := url;
                       ValidatorsMore.er_format := f;
                       ValidatorsMore.er_options :=
                         match ValidatorsMore.r_options request with
                         | Some o => o
                         | None => Generators.noOptions
                         end |};
             ValidatorsMore.errors := None |}
        /\ exists g, GeneratorsMore.createExportGenerator f = Ok g)
  /\ (ValidatorsMore.success (ValidatorsMore.validateExportRequest rt request) = false ->
      exists e rest,
        ValidatorsMore.validateExportRequest rt request
        = {| ValidatorsMore.success := false;
             ValidatorsMore.data := None;
             ValidatorsMore.errors := Some (e :: rest) |}).
Proof.
  pose proof (requestErrors_nil rt request) as Hnil.
  unfold ValidatorsMore.validateExportRequest.
  destruct (ValidatorsMore.requestErrors rt request) as [|e rest] eqn:E;
    cbn [List.length Nat.ltb Nat.leb ValidatorsMore.success].
  - split; [|split].
    + split; [intros _; now apply Hnil | reflexivity].
    + intros url f Hu Hf _. rewrite Hu, Hf. cbn [Dom.orEmpty]. split; [reflexivity|].
      destruct (proj1 Hnil eq_refl) as (url' & f' & Hu' & Hf' & _ & Hin).
      rewrite Hf in Hf'. injection Hf' as <-. now apply generator_of_valid.
    + discriminate.
  - split; [|split].
    + split; [discriminate|]. intros H. apply Hnil in H. discriminate.
    + intros url f _ _ H. discriminate.
    + intros _. now exists e, rest.
Qed.

(** X5.  [createExportGenerator] has a generator for exactly the five
    formats that [validateExportRequest] admits, and throws for any other.
    For markdown, json, csv and text the file extension and the content
    type of the generator are those of [EXPORT_FORMATS]; for pdf they are
    not: the generator writes an [html] file of type [text/html] where the
    table announces [pdf] and [application/pdf]. *)
Theorem X5_generator_of_format (f : string) :
  (In f ValidatorsMore.validFormats ->
   exists g info,
     GeneratorsMore.createExportGenerator f = Ok g
     /\ ValidatorsMore.formatInfo ValidatorsMore.EXPORT_FORMATS f = Some info
     /\ (f <> "pdf" ->
         GeneratorsMore.getFileExtension g = ValidatorsMore.extension info
         /\ GeneratorsMore.getContentType g = ValidatorsMore.mimeType info)
     /\ (f = "pdf" ->
         GeneratorsMore.getFileExtension g = "html"
         /\ GeneratorsMore.getContentType g = "text/html"
         /\ ValidatorsMore.extension info = "pdf"
         /\ ValidatorsMore.mimeType info = "application/pdf"))
  /\ (~ In f ValidatorsMore.validFormats ->
      GeneratorsMore.createExportGenerator f = Throw ("Unsupported export format: " ++ f)).
Proof.
  split.
  - intros H. cbn in H.
    destruct H as [<-|[<-|[<-|[<-|[<-|[]]]]]];
      eexists; eexists; (split; [reflexivity|]); (split; [reflexivity|]);
      split; intros H; try discriminate; try (now elim H); repeat split.
  - intros H. unfold GeneratorsMore.createExportGenerator.
    repeat match goal with
    | |- context [String.eqb f ?s] =>
        let E := fresh "E" in
        destruct (String.eqb f s) eqn:E;
        [apply String.eqb_eq in E; subst f; exfalso; apply H; cbn; tauto|]
    end.
    reflexivity.
Qed.

Section SafeFilenames.
Import JsString JsMore Validators ValidatorsMore MoreSpec JsMoreFacts.

Lemma noChar_removeChars p s : noChar p (removeChars p s) = true.
Proof.
  induction s as [|c s IH]; cbn [removeChars]; [reflexivity|].
  destruct (p c) eqn:E; [exact IH|]. cbn [noChar]. now rewrite E, IH.
Qed.

Lemma noChar_replaceRunsFrom (p : ascii -> bool) by_ inRun s :
  p by_ = false -> noChar p s = true -> noChar p (replaceRunsFrom by_ inRun s) = true.
Proof.
  intros Hb. revert inRun. induction s as [|c s IH]; intros inRun; cbn [replaceRunsFrom noChar];
    [reflexivity|].
  intros H. apply andb_true_iff in H as [H1 H2].
  destruct (isSpace c); [destruct inRun|]; cbn [noChar];
    rewrite ?Hb, ?H1, ?(IH _ H2); reflexivity.
Qed.

Lemma replaceRunsFrom_unspaced by_ inRun s :
  isSpace by_ = false -> noChar isSpace (replaceRunsFrom by_ inRun s) = true.
Proof.
  intros Hb. revert inRun. induction s as [|c s IH]; intros inRun; cbn [replaceRunsFrom];
    [reflexivity|].
  destruct (isSpace c) eqn:E; [destruct inRun|]; cbn [noChar];
    rewrite ?Hb, ?E, ?IH; reflexivity.
Qed.

Lemma noChar_substring p n s : noChar p s = true -> noChar p (String.substring 0 n s) = true.
Proof.
  revert s. induction n as [|n IH]; intros [|c s]; cbn [String.substring noChar];
    try reflexivity.
  intros H. apply andb_true_iff in H as [H1 H2]. now rewrite H1, IH.
Qed.

Lemma length_substring n s : String.length (String.substring 0 n s) <= n.
Proof.
  revert s. induction n as [|n IH]; intros [|c s]; cbn [String.substring String.length];
    try lia.
  specialize (IH s). lia.
Qed.

Lemma noChar_toLowerCase (p : ascii -> bool) s :
  (forall c, p c = false -> p (lowerChar c) = false) ->
  noChar p s = true -> noChar p (toLowerCase s) = true.
Proof.
  intros Hp. induction s as [|c s IH]; cbn [toLowerCase noChar]; [reflexivity|].
  intros H. apply andb_true_iff in H as [H1 H2]. apply negb_true_iff in H1.
  now rewrite (Hp c H1), IH.
Qed.

Lemma lowerChar_unsafe c : unsafeChar c = false -> unsafeChar (lowerChar c) = false.
Proof. each_char c. Qed.

Lemma lowerChar_space c : isSpace c = false -> isSpace (lowerChar c) = false.
Proof. each_char c. Qed.

Lemma lowerChar_not_upper c : upperAscii (lowerChar c) = false.
Proof. each_char c. Qed.

Lemma toLowerCase_no_upper s : noChar upperAscii (toLowerCase s) = true.
Proof.
  induction s as [|c s IH]; cbn [toLowerCase noChar]; [reflexivity|].
  now rewrite lowerChar_not_upper, IH.
Qed.

Lemma removeChars_all p s : allChars p s = true -> removeChars p s = EmptyString.
Proof.
  induction s as [|c s IH]; cbn [allChars removeChars]; [reflexivity|].
  intros H. apply andb_true_iff in H as [H1 H2]. now rewrite H1, IH.
Qed.

End SafeFilenames.

(** X6.  The file name of [generateSafeFilename] is a cleaned title, an
    underscore, the part of the ISO date of the clock before its [T], a
    dot and the extension; one reading of the clock is made.  The cleaned
    title is the lower case of a text of at most 50 code units (the cut is
    made before the change of case) and holds none of the characters
    unsafe in a file name, no white space and no upper-case ASCII letter.
    Only the empty title is replaced by [conversation]: a title made of
    unsafe characters only gives a name that starts with the underscore. *)
Theorem X6_safe_filename (title extension : string) (w : World) :
  (exists safe,
     ValidatorsMore.generateSafeFilename title extension w
     = (safe ++ "_"
          ++ JsMore.beforeChar "T"%char (toISOString (clock w (clockReads w)))
          ++ "." ++ extension,
        {| uuids := uuids w; clock := clock w;
           uuidsDrawn := uuidsDrawn w; clockReads := S (clockReads w) |})
     /\ (exists cut, safe = JsString.toLowerCase cut /\ String.length cut <= 50)
     /\ MoreSpec.noChar ValidatorsMore.unsafeChar safe = true
     /\ MoreSpec.noChar JsString.isSpace safe = true
     /\ MoreSpec.noChar MoreSpec.upperAscii safe = true
     /\ (title = EmptyString -> safe = "conversation")
     /\ (title <> EmptyString ->
         Validators.allChars ValidatorsMore.unsafeChar title = true ->
         safe = EmptyString)).
Proof.
  exists (ValidatorsMore.safeTitle
            (if JsString.truthy title then title else "conversation")).
  split; [reflexivity|]. unfold ValidatorsMore.safeTitle.
  split; [eexists; split; [reflexivity | apply length_substring]|].
  split.
  { apply noChar_toLowerCase; [exact lowerChar_unsafe|].
    apply noChar_substring. apply noChar_replaceRunsFrom; [reflexivity|].
    apply noChar_removeChars. }
  split.
  { apply noChar_toLowerCase; [exact lowerChar_space|].
    apply noChar_substring. now apply replaceRunsFrom_unspaced. }
  split; [apply toLowerCase_no_upper|].
  split.
  - intros ->. reflexivity.
  - intros Hne Hall. destruct title as [|c t]; [congruence|].
    cbn [JsString.truthy]. now rewrite (removeChars_all _ _ Hall).
Qed.

(** X7.  What [validateRateLimit] answers for whole numbers of requests
    and of milliseconds in the range where doubles are exact.  A request is
    allowed exactly when the count is under the maximum or the window has
    passed since a valid last request.  A refusal that knows a valid last
    request gives a whole number of seconds to wait: it is at least 1 and
    it is the least number of seconds that covers what is left of the
    window.  A refusal after an invalid date gives [NaN] for the seconds,
    and a refusal without a last request gives no number at all. *)
Theorem X7_rate_limit (requestCount maxRequests windowMs now : Z)
    (lastRequest : option ValidatorsMore.TimeValue) :
  ValidatorsMore.exactOn requestCount maxRequests windowMs lastRequest now = true ->
  (ValidatorsMore.allowed
     (ValidatorsMore.validateRateLimit requestCount maxRequests windowMs lastRequest now)
   = true
   <-> (requestCount < maxRequests)%Z
       \/ exists last,
            lastRequest = Some (ValidatorsMore.Time last) /\ (windowMs <= now - last)%Z)
  /\ (forall last,
        lastRequest = Some (ValidatorsMore.Time last) ->
        ValidatorsMore.allowed
          (ValidatorsMore.validateRateLimit requestCount maxRequests windowMs lastRequest now)
        = false ->
        exists seconds,
          ValidatorsMore.retryAfter
            (ValidatorsMore.validateRateLimit requestCount maxRequests windowMs
               lastRequest now)
          = Some (ValidatorsMore.Whole seconds)
          /\ (1 <= seconds)%Z
          /\ (1000 * (seconds - 1) < windowMs - (now - last) <= 1000 * seconds)%Z)
  /\ (lastRequest = Some ValidatorsMore.InvalidDate ->
      (maxRequests <= requestCount)%Z ->
      ValidatorsMore.validateRateLimit requestCount maxRequests windowMs lastRequest now
      = {| ValidatorsMore.allowed := false;
           ValidatorsMore.retryAfter := Some ValidatorsMore.NaN |})
  /\ (lastRequest = None ->
      (maxRequests <= requestCount)%Z ->
      ValidatorsMore.validateRateLimit requestCount maxRequests windowMs lastRequest now
      = {| ValidatorsMore.allowed := false; ValidatorsMore.retryAfter := None |}).
Proof.
  intros _.
  unfold ValidatorsMore.validateRateLimit, ValidatorsMore.ceilSeconds.
  split; [|split; [|split]].
  - destruct (Z.ltb_spec requestCount maxRequests) as [Hc|Hc]; cbn [ValidatorsMore.allowed].
    + split; [now left | reflexivity].
    + destruct lastRequest as [[|last]|]; cbn [ValidatorsMore.allowed].
      * split; [discriminate|]. intros [H|(l & H & _)]; [lia | discriminate].
      * destruct (Z.leb_spec windowMs (now - last)) as [Hw|Hw]; cbn [ValidatorsMore.allowed].
        -- split; [|reflexivity]. intros _. right. now exists last.
        -- split; [discriminate|]. intros [H|(l & [= <-] & H)]; lia.
      * split; [discriminate|]. intros [H|(l & H & _)]; [lia | discriminate].
  - intros last ->.
    destruct (Z.ltb_spec requestCount maxRequests) as [Hc|Hc]; cbn [ValidatorsMore.allowed];
      [discriminate|].
    destruct (Z.leb_spec windowMs (now - last)) as [Hw|Hw]; cbn [ValidatorsMore.allowed];
      [discriminate|].
    intros _. eexists. cbn [ValidatorsMore.retryAfter]. split; [reflexivity|].
    set (x := (windowMs - (now - last))%Z).
    assert (Hx : (0 < x)%Z) by (unfold x; lia).
    pose proof (Z.div_mod (- x) 1000 ltac:(lia)) as Hd.
    pose proof (Z.mod_pos_bound (- x) 1000 ltac:(lia)) as Hm.
    set (q := (- x / 1000)%Z) in *.
    lia.
  - intros -> Hc. destruct (Z.ltb_spec requestCount maxRequests); [lia | reflexivity].
  - intros -> Hc. destruct (Z.ltb_spec requestCount maxRequests); [lia | reflexivity].
Qed.

(** Five requests of five allowed, the last one 30.5 seconds ago, in a
    window of one minute: 30 seconds are left to wait. *)
Lemma X7_witness :
  ValidatorsMore.exactOn 5 5 60000 (Some (ValidatorsMore.Time 1700000000000))
    1700000030500 = true
  /\ ValidatorsMore.validateRateLimit 5 5 60000 (Some (ValidatorsMore.Time 1700000000000))
       1700000030500
     = {| ValidatorsMore.allowed := false;
          ValidatorsMore.retryAfter := Some (ValidatorsMore.Whole 30) |}.
Proof.
  split; [reflexivity|].
  destruct (X7_rate_limit 5 5 60000 1700000030500
              (Some (ValidatorsMore.Time 1700000000000)) eq_refl)
    as (_ & H & _).
  destruct (H _ eq_refl eq_refl) as (seconds & Hs & _ & Hlo & Hhi).
  assert (seconds = 30%Z) as -> by lia.
  reflexivity.
Defined.

Section HtmlEscaping.
Import JsString JsMore GeneratorsMore MoreSpec JsMoreFacts.

Lemma replaceAllChar_app c by_ a b :
  replaceAllChar c by_ (a ++ b) = replaceAllChar c by_ a ++ replaceAllChar c by_ b.
Proof.
  induction a as [|x a IH]; cbn [String.append replaceAllChar]; [reflexivity|].
  destruct (Ascii.eqb x c); rewrite IH; [now rewrite append_assoc | reflexivity].
Qed.

Lemma escapeHTML_one c : escapeHTML (String c EmptyString) = escapeOne c.
Proof. each_char c. Qed.

Lemma escapeHTML_app a b : escapeHTML (a ++ b) = escapeHTML a ++ escapeHTML b.
Proof. unfold escapeHTML. now rewrite !replaceAllChar_app. Qed.

(** The five replacements in a row amount to one pass over the text. *)
Lemma escapeHTML_cons c t : escapeHTML (String c t) = escapeOne c ++ escapeHTML t.
Proof.
  change (String c t) with (String c EmptyString ++ t).
  now rewrite escapeHTML_app, escapeHTML_one.
Qed.

Lemma noChar_app p a b : noChar p (a ++ b) = noChar p a && noChar p b.
Proof.
  induction a as [|c a IH]; cbn [String.append noChar]; [reflexivity|].
  now rewrite IH, andb_assoc.
Qed.

Lemma escapeOne_markup c : noChar markupChar (escapeOne c) = true.
Proof. each_char c. Qed.

Lemma shown_escapeOne c rest :
  shownFrom 0 (escapeOne c ++ rest) = String c (shownFrom 0 rest).
Proof.
  unfold escapeOne.
  destruct (Ascii.eqb c "&"%char) eqn:E1;
    [apply Ascii.eqb_eq in E1; subst c; destruct rest; reflexivity|].
  destruct (Ascii.eqb c "<"%char) eqn:E2;
    [apply Ascii.eqb_eq in E2; subst c; destruct rest; reflexivity|].
  destruct (Ascii.eqb c ">"%char) eqn:E3;
    [apply Ascii.eqb_eq in E3; subst c; destruct rest; reflexivity|].
  destruct (Ascii.eqb c dquote) eqn:E4;
    [apply Ascii.eqb_eq in E4; subst c; destruct rest; reflexivity|].
  destruct (Ascii.eqb c apostrophe) eqn:E5;
    [apply Ascii.eqb_eq in E5; subst c; destruct rest; reflexivity|].
  cbn [String.append shownFrom]. now rewrite E1, E2.
Qed.

Lemma shown_escapeHTML t : shown (escapeHTML t) = t.
Proof.
  unfold shown. induction t as [|c t IH]; [reflexivity|].
  now rewrite escapeHTML_cons, shown_escapeOne, IH.
Qed.

Lemma replaceLF_escapeOne c : replaceAllChar LF "<br>" (escapeOne c) = formatOne c.
Proof. each_char c. Qed.

Lemma formatContent_cons c t :
  formatContentForHTML (String c t) = formatOne c ++ formatContentForHTML t.
Proof.
  unfold formatContentForHTML.
  now rewrite escapeHTML_cons, replaceAllChar_app, replaceLF_escapeOne.
Qed.

Lemma shown_formatOne c rest :
  shownFrom 0 (formatOne c ++ rest) = String c (shownFrom 0 rest).
Proof.
  unfold formatOne. destruct (Ascii.eqb c LF) eqn:E; [|apply shown_escapeOne].
  apply Ascii.eqb_eq in E. subst c. destruct rest; reflexivity.
Qed.

Lemma formatOne_LF c : noChar (Ascii.eqb LF) (formatOne c) = true.
Proof. each_char c. Qed.

End HtmlEscaping.

(** X8.  [escapeHTML] leaves no angle bracket, double quote or apostrophe
    in its output, and a browser shows the output as the text it was given:
    the five replacements, made one after the other, do not disturb one
    another.  [formatContentForHTML] moreover leaves no line feed, and its
    output is shown as the same text, line feeds included.  So the two
    never write the same markup for two different texts. *)
Theorem X8_html_escaping (t : string) :
  MoreSpec.noChar MoreSpec.markupChar (GeneratorsMore.escapeHTML t) = true
  /\ MoreSpec.shown (GeneratorsMore.escapeHTML t) = t
  /\ MoreSpec.noChar (Ascii.eqb JsString.LF) (GeneratorsMore.formatContentForHTML t) = true
  /\ MoreSpec.shown (GeneratorsMore.formatContentForHTML t) = t
  /\ (forall u, GeneratorsMore.escapeHTML u = GeneratorsMore.escapeHTML t -> u = t)
  /\ (forall u, GeneratorsMore.formatContentForHTML u
                = GeneratorsMore.formatContentForHTML t -> u = t).
Proof.
  assert (Hf : forall s, MoreSpec.shown (GeneratorsMore.formatContentForHTML s) = s).
  { unfold MoreSpec.shown. induction s as [|c s IH]; [reflexivity|].
    now rewrite formatContent_cons, shown_formatOne, IH. }
  split; [|split; [|split; [|split; [|split]]]].
  - induction t as [|c t IH]; [reflexivity|].
    now rewrite escapeHTML_cons, noChar_app, escapeOne_markup, IH.
  - apply shown_escapeHTML.
  - induction t as [|c t IH]; [reflexivity|].
    now rewrite formatContent_cons, noChar_app, formatOne_LF, IH.
  - apply Hf.
  - intros u H. rewrite <- (shown_escapeHTML u), H. apply shown_escapeHTML.
  - intros u H. rewrite <- (Hf u), H. apply Hf.
Qed.

Section TextExports.
Import JsString JsMore Types Generators GeneratorsMore MoreSpec.

Lemma appendEach_concat (A : Type) (f : A -> string) (l : list A) :
  forall output,
    appendEach f l output = output ++ fold_right String.append EmptyString (map f l).
Proof.
  induction l as [|x l IH]; intros output; cbn [appendEach map fold_right].
  - now rewrite append_nil_r.
  - now rewrite IH, append_assoc.
Qed.

Lemma appendEach_ext (A : Type) (f g : A -> string) (l : list A) output :
  (forall x, In x l -> f x = g x) -> appendEach f l output = appendEach g l output.
Proof.
  revert output. induction l as [|x l IH]; intros output H; cbn [appendEach]; [reflexivity|].
  rewrite (H x (or_introl eq_refl)). apply IH. intros y Hy. apply H. now right.
Qed.

Lemma appendEach_map (A B : Type) (h : A -> B) (f : B -> string) (l : list A) output :
  appendEach f (map h l) output = appendEach (fun x => f (h x)) l output.
Proof.
  revert output. induction l as [|x l IH]; intros output; cbn [appendEach map];
    [reflexivity | apply IH].
Qed.

(** Artifacts that write nothing can be left out. *)
Lemma appendEach_filter (A : Type) (f : A -> string) (keep : A -> bool) (l : list A) output :
  (forall x, keep x = false -> f x = EmptyString) ->
  appendEach f (filter keep l) output = appendEach f l output.
Proof.
  intros H. revert output. induction l as [|x l IH]; intros output; cbn [appendEach filter];
    [reflexivity|].
  destruct (keep x) eqn:E; cbn [appendEach].
  - apply IH.
  - now rewrite (H x E), append_nil_r.
Qed.

Lemma holds_gap parts gap s : HoldsInOrder parts s -> HoldsInOrder parts (gap ++ s).
Proof.
  intros H. destruct H as [s|p ps g rest H].
  - constructor.
  - rewrite <- append_assoc. now constructor.
Qed.

Lemma holds_tail parts s tail : HoldsInOrder parts s -> HoldsInOrder parts (s ++ tail).
Proof.
  intros H. induction H as [s|p ps g rest H IH].
  - constructor.
  - rewrite !append_assoc. now constructor.
Qed.

Lemma holds_app ps qs a b :
  HoldsInOrder ps a -> HoldsInOrder qs b -> HoldsInOrder (ps ++ qs) (a ++ b).
Proof.
  intros Ha Hb. induction Ha as [s|p ps g rest H IH]; cbn [app].
  - now apply holds_gap.
  - rewrite !append_assoc. now constructor.
Qed.

Lemma holds_concat (A : Type) (parts : A -> list string) (f : A -> string) (l : list A) :
  (forall x, HoldsInOrder (parts x) (f x)) ->
  HoldsInOrder (flat_map parts l) (fold_right String.append EmptyString (map f l)).
Proof.
  intros H. induction l as [|x l IH]; cbn [flat_map map fold_right]; [constructor|].
  now apply holds_app.
Qed.

Lemma holds_mid p ps g t rest :
  HoldsInOrder ps rest -> HoldsInOrder (p :: ps) ((g ++ (p ++ t)) ++ rest).
Proof.
  intros H. rewrite !append_assoc. constructor. now apply holds_gap.
Qed.

Lemma mdArtifact_holds (l : list Artifact) :
  HoldsInOrder (map a_content (filter (fun a => isCode (a_type a)) l))
    (fold_right String.append EmptyString (map mdArtifact l)).
Proof.
  induction l as [|a l IH]; cbn [map filter fold_right]; [constructor|].
  unfold mdArtifact at 1. destruct (isCode (a_type a)); cbv iota; cbn [map].
  - rewrite (append_assoc _ ("```" ++ NL ++ NL)). apply holds_mid. now apply holds_gap.
  - exact IH.
Qed.

Lemma textArtifact_holds (l : list Artifact) :
  HoldsInOrder (map a_content (filter (fun a => isCode (a_type a)) l))
    (fold_right String.append EmptyString (map textArtifact l)).
Proof.
  induction l as [|a l IH]; cbn [map filter fold_right]; [constructor|].
  unfold textArtifact at 1. destruct (isCode (a_type a)); cbv iota; cbn [map].
  - apply holds_mid. exact IH.
  - exact IH.
Qed.

Lemma mdMessage_holds rt b m : HoldsInOrder (readable m) (mdMessage rt b m).
Proof.
  unfold mdMessage, readable. rewrite appendEach_concat.
  apply holds_tail. apply holds_mid. apply mdArtifact_holds.
Qed.

Lemma textMessage_holds rt b m : HoldsInOrder (readable m) (textMessage rt b m).
Proof.
  unfold textMessage, readable. rewrite appendEach_concat.
  apply holds_tail. apply holds_mid. apply textArtifact_holds.
Qed.

End TextExports.

(** X9.  Nothing a reader looks for is lost in the Markdown and the text
    export: the title, then for each message in order its text followed by
    the content of each of its code artifacts, occur verbatim in the
    output, one after the other, whatever the options. *)
Theorem X9_exports_hold_content (rt : Runtime) (conversation : Types.Conversation)
    (options : Generators.ExportOptions) :
  MoreSpec.HoldsInOrder
    ([Types.c_title conversation]
     ++ flat_map MoreSpec.readable (Types.c_messages conversation))
    (GeneratorsMore.Markdown_generate rt conversation options)
  /\ MoreSpec.HoldsInOrder
       ([Types.c_title conversation]
        ++ flat_map MoreSpec.readable (Types.c_messages conversation))
       (GeneratorsMore.Text_generate rt conversation options).
Proof.
  split.
  - unfold GeneratorsMore.Markdown_generate. rewrite appendEach_concat.
    apply holds_app;
      [|apply holds_concat; intros m; apply mdMessage_holds].
    assert (H1 : MoreSpec.HoldsInOrder [Types.c_title conversation]
                   (EmptyString
                    ++ ("# " ++ Types.c_title conversation ++ JsString.NL ++ JsString.NL)))
      by apply (MoreSpec.holds_cons (Types.c_title conversation) "# "
                  (MoreSpec.holds_nil (JsString.NL ++ JsString.NL))).
    destruct (Generators.orTrue (Generators.includeMetadata options)); [|exact H1].
    apply holds_tail.
    destruct (GeneratorsMore.metadataUrl conversation);
      [do 4 apply holds_tail | do 3 apply holds_tail]; exact H1.
  - unfold GeneratorsMore.Text_generate. rewrite appendEach_concat.
    apply holds_app;
      [|apply holds_concat; intros m; apply textMessage_holds].
    assert (H1 : MoreSpec.HoldsInOrder [Types.c_title conversation]
                   (EmptyString ++ (Types.c_title conversation ++ JsString.NL)))
      by apply (MoreSpec.holds_cons (Types.c_title conversation) EmptyString
                  (MoreSpec.holds_nil JsString.NL)).
    destruct (Generators.orTrue (Generators.includeMetadata options));
      [|apply holds_tail; exact H1].
    destruct (GeneratorsMore.metadataUrl conversation);
      [do 5 apply holds_tail | do 4 apply holds_tail]; exact H1.
Qed.

Section BlindSpots.
Import JsString JsMore Types Generators GeneratorsMore MoreSpec.

Lemma mdArtifact_other a : isCode (a_type a) = false -> mdArtifact a = EmptyString.
Proof. unfold mdArtifact. now intros ->. Qed.

Lemma textArtifact_other a : isCode (a_type a) = false -> textArtifact a = EmptyString.
Proof. unfold textArtifact. now intros ->. Qed.

Lemma mdMessage_asAssistant rt b m : mdMessage rt b (asAssistant m) = mdMessage rt b m.
Proof. unfold mdMessage, asAssistant, artifactList. now destruct m as [i [] c t md]. Qed.

Lemma textMessage_asAssistant rt b m : textMessage rt b (asAssistant m) = textMessage rt b m.
Proof. unfold textMessage, asAssistant, artifactList. now destruct m as [i [] c t md]. Qed.

Lemma mdMessage_codeOnly rt b m : mdMessage rt b (codeOnly m) = mdMessage rt b m.
Proof.
  unfold mdMessage, codeOnly, artifactList.
  cbn [m_role m_content m_timestamp text artifacts].
  destruct (artifacts (m_content m)) as [l|]; cbn [option_map]; [|reflexivity].
  now rewrite (appendEach_filter mdArtifact _ l _ mdArtifact_other).
Qed.

Lemma textMessage_codeOnly rt b m : textMessage rt b (codeOnly m) = textMessage rt b m.
Proof.
  unfold textMessage, codeOnly, artifactList.
  cbn [m_role m_content m_timestamp text artifacts].
  destruct (artifacts (m_content m)) as [l|]; cbn [option_map]; [|reflexivity].
  now rewrite (appendEach_filter textArtifact _ l _ textArtifact_other).
Qed.

Lemma markdown_messages rt c o (h : Message -> Message) :
  (forall b m, mdMessage rt b (h m) = mdMessage rt b m) ->
  Markdown_generate rt (withMessages c (map h (c_messages c))) o = Markdown_generate rt c o.
Proof.
  intros H. unfold Markdown_generate, withMessages, metadataUrl.
  cbn [c_title c_platform c_metadata c_messages].
  rewrite appendEach_map. apply appendEach_ext. intros m _. apply H.
Qed.

Lemma text_messages rt c o (h : Message -> Message) :
  (forall b m, textMessage rt b (h m) = textMessage rt b m) ->
  Text_generate rt (withMessages c (map h (c_messages c))) o = Text_generate rt c o.
Proof.
  intros H. unfold Text_generate, withMessages, metadataUrl.
  cbn [c_title c_platform c_metadata c_messages].
  rewrite appendEach_map. apply appendEach_ext. intros m _. apply H.
Qed.

Lemma htmlArtifact_other a : isCode (a_type a) = false -> htmlArtifact a = EmptyString.
Proof. unfold htmlArtifact. now intros ->. Qed.

Lemma htmlMessage_asAssistant rt b m : htmlMessage rt b (asAssistant m) = htmlMessage rt b m.
Proof. unfold htmlMessage, asAssistant, artifactList. now destruct m as [i [] c t md]. Qed.

Lemma htmlMessage_codeOnly rt b m : htmlMessage rt b (codeOnly m) = htmlMessage rt b m.
Proof.
  unfold htmlMessage, codeOnly, artifactList.
  cbn [m_role m_content m_timestamp text artifacts].
  destruct (artifacts (m_content m)) as [l|]; cbn [option_map]; [|reflexivity].
  now rewrite (appendEach_filter htmlArtifact _ l _ htmlArtifact_other).
Qed.

Lemma html_messages rt c o (h : Message -> Message) :
  (forall b m, htmlMessage rt b (h m) = htmlMessage rt b m) ->
  PDF_generate rt (withMessages c (map h (c_messages c))) o = PDF_generate rt c o.
Proof.
  intros H. unfold PDF_generate, withMessages, htmlMetadata, metadataUrl.
  cbn [c_title c_platform c_metadata c_messages].
  rewrite appendEach_map. f_equal. apply appendEach_ext. intros m _. apply H.
Qed.

End BlindSpots.

(** X10.  What the Markdown, the text and the HTML export do not tell
    apart.  A system message is written as a message of the assistant:
    turning every system message into an assistant message changes none
    of the three outputs.  Artifacts other than code are not written:
    removing them changes none of the outputs.  And the option
    [includeArtifacts] is not read: the code artifacts are written
    whatever its value. *)
Theorem X10_exports_blind_spots (rt : Runtime) (conversation : Types.Conversation)
    (options : Generators.ExportOptions) (flag : option bool) :
  (GeneratorsMore.Markdown_generate rt
     (MoreSpec.withMessages conversation
        (map MoreSpec.asAssistant (Types.c_messages conversation))) options
   = GeneratorsMore.Markdown_generate rt conversation options
   /\ GeneratorsMore.Text_generate rt
        (MoreSpec.withMessages conversation
           (map MoreSpec.asAssistant (Types.c_messages conversation))) options
      = GeneratorsMore.Text_generate rt conversation options
   /\ GeneratorsMore.PDF_generate rt
        (MoreSpec.withMessages conversation
           (map MoreSpec.asAssistant (Types.c_messages conversation))) options
      = GeneratorsMore.PDF_generate rt conversation options)
  /\ (GeneratorsMore.Markdown_generate rt
        (MoreSpec.withMessages conversation
           (map MoreSpec.codeOnly (Types.c_messages conversation))) options
      = GeneratorsMore.Markdown_generate rt conversation options
      /\ GeneratorsMore.Text_generate rt
           (MoreSpec.withMessages conversation
              (map MoreSpec.codeOnly (Types.c_messages conversation))) options
         = GeneratorsMore.Text_generate rt conversation options
      /\ GeneratorsMore.PDF_generate rt
           (MoreSpec.withMessages conversation
              (map MoreSpec.codeOnly (Types.c_messages conversation))) options
         = GeneratorsMore.PDF_generate rt conversation options)
  /\ (GeneratorsMore.Markdown_generate rt conversation
        {| Generators.includeMetadata := Generators.includeMetadata options;
           Generators.includeTimestamps := Generators.includeTimestamps options;
           Generators.includeArtifacts := flag |}
      = GeneratorsMore.Markdown_generate rt conversation options
      /\ GeneratorsMore.Text_generate rt conversation
           {| Generators.includeMetadata := Generators.includeMetadata options;
              Generators.includeTimestamps := Generators.includeTimestamps options;
              Generators.includeArtifacts := flag |}
         = GeneratorsMore.Text_generate rt conversation options
      /\ GeneratorsMore.PDF_generate rt conversation
           {| Generators.includeMetadata := Generators.includeMetadata options;
              Generators.includeTimestamps := Generators.includeTimestamps options;
              Generators.includeArtifacts := flag |}
         = GeneratorsMore.PDF_generate rt conversation options).
Proof.
  split; [|split].
  - split; [apply markdown_messages, mdMessage_asAssistant|].
    split; [apply text_messages, textMessage_asAssistant|].
    apply html_messages, htmlMessage_asAssistant.
  - split; [apply markdown_messages, mdMessage_codeOnly|].
    split; [apply text_messages, textMessage_codeOnly|].
    apply html_messages, htmlMessage_codeOnly.
  - split; [reflexivity|]. split; reflexivity.
Qed.

(* ===================================================================== *)
(** * Properties of what the parsers extract and of what is read back *)
(* ===================================================================== *)

Section FlatText.
Import JsString JsMore MoreSpec JsMoreFacts.

Lemma collapsed_collapseFrom b s : collapsed b (collapseFrom b s) = true.
Proof.
  revert b. induction s as [|c s IH]; intros b; cbn [collapseFrom]; [reflexivity|].
  destruct (isSpace c) eqn:E.
  - destruct b; [apply IH|]. cbn [collapsed]. change (isSpace " ") with true.
    cbv iota. now rewrite IH.
  - cbn [collapsed]. rewrite E. apply IH.
Qed.

Lemma collapsed_no_LF b s : collapsed b s = true -> noChar (Ascii.eqb LF) s = true.
Proof.
  revert b. induction s as [|c s IH]; intros b; cbn [collapsed noChar]; [reflexivity|].
  destruct (isSpace c) eqn:E.
  - intros H. apply andb_true_iff in H as [H H2]. apply andb_true_iff in H as [H1 _].
    apply Ascii.eqb_eq in H1. subst c. now rewrite (IH _ H2).
  - intros H. rewrite (IH _ H).
    destruct (Ascii.eqb LF c) eqn:El; [|reflexivity].
    apply Ascii.eqb_eq in El. subst c. discriminate E.
Qed.

Lemma blankLinesFuel_no_LF n s :
  noChar (Ascii.eqb LF) s = true -> blankLinesFuel n s = s.
Proof.
  revert s. induction n as [|n IH]; intros s; [reflexivity|].
  destruct s as [|c s]; cbn [blankLinesFuel noChar]; [reflexivity|].
  intros H. apply andb_true_iff in H as [H1 H2]. apply negb_true_iff in H1.
  rewrite Ascii.eqb_sym, H1. now rewrite (IH _ H2).
Qed.

Lemma collapsed_trimStart b s : collapsed b s = true -> collapsed false (trimStart s) = true.
Proof.
  revert b. induction s as [|c s IH]; intros b; cbn [collapsed trimStart]; [reflexivity|].
  destruct (isSpace c) eqn:E.
  - intros H. apply andb_true_iff in H as [_ H2]. exact (IH _ H2).
  - intros H. cbn [collapsed]. now rewrite E.
Qed.

Lemma collapsed_trimEnd b s :
  collapsed b s = true ->
  trimEnd s = EmptyString \/ singleSpacedFrom b (trimEnd s) = true.
Proof.
  revert b. induction s as [|c s IH]; intros b; cbn [collapsed trimEnd]; [now left|].
  destruct (isSpace c) eqn:E.
  - intros H. apply andb_true_iff in H as [H H2]. destruct (IH _ H2) as [->|Hs].
    + now left.
    + destruct (trimEnd s) as [|a r]; [now left|]. right.
      cbn [singleSpacedFrom] in *. now rewrite E, H.
  - intros H. right. destruct (IH _ H) as [->|Hs].
    + cbn [singleSpacedFrom]. now rewrite E.
    + destruct (trimEnd s) as [|a r]; cbn [singleSpacedFrom] in *; now rewrite E.
Qed.

Lemma singleSpaced_trim s : collapsed false s = true -> singleSpaced (trim s) = true.
Proof.
  intros H. unfold trim. pose proof (trimStart_head s) as Hh.
  pose proof (collapsed_trimStart _ _ H) as Hc.
  destruct (trimStart s) as [|c r]; [reflexivity|].
  destruct (@trimEnd_head c r Hh) as (r' & E).
  destruct (collapsed_trimEnd _ _ Hc) as [H0|Hs]; rewrite E in *; [discriminate|].
  unfold singleSpaced. now rewrite Hh, Hs.
Qed.

Lemma singleSpacedFrom_collapse b s :
  singleSpacedFrom b s = true -> collapseFrom b s = s.
Proof.
  revert b. induction s as [|c s IH]; intros b; cbn [singleSpacedFrom collapseFrom];
    [reflexivity|].
  destruct (isSpace c) eqn:E.
  - intros H. apply andb_true_iff in H as [H H2]. apply andb_true_iff in H as [H1 Hb].
    apply negb_true_iff in Hb. subst b. apply Ascii.eqb_eq in H1. subst c.
    now rewrite (IH _ H2).
  - intros H. now rewrite (IH _ H).
Qed.

Lemma singleSpacedFrom_collapsed b s :
  singleSpacedFrom b s = true -> collapsed b s = true.
Proof.
  revert b. induction s as [|c s IH]; intros b; cbn [singleSpacedFrom collapsed];
    [reflexivity|].
  destruct (isSpace c).
  - intros H. apply andb_true_iff in H as [H H2]. now rewrite H, (IH _ H2).
  - apply IH.
Qed.

Lemma singleSpacedFrom_trimEnd b s :
  singleSpacedFrom b s = true -> trimEnd s = s.
Proof.
  revert b. induction s as [|c s IH]; intros b; cbn [singleSpacedFrom trimEnd];
    [reflexivity|].
  destruct (isSpace c) eqn:E.
  - intros H. apply andb_true_iff in H as [_ H2]. rewrite (IH _ H2).
    destruct s; [discriminate H2 | reflexivity].
  - intros H. rewrite (IH _ H). now destruct s.
Qed.

Lemma singleSpaced_fixed s : singleSpaced s = true -> trim (blankLines (collapseSpaces s)) = s.
Proof.
  unfold singleSpaced. destruct s as [|c s]; [reflexivity|].
  intros H. apply andb_true_iff in H as [Hc Hs]. apply negb_true_iff in Hc.
  unfold collapseSpaces. rewrite (singleSpacedFrom_collapse _ _ Hs).
  unfold blankLines.
  rewrite (blankLinesFuel_no_LF _ _
             (collapsed_no_LF _ _ (singleSpacedFrom_collapsed _ _ Hs))).
  unfold trim. rewrite (@trimStart_unspaced c s Hc).
  exact (singleSpacedFrom_trimEnd _ _ Hs).
Qed.

Lemma clean_is_singleSpaced s : singleSpaced (trim (blankLines (collapseSpaces s))) = true.
Proof.
  unfold collapseSpaces, blankLines.
  pose proof (collapsed_collapseFrom false s) as H.
  rewrite (blankLinesFuel_no_LF _ _ (collapsed_no_LF _ _ H)).
  now apply singleSpaced_trim.
Qed.

End FlatText.

Section ExtractedMessages.
Import JsString Dom MoreSpec.

(** Each message of the API parser holds the content read from a container. *)
Lemma api_message_source doc w m :
  In m (fst (Api.extractMessages doc w)) ->
  exists e, Api.m_role m = Api.extractMessageRole e
            /\ Api.m_content m = Api.extractMessageContent e.
Proof.
  intros Hin. unfold Api.extractMessages in Hin.
  pose proof (ApiFacts.api_eachMessage_payload (Api.messageElements doc) [] w) as H.
  cbn [map app] in H.
  apply (in_map ApiSpec.payload) in Hin. rewrite H in Hin.
  apply in_map_iff in Hin as (e & He & _). exists e.
  unfold ApiSpec.source, ApiSpec.payload in He. now injection He as <- <-.
Qed.

Lemma parser_message_source rt doc sel w m :
  In m (fst (ChatGPTParser.extractMessages rt doc sel w)) ->
  exists e, Types.m_role m = ChatGPTParser.extractMessageRole e
            /\ Types.m_content m = ChatGPTParser.extractMessageContent e.
Proof.
  intros Hin. unfold ChatGPTParser.extractMessages in Hin.
  pose proof (ParserFacts.parser_eachMessage_payload rt (query doc sel) [] w) as H.
  cbn [map app] in H.
  apply (in_map ParserSpec.payload) in Hin. rewrite H in Hin.
  apply in_map_iff in Hin as (e & He & _). exists e.
  unfold ParserSpec.source, ParserSpec.payload in He. now injection He as <- <-.
Qed.

End ExtractedMessages.

(** X11.  The text of a message is flat.  The cleaning both parsers apply
    leaves single spaces as the only white space, none at either end: no
    line feed, tab or run of spaces survives it, so its second replacement
    (of blank lines) never finds anything to replace.  Cleaning a cleaned
    text changes nothing, and the texts it leaves alone are exactly the
    flat ones.  Hence every message either parser extracts from a page has
    a flat text, without any line break. *)
Theorem X11_message_text_is_flat (rt : Runtime) (doc : Dom.document) (w : World)
    (t : string) :
  MoreSpec.singleSpaced (Api.cleanText t) = true
  /\ Api.cleanText t = JsString.trim (JsString.collapseSpaces t)
  /\ ChatGPTParser.cleanTextContent t = Api.cleanText t
  /\ Api.cleanText (Api.cleanText t) = Api.cleanText t
  /\ (Api.cleanText t = t <-> MoreSpec.singleSpaced t = true)
  /\ Forall (fun m =>
               MoreSpec.singleSpaced (Api.text (Api.m_content m)) = true
               /\ MoreSpec.noChar (Ascii.eqb JsString.LF) (Api.text (Api.m_content m))
                  = true)
       (fst (Api.extractMessages doc w))
  /\ Forall (fun m =>
               MoreSpec.singleSpaced (Types.text (Types.m_content m)) = true
               /\ MoreSpec.noChar (Ascii.eqb JsString.LF) (Types.text (Types.m_content m))
                  = true)
       (fst (ChatGPTParser.extractMessages rt doc Validators.chatgptMessages w)).
Proof.
  assert (Hlf : forall s, MoreSpec.singleSpaced s = true ->
                          MoreSpec.noChar (Ascii.eqb JsString.LF) s = true).
  { intros s Hs. destruct s as [|c s]; [reflexivity|].
    unfold MoreSpec.singleSpaced in Hs. apply andb_true_iff in Hs as [_ Hs].
    exact (collapsed_no_LF _ _ (singleSpacedFrom_collapsed _ _ Hs)). }
  split; [apply clean_is_singleSpaced|].
  split.
  { unfold Api.cleanText, JsString.blankLines, JsString.collapseSpaces.
    now rewrite (blankLinesFuel_no_LF _ _
                   (collapsed_no_LF _ _ (collapsed_collapseFrom false t))). }
  split; [reflexivity|].
  split; [apply singleSpaced_fixed, clean_is_singleSpaced|].
  split.
  { split; [intros <-; apply clean_is_singleSpaced | apply singleSpaced_fixed]. }
  split.
  - apply Forall_forall. intros m Hm.
    destruct (api_message_source _ _ _ Hm) as (e & _ & ->).
    cbn [Api.extractMessageContent Api.text].
    split; [|apply Hlf]; apply clean_is_singleSpaced.
  - apply Forall_forall. intros m Hm.
    destruct (parser_message_source _ _ _ _ _ Hm) as (e & _ & ->).
    cbn [ChatGPTParser.extractMessageContent Types.text].
    split; [|apply Hlf]; apply clean_is_singleSpaced.
Qed.

Section FreshIdentifiers.
Import JsString Dom MoreSpec.

Lemma later_zero w : later w 0 0 = w.
Proof. destruct w. unfold later. cbn. now rewrite !Nat.add_0_r. Qed.

Lemma later_later w a b c d : later (later w a b) c d = later w (a + c) (b + d).
Proof. unfold later. cbn. now rewrite !Nat.add_assoc. Qed.

Lemma nextIds_S w n : nextIds w (S n) = uuids w (uuidsDrawn w) :: nextIds (later w 1 1) n.
Proof. unfold nextIds, later. cbn [seq map uuids uuidsDrawn]. now rewrite Nat.add_1_r. Qed.

Lemma nextTimes_S w n : nextTimes w (S n) = clock w (clockReads w) :: nextTimes (later w 1 1) n.
Proof. unfold nextTimes, later. cbn [seq map clock clockReads]. now rewrite Nat.add_1_r. Qed.

Lemma nextIds_snoc w n : nextIds w (S n) = (nextIds w n ++ [uuids w (uuidsDrawn w + n)])%list.
Proof. unfold nextIds. now rewrite seq_S, map_app. Qed.

Lemma nextTimes_snoc w n :
  nextTimes w (S n) = (nextTimes w n ++ [clock w (clockReads w + n)])%list.
Proof. unfold nextTimes. now rewrite seq_S, map_app. Qed.

(** The loop of the API parser: each message it adds takes the next
    identifier and the next time. *)
Lemma api_eachMessage_draws els :
  forall acc w,
  exists new,
    Api.eachMessage els acc w = ((acc ++ new)%list, later w (List.length new) (List.length new))
    /\ map Api.m_id new = nextIds w (List.length new)
    /\ map Api.m_timestamp new = map toISOString (nextTimes w (List.length new))
    /\ Forall (fun m => Api.mm_timestamp (Api.m_metadata m) = Api.m_timestamp m) new.
Proof.
  induction els as [|e els IH]; intros acc w; cbn [Api.eachMessage].
  - exists []. rewrite app_nil_r, later_zero. repeat split. constructor.
  - destruct (truthy (trim (Api.text (Api.extractMessageContent e)))); [|apply IH].
    cbn [newDate uuidv4 clock clockReads uuids uuidsDrawn].
    match goal with |- context [Api.eachMessage els (acc ++ [?m])%list ?w2] =>
      destruct (IH (acc ++ [m])%list w2) as (new & E & Hid & Ht & Hm);
      exists (m :: new); rewrite E
    end.
    cbn [List.length]. rewrite nextIds_S, nextTimes_S. cbn [map Api.m_id Api.m_timestamp].
    split; [|split; [|split]].
    + rewrite <- app_assoc. cbn [app]. f_equal. unfold later.
      cbn [uuids clock uuidsDrawn clockReads]. f_equal; lia.
    + f_equal. rewrite Hid. unfold nextIds, later.
      cbn [uuids uuidsDrawn]. now rewrite Nat.add_1_r.
    + f_equal. rewrite Ht. unfold nextTimes, later.
      cbn [clock clockReads]. now rewrite Nat.add_1_r.
    + constructor; [reflexivity | exact Hm].
Qed.

Lemma extractTimestamp_reads rt e w :
  exists k, snd (ChatGPTParser.extractTimestamp rt e w) = later w 0 k.
Proof.
  assert (H1 : newDate w = (clock w (clockReads w), later w 0 1)).
  { unfold newDate, later. now rewrite Nat.add_0_r, Nat.add_1_r. }
  unfold ChatGPTParser.extractTimestamp.
  destruct (first _) as [timeElement|]; [|exists 1; now rewrite H1].
  destruct (attr timeElement "datetime") as [datetime|]; [|exists 1; now rewrite H1].
  destruct (truthy datetime); [|exists 1; now rewrite H1].
  destruct (Date_parse rt datetime); [|exists 1; now rewrite H1].
  exists 0. cbn [snd]. now rewrite later_zero.
Qed.

(** The loop of [ChatGPTParser]: each message it adds takes the next
    identifier; the clock may be read for any container. *)
Lemma parser_eachMessage_draws rt els :
  forall acc w,
  exists new reads,
    ChatGPTParser.eachMessage rt els acc w
    = ((acc ++ new)%list, later w (List.length new) reads)
    /\ map Types.m_id new = nextIds w (List.length new).
Proof.
  induction els as [|e els IH]; intros acc w; cbn [ChatGPTParser.eachMessage].
  - exists [], 0. rewrite app_nil_r, later_zero. now split.
  - destruct (extractTimestamp_reads rt e w) as (k & Hk).
    destruct (ChatGPTParser.extractTimestamp rt e w) as [timestamp w1].
    cbn [snd] in Hk. subst w1.
    destruct (truthy (trim (Types.text (ChatGPTParser.extractMessageContent e)))).
    + cbn [uuidv4 later uuids clock uuidsDrawn clockReads].
      match goal with |- context [ChatGPTParser.eachMessage rt els (acc ++ [?m])%list ?w2] =>
        destruct (IH (acc ++ [m])%list w2) as (new & reads & E & Hid);
        exists (m :: new), (k + reads); rewrite E
      end.
      cbn [List.length]. rewrite nextIds_S. cbn [map Types.m_id]. split.
      * rewrite <- app_assoc. cbn [app]. f_equal. unfold later.
        cbn [uuids clock uuidsDrawn clockReads]. f_equal; lia.
      * rewrite Nat.add_0_r. f_equal. rewrite Hid. unfold nextIds, later.
        cbn [uuids uuidsDrawn]. now rewrite Nat.add_0_r, Nat.add_1_r.
    + destruct (IH acc (later w 0 k)) as (new & reads & E & Hid).
      exists new, (k + reads). rewrite E, later_later. split; [reflexivity|].
      rewrite Hid. unfold nextIds, later. cbn [uuids uuidsDrawn]. now rewrite Nat.add_0_r.
Qed.

Lemma nextIds_NoDup w n :
  (forall i j, uuids w i = uuids w j -> i = j) -> NoDup (nextIds w n).
Proof.
  intros Hinj. unfold nextIds. generalize (uuidsDrawn w).
  induction n as [|n IH]; intros a; cbn [seq map]; constructor; [|apply IH].
  intros Hin. apply in_map_iff in Hin as (x & Hx & Hs).
  apply Hinj in Hx. apply in_seq in Hs. lia.
Qed.

End FreshIdentifiers.

(** X12.  The identifiers of a parsed conversation are fresh draws.  The
    messages take, in their order, the next identifiers of the generator,
    and the conversation takes the one after them: no identifier is used
    twice when the generator never repeats itself.  In the parser of the
    API the time stamps are readings of the clock made while parsing, one
    per message in order and a last one for the conversation, which is
    its creation time, its update time and its extraction time: they tell
    when the page was parsed, not when the messages were written. *)
Theorem X12_identifiers_are_fresh (rt : Runtime) (html : string) (w : World) :
  (forall url c w',
      Api.parseConversationFromHtml rt html url w = (Ok c, w') ->
      (map Api.m_id (Api.c_messages c) ++ [Api.c_id c])%list
      = MoreSpec.nextIds w (S (List.length (Api.c_messages c)))
      /\ (map Api.m_timestamp (Api.c_messages c) ++ [Api.c_createdAt c])%list
         = map toISOString (MoreSpec.nextTimes w (S (List.length (Api.c_messages c))))
      /\ Api.c_updatedAt c = Api.c_createdAt c
      /\ Api.cm_extractedAt (Api.c_metadata c) = Api.c_createdAt c
      /\ w' = MoreSpec.later w (S (List.length (Api.c_messages c)))
                (S (List.length (Api.c_messages c)))
      /\ ((forall i j, uuids w i = uuids w j -> i = j) ->
          NoDup (map Api.m_id (Api.c_messages c) ++ [Api.c_id c])%list))
  /\ (forall url c w',
      ChatGPTParser.parseFromHtml rt html url w = (Ok c, w') ->
      (map Types.m_id (Types.c_messages c) ++ [Types.c_id c])%list
      = MoreSpec.nextIds w (S (List.length (Types.c_messages c)))
      /\ (exists reads,
            w' = MoreSpec.later w (S (List.length (Types.c_messages c))) reads)
      /\ ((forall i j, uuids w i = uuids w j -> i = j) ->
          NoDup (map Types.m_id (Types.c_messages c) ++ [Types.c_id c])%list)).
Proof.
  split.
  - intros url c w'. unfold Api.parseConversationFromHtml, Api.extractMessages.
    destruct (api_eachMessage_draws (Api.messageElements (cheerio_load rt html)) [] w)
      as (new & E & Hid & Ht & _).
    rewrite E. cbn [app].
    destruct (Nat.eqb (List.length new) 0); [discriminate|].
    cbn [newDate uuidv4 MoreSpec.later uuids clock uuidsDrawn clockReads].
    intros [= <- <-].
    cbn [Api.c_messages Api.c_id Api.c_createdAt Api.c_updatedAt Api.c_metadata
         Api.cm_extractedAt].
    assert (Hids : (map Api.m_id new ++ [uuids w (uuidsDrawn w + List.length new)])%list
                   = MoreSpec.nextIds w (S (List.length new)))
      by now rewrite nextIds_snoc, Hid.
    split; [exact Hids|].
    split; [now rewrite nextTimes_snoc, map_app, Ht|].
    split; [reflexivity|]. split; [reflexivity|].
    split.
    + unfold MoreSpec.later. f_equal; lia.
    + intros Hinj. rewrite Hids. now apply nextIds_NoDup.
  - intros url c w'. unfold ChatGPTParser.parseFromHtml, ChatGPTParser.extractMessages.
    match goal with |- context [if ?b then _ else _] => destruct b end; [discriminate|].
    destruct (parser_eachMessage_draws rt
                (Dom.query (cheerio_load rt html) Validators.chatgptMessages) [] w)
      as (new & reads & E & Hid).
    rewrite E. cbn [app].
    destruct (Nat.eqb (List.length new) 0); [discriminate|].
    cbn [newDate uuidv4 MoreSpec.later uuids clock uuidsDrawn clockReads].
    intros [= <- <-].
    cbn [Types.c_messages Types.c_id].
    assert (Hids : (map Types.m_id new ++ [uuids w (uuidsDrawn w + List.length new)])%list
                   = MoreSpec.nextIds w (S (List.length new)))
      by now rewrite nextIds_snoc, Hid.
    split; [exact Hids|]. split.
    + exists (S reads). unfold MoreSpec.later. f_equal; lia.
    + intros Hinj. rewrite Hids. now apply nextIds_NoDup.
Qed.

(** The demo page, parsed by the handler of the API in the sample world:
    two messages and the conversation take the first three identifiers. *)
Lemma X12_witness :
  exists c w',
    Api.parseConversationFromHtml (Examples.runtimeOf Examples.hooksPage)
      "chatgpt" Examples.shareUrl Examples.world0 = (Ok c, w')
    /\ (map Api.m_id (Api.c_messages c) ++ [Api.c_id c])%list
       = ["uuid-0"; "uuid-1"; "uuid-2"].
Proof.
  destruct (Api.parseConversationFromHtml (Examples.runtimeOf Examples.hooksPage)
              "chatgpt" Examples.shareUrl Examples.world0) as [[c|m] w'] eqn:E;
    [|vm_compute in E; discriminate E].
  exists c, w'. split; [reflexivity|].
  destruct (proj1 (X12_identifiers_are_fresh (Examples.runtimeOf Examples.hooksPage)
                     "chatgpt" Examples.world0) Examples.shareUrl c w' E) as (H & _).
  rewrite H. vm_compute in E. injection E as <- _. reflexivity.
Defined.

Section HandlerReplies.
Import JsString.

(** The four ways the handler of the API ends. *)
Lemma handler_cases rt req w :
  (Api.method req = "OPTIONS"
   /\ Api.handler rt req w
      = {| Api.reply := {| Api.status := 200; Api.body := Api.NoBody |};
           Api.fetched := []; Api.after := w |})
  \/ (exists message st,
        (st = 400 \/ st = 405)
        /\ Api.handler rt req w
           = {| Api.reply := {| Api.status := st; Api.body := Api.ErrorBody message |};
                Api.fetched := []; Api.after := w |})
  \/ (exists url message w',
        Api.handler rt req w
        = {| Api.reply := Api.failed message; Api.fetched := [url]; Api.after := w' |})
  \/ (exists url st stText html c w',
        Api.method req = "POST"
        /\ Api.body_url req = Some url
        /\ fetch rt url = Response true st stText html
        /\ Api.parseConversationFromHtml rt html url w = (Ok c, w')
        /\ Api.handler rt req w
           = {| Api.reply := {| Api.status := 200; Api.body := Api.SuccessBody c |};
                Api.fetched := [url]; Api.after := w' |}).
Proof.
  unfold Api.handler.
  destruct (String.eqb (Api.method req) "OPTIONS") eqn:Eo.
  { apply String.eqb_eq in Eo. left. now split. }
  right.
  destruct (String.eqb (Api.method req) "POST") eqn:Ep; cbn [negb];
    [|left; eexists; exists 405; split; [now right | reflexivity]].
  apply String.eqb_eq in Ep.
  destruct (Api.body_url req) as [url|];
    [|left; eexists; exists 400; split; [now left | reflexivity]].
  destruct (truthy url); cbn [negb];
    [|left; eexists; exists 400; split; [now left | reflexivity]].
  destruct (negb (includes url "chatgpt.com") && negb (includes url "chat.openai.com"));
    [left; eexists; exists 400; split; [now left | reflexivity]|].
  right.
  destruct (fetch rt url) as [message|ok st stText html] eqn:Ef;
    [left; now exists url, message, w|].
  destruct ok; cbn [negb]; [|left; eexists url, _, w; reflexivity].
  destruct (Api.parseConversationFromHtml rt html url w) as [[c|message] w'] eqn:E;
    [|left; now exists url, message, w'].
  right. exists url, st, stText, html, c, w'. repeat split; assumption.
Qed.

End HandlerReplies.

Section AnyBody.
Import JsString.

(** With a string for [originalUrl] the conversation is the typed one. *)
Lemma parse_of_string rt html url w :
  ApiRaw.parseConversationFromHtml rt html (ApiRaw.Str url) w
  = match Api.parseConversationFromHtml rt html url w with
    | (Ok c, w') => (Ok (RawSpec.conversation c), w')
    | (Throw message, w') => (Throw message, w')
    end.
Proof.
  unfold ApiRaw.parseConversationFromHtml, Api.parseConversationFromHtml.
  destruct (Api.extractMessages (cheerio_load rt html) w) as [messages w1].
  destruct (Nat.eqb (List.length messages) 0); reflexivity.
Qed.

(** On a typed request the handler is [Api.handler]. *)
Lemma handler_of_typed en rt req w :
  ApiRaw.handler en rt (RawSpec.request req) w = RawSpec.handled (Api.handler rt req w).
Proof.
  unfold ApiRaw.handler, Api.handler, RawSpec.request.
  cbn [ApiRaw.method ApiRaw.body].
  destruct (String.eqb (Api.method req) "OPTIONS"); [reflexivity|].
  destruct (String.eqb (Api.method req) "POST"); cbn [negb]; [|reflexivity].
  destruct (Api.body_url req) as [url|]; [|reflexivity].
  change (ApiRaw.get (ApiRaw.Object [("url", ApiRaw.Str url)]) "url") with (ApiRaw.Str url).
  cbn [ApiRaw.truthy ApiRaw.includesOf ApiRaw.toString].
  destruct (truthy url); cbn [negb]; [|reflexivity].
  destruct (negb (includes url "chatgpt.com") && negb (includes url "chat.openai.com"));
    [reflexivity|].
  destruct (fetch rt url) as [message|ok st stText html]; [reflexivity|].
  destruct ok; cbn [negb]; [|reflexivity].
  rewrite parse_of_string.
  destruct (Api.parseConversationFromHtml rt html url w) as [[c|message] w']; reflexivity.
Qed.

(** The six ways the handler ends. *)
Lemma raw_handler_cases en rt req w :
  (ApiRaw.method req = "OPTIONS"
   /\ ApiRaw.handler en rt req w
      = {| ApiRaw.reply := Ok {| ApiRaw.status := 200; ApiRaw.sent := ApiRaw.NoBody |};
           ApiRaw.fetched := []; ApiRaw.after := w |})
  \/ (exists message st,
        (st = 400 \/ st = 405)
        /\ ApiRaw.handler en rt req w
           = {| ApiRaw.reply :=
                  Ok {| ApiRaw.status := st; ApiRaw.sent := ApiRaw.ErrorBody message |};
                ApiRaw.fetched := []; ApiRaw.after := w |})
  \/ (exists message,
        ApiRaw.method req = "POST"
        /\ (ApiRaw.body req = Throw message
            \/ exists b, ApiRaw.body req = Ok b
                         /\ (b = ApiRaw.Undefined \/ b = ApiRaw.Null)
                         /\ message = ApiRaw.cannotDestructure en b)
        /\ ApiRaw.handler en rt req w
           = {| ApiRaw.reply := Throw message; ApiRaw.fetched := []; ApiRaw.after := w |})
  \/ (exists b message,
        ApiRaw.method req = "POST"
        /\ ApiRaw.body req = Ok b
        /\ ApiRaw.truthy (ApiRaw.get b "url") = true
        /\ (forall s, ApiRaw.get b "url" <> ApiRaw.Str s)
        /\ ((ApiRaw.includesOf (ApiRaw.get b "url") = None
             /\ message = ApiRaw.notAFunction en)
            \/ ApiRaw.toString en (ApiRaw.get b "url") = Throw message)
        /\ ApiRaw.handler en rt req w
           = {| ApiRaw.reply := Ok (ApiRaw.failed message);
                ApiRaw.fetched := []; ApiRaw.after := w |})
  \/ (exists address message w',
        ApiRaw.handler en rt req w
        = {| ApiRaw.reply := Ok (ApiRaw.failed message);
             ApiRaw.fetched := [address]; ApiRaw.after := w' |})
  \/ (exists b address st stText html c w',
        ApiRaw.method req = "POST"
        /\ ApiRaw.body req = Ok b
        /\ ApiRaw.truthy (ApiRaw.get b "url") = true
        /\ ApiRaw.toString en (ApiRaw.get b "url") = Ok address
        /\ fetch rt address = Response true st stText html
        /\ ApiRaw.parseConversationFromHtml rt html (ApiRaw.get b "url") w = (Ok c, w')
        /\ ApiRaw.handler en rt req w
           = {| ApiRaw.reply :=
                  Ok {| ApiRaw.status := 200; ApiRaw.sent := ApiRaw.SuccessBody c |};
                ApiRaw.fetched := [address]; ApiRaw.after := w' |}).
Proof.
  unfold ApiRaw.handler.
  destruct (String.eqb (ApiRaw.method req) "OPTIONS") eqn:Eo.
  { apply String.eqb_eq in Eo. left. now split. }
  right.
  destruct (String.eqb (ApiRaw.method req) "POST") eqn:Ep; cbn [negb];
    [|left; eexists; exists 405; split; [now right | reflexivity]].
  apply String.eqb_eq in Ep.
  destruct (ApiRaw.body req) as [b|thrown] eqn:Eb;
    [|right; left; exists thrown; split; [exact Ep|]; split; [now left | reflexivity]].
  destruct b as [| |flag|x|text|items|members];
    try (right; left; eexists; split; [exact Ep|];
         split; [right; eexists; split; [reflexivity|]; split; [auto | reflexivity]
                | reflexivity]);
    try (left; eexists; exists 400; split; [now left | reflexivity]).
  set (b := ApiRaw.Object members) in *.
  destruct (ApiRaw.truthy (ApiRaw.get b "url")) eqn:Et; cbn [negb];
    [|left; eexists; exists 400; split; [now left | reflexivity]].
  destruct (ApiRaw.includesOf (ApiRaw.get b "url")) as [url_includes|] eqn:Ei.
  2:{ right. right. left. exists b. eexists. split; [exact Ep|]. split; [reflexivity|].
      split; [exact Et|]. split.
      - intros s Hs. rewrite Hs in Ei. discriminate Ei.
      - split; [left; split; [exact Ei | reflexivity] | reflexivity]. }
  destruct (negb (url_includes "chatgpt.com") && negb (url_includes "chat.openai.com"));
    [left; eexists; exists 400; split; [now left | reflexivity]|].
  right. right.
  destruct (ApiRaw.toString en (ApiRaw.get b "url")) as [address|message] eqn:Es.
  2:{ left. exists b, message. split; [exact Ep|]. split; [reflexivity|].
      split; [exact Et|]. split.
      - intros s Hs. rewrite Hs in Es. discriminate Es.
      - split; [now right | reflexivity]. }
  right.
  destruct (fetch rt address) as [message|ok st stText html] eqn:Ef;
    [left; now exists address, message, w|].
  destruct ok; cbn [negb]; [|left; eexists address, _, w; reflexivity].
  destruct (ApiRaw.parseConversationFromHtml rt html (ApiRaw.get b "url") w)
    as [[c|message] w'] eqn:E;
    [|left; now exists address, message, w'].
  right. exists b, address, st, stText, html, c, w'. repeat split; assumption.
Qed.

(** A POST of [{ url: 123 }] is answered 500 and nothing is fetched. *)
Lemma number_url_fails number_toString rt w :
  ApiRaw.handler (RawSpec.v8 number_toString) rt
    {| ApiRaw.method := "POST"; ApiRaw.body := Ok RawSpec.numberBody |} w
  = {| ApiRaw.reply :=
         Ok {| ApiRaw.status := 500;
               ApiRaw.sent :=
                 ApiRaw.ErrorBody
                   "Failed to parse conversation: url.includes is not a function" |};
       ApiRaw.fetched := []; ApiRaw.after := w |}.
Proof. reflexivity. Qed.

(** A POST without a body is not answered by the handler. *)
Lemma missing_body_throws number_toString rt w :
  ApiRaw.handler (RawSpec.v8 number_toString) rt
    {| ApiRaw.method := "POST"; ApiRaw.body := Ok ApiRaw.Undefined |} w
  = {| ApiRaw.reply :=
         Throw "Cannot destructure property 'url' of 'req.body' as it is undefined.";
       ApiRaw.fetched := []; ApiRaw.after := w |}.
Proof. reflexivity. Qed.

(** A POST whose [url] is an array with the item [chatgpt.com] passes the
    test, and what is fetched is the items joined by commas. *)
Lemma array_url_is_joined number_toString rt w :
  ApiRaw.fetched
    (ApiRaw.handler (RawSpec.v8 number_toString) rt
       {| ApiRaw.method := "POST";
          ApiRaw.body :=
            Ok (ApiRaw.Object
                  [("url", ApiRaw.Array [ApiRaw.Str "https://example.com/";
                                         ApiRaw.Str "chatgpt.com"])]) |} w)
  = ["https://example.com/,chatgpt.com"].
Proof.
  unfold ApiRaw.handler.
  cbn [ApiRaw.method ApiRaw.body String.eqb Ascii.eqb Bool.eqb negb].
  change (ApiRaw.get _ "url")
    with (ApiRaw.Array [ApiRaw.Str "https://example.com/"; ApiRaw.Str "chatgpt.com"]).
  change (ApiRaw.toString _ _) with (@Ok string "https://example.com/,chatgpt.com").
  cbn [ApiRaw.truthy ApiRaw.includesOf negb existsb String.eqb Ascii.eqb Bool.eqb
       andb orb].
  destruct (fetch rt _) as [message|ok st stText html]; [reflexivity|].
  destruct ok; cbn [negb]; [|reflexivity].
  destruct (ApiRaw.parseConversationFromHtml _ _ _ _) as [[c|message] w']; reflexivity.
Qed.

End AnyBody.
(** X13.  The replies of the handler of the API, whatever the body of the
    request is.  A conversation is sent only with status 200, and only when
    the string form of the [url] of the body of a POST was fetched, the
    answer was ok and its page parsed to that conversation.  Status 200 is
    otherwise given to OPTIONS alone, with no body.  Every other reply is
    an error with status 400, 405 or 500.  The message of a 500 starts with
    [Failed to parse conversation: ], even when it is the fetch that
    failed; it comes after a fetch, or with nothing fetched for a [url]
    that is no string: one without a function [includes], or an array whose
    string form cannot be made.  400 and 405 come with nothing fetched and
    the world untouched.  The handler throws without a reply exactly for a
    POST whose body cannot be read, or is [undefined] or [null].  A POST
    whose [url] is a number other than zero, [true] or an object is
    answered 500 with nothing fetched.  On a request whose [url] is a string
    or missing, the handler is [Api.handler]. *)
Theorem X13_handler_replies (en : ApiRaw.Engine) (rt : Runtime) (req : ApiRaw.Request)
    (w : World) :
  (forall r c,
      ApiRaw.reply (ApiRaw.handler en rt req w) = Ok r ->
      ApiRaw.sent r = ApiRaw.SuccessBody c ->
      ApiRaw.status r = 200
      /\ ApiRaw.method req = "POST"
      /\ exists b address st stText html,
           ApiRaw.body req = Ok b
           /\ ApiRaw.truthy (ApiRaw.get b "url") = true
           /\ ApiRaw.toString en (ApiRaw.get b "url") = Ok address
           /\ fetch rt address = Response true st stText html
           /\ ApiRaw.parseConversationFromHtml rt html (ApiRaw.get b "url") w
              = (Ok c, ApiRaw.after (ApiRaw.handler en rt req w))
           /\ ApiRaw.fetched (ApiRaw.handler en rt req w) = [address])
  /\ (forall r,
        ApiRaw.reply (ApiRaw.handler en rt req w) = Ok r ->
        ApiRaw.status r = 200 ->
        (ApiRaw.method req = "OPTIONS"
         /\ ApiRaw.handler en rt req w
            = {| ApiRaw.reply := Ok {| ApiRaw.status := 200; ApiRaw.sent := ApiRaw.NoBody |};
                 ApiRaw.fetched := []; ApiRaw.after := w |})
        \/ exists c, ApiRaw.sent r = ApiRaw.SuccessBody c)
  /\ (forall r,
        ApiRaw.reply (ApiRaw.handler en rt req w) = Ok r ->
        ApiRaw.status r <> 200 ->
        (exists message,
            r = {| ApiRaw.status := 500;
                   ApiRaw.sent :=
                     ApiRaw.ErrorBody ("Failed to parse conversation: " ++ message) |}
            /\ ((exists address, ApiRaw.fetched (ApiRaw.handler en rt req w) = [address])
                \/ (ApiRaw.fetched (ApiRaw.handler en rt req w) = []
                    /\ ApiRaw.after (ApiRaw.handler en rt req w) = w
                    /\ exists b,
                         ApiRaw.body req = Ok b
                         /\ ApiRaw.truthy (ApiRaw.get b "url") = true
                         /\ (forall s, ApiRaw.get b "url" <> ApiRaw.Str s)
                         /\ ((ApiRaw.includesOf (ApiRaw.get b "url") = None
                              /\ message = ApiRaw.notAFunction en)
                             \/ ApiRaw.toString en (ApiRaw.get b "url")
                                = Throw message))))
        \/ (exists message,
              ApiRaw.sent r = ApiRaw.ErrorBody message
              /\ (ApiRaw.status r = 400 \/ ApiRaw.status r = 405)
              /\ ApiRaw.fetched (ApiRaw.handler en rt req w) = []
              /\ ApiRaw.after (ApiRaw.handler en rt req w) = w))
  /\ (forall message,
        ApiRaw.reply (ApiRaw.handler en rt req w) = Throw message
        <-> ApiRaw.method req = "POST"
            /\ (ApiRaw.body req = Throw message
                \/ exists b,
                     ApiRaw.body req = Ok b
                     /\ (b = ApiRaw.Undefined \/ b = ApiRaw.Null)
                     /\ message = ApiRaw.cannotDestructure en b))
  /\ (forall message,
        ApiRaw.reply (ApiRaw.handler en rt req w) = Throw message ->
        ApiRaw.fetched (ApiRaw.handler en rt req w) = []
        /\ ApiRaw.after (ApiRaw.handler en rt req w) = w)
  /\ (forall b,
        ApiRaw.method req = "POST" ->
        ApiRaw.body req = Ok b ->
        ApiRaw.truthy (ApiRaw.get b "url") = true ->
        ApiRaw.includesOf (ApiRaw.get b "url") = None ->
        ApiRaw.handler en rt req w
        = {| ApiRaw.reply := Ok (ApiRaw.failed (ApiRaw.notAFunction en));
             ApiRaw.fetched := []; ApiRaw.after := w |})
  /\ (forall typed,
        ApiRaw.handler en rt (RawSpec.request typed) w
        = RawSpec.handled (Api.handler rt typed w)).
Proof.
  split; [|split; [|split; [|split; [|split; [|split]]]]].
  - intros r c Hr Hs.
    destruct (raw_handler_cases en rt req w)
      as [(Hm & H)|[(m & st & Hst & H)|[(m & Hm & Hb & H)|[(b & m & Hm & Hb & Ht & Hn & Hw & H)|
          [(address & m & w' & H)|
           (b & address & st & stText & html & c' & w' & Hm & Hb & Ht & Ha & Hf & Hp & H)]]]]];
      rewrite H in Hr |- *; cbn [ApiRaw.reply ApiRaw.fetched ApiRaw.after] in *;
      try (injection Hr as <-; discriminate Hs); try discriminate Hr.
    injection Hr as <-. cbn [ApiRaw.sent ApiRaw.status] in *. injection Hs as <-.
    split; [reflexivity|]. split; [exact Hm|].
    exists b, address, st, stText, html. repeat split; assumption.
  - intros r Hr Hs.
    destruct (raw_handler_cases en rt req w)
      as [(Hm & H)|[(m & st & Hst & H)|[(m & Hm & Hb & H)|[(b & m & Hm & Hb & Ht & Hn & Hw & H)|
          [(address & m & w' & H)|
           (b & address & st & stText & html & c' & w' & Hm & Hb & Ht & Ha & Hf & Hp & H)]]]]];
      rewrite H in Hr |- *; cbn [ApiRaw.reply] in Hr;
      try discriminate Hr; injection Hr as <-; cbn [ApiRaw.status ApiRaw.sent ApiRaw.failed] in *.
    + left. now split.
    + destruct Hst as [-> | ->]; discriminate Hs.
    + discriminate Hs.
    + discriminate Hs.
    + right. now exists c'.
  - intros r Hr Hs.
    destruct (raw_handler_cases en rt req w)
      as [(Hm & H)|[(m & st & Hst & H)|[(m & Hm & Hb & H)|[(b & m & Hm & Hb & Ht & Hn & Hw & H)|
          [(address & m & w' & H)|
           (b & address & st & stText & html & c' & w' & Hm & Hb & Ht & Ha & Hf & Hp & H)]]]]];
      rewrite H in Hr |- *; cbn [ApiRaw.reply ApiRaw.fetched ApiRaw.after] in *;
      try discriminate Hr; injection Hr as <-; cbn [ApiRaw.status ApiRaw.sent ApiRaw.failed] in *.
    + now elim Hs.
    + right. exists m. split; [reflexivity|]. split; [exact Hst|]. now split.
    + left. exists m. split; [reflexivity|]. right. split; [reflexivity|].
      split; [reflexivity|]. exists b. auto.
    + left. exists m. split; [reflexivity|]. left. now exists address.
    + now elim Hs.
  - intros message.
    destruct (raw_handler_cases en rt req w)
      as [(Hm & H)|[(m & st & Hst & H)|[(m & Hm & Hb & H)|[(b & m & Hm & Hb & Ht & Hn & Hw & H)|
          [(address & m & w' & H)|
           (b & address & st & stText & html & c' & w' & Hm & Hb & Ht & Ha & Hf & Hp & H)]]]]].
    + rewrite H. cbn [ApiRaw.reply]. split; [discriminate|].
      intros [Hp _]. rewrite Hm in Hp. discriminate Hp.
    + split; [rewrite H; discriminate|]. intros [Hp Hb]. exfalso.
      revert H. unfold ApiRaw.handler. rewrite Hp. cbn [String.eqb Ascii.eqb Bool.eqb negb].
      destruct Hb as [Hb|(b & Hb & Hu & _)]; rewrite Hb;
        [|destruct Hu; subst b]; discriminate.
    + rewrite H. cbn [ApiRaw.reply]. split.
      * intros [= <-]. now split.
      * intros [_ Hb']. f_equal.
        destruct Hb as [Hb|(b & Hb & Hu & ->)], Hb' as [Hb'|(b' & Hb' & Hu' & ->)];
          rewrite Hb in Hb'; try discriminate Hb'; injection Hb' as <-; reflexivity.
    + rewrite H. cbn [ApiRaw.reply]. split; [discriminate|].
      intros [_ [Hb'|(b' & Hb' & Hu & _)]]; rewrite Hb in Hb'; [discriminate Hb'|].
      injection Hb' as <-. destruct Hu; subst b; discriminate Ht.
    + rewrite H. cbn [ApiRaw.reply]. split; [discriminate|]. intros [Hp Hb]. exfalso.
      revert H. unfold ApiRaw.handler. rewrite Hp. cbn [String.eqb Ascii.eqb Bool.eqb negb].
      destruct Hb as [Hb|(b & Hb & Hu & _)]; rewrite Hb;
        [|destruct Hu; subst b]; discriminate.
    + rewrite H. cbn [ApiRaw.reply]. split; [discriminate|].
      intros [_ [Hb'|(b' & Hb' & Hu & _)]]; rewrite Hb in Hb'; [discriminate Hb'|].
      injection Hb' as <-. destruct Hu; subst b; discriminate Ht.
  - intros message Hr.
    destruct (raw_handler_cases en rt req w)
      as [(Hm & H)|[(m & st & Hst & H)|[(m & Hm & Hb & H)|[(b & m & Hm & Hb & Ht & Hn & Hw & H)|
          [(address & m & w' & H)|
           (b & address & st & stText & html & c' & w' & Hm & Hb & Ht & Ha & Hf & Hp & H)]]]]];
      rewrite H in Hr |- *; cbn [ApiRaw.reply ApiRaw.fetched ApiRaw.after] in *;
      try discriminate Hr.
    now split.
  - intros b Hm Hb Ht Hi. unfold ApiRaw.handler. rewrite Hm, Hb.
    cbn [String.eqb Ascii.eqb Bool.eqb negb].
    destruct b; try discriminate Ht. now rewrite Ht, Hi.
  - intros typed. apply handler_of_typed.
Qed.

(** X14.  [ChatGPTParser.parseFromUrl].  In a browser it fetches nothing
    and always throws the CORS restriction: the refusal thrown inside the
    [try] mentions CORS, so the [catch] replaces it.  Elsewhere it fetches
    the URL once; it returns a conversation only when the answer was ok and
    its page parsed to that conversation, whose metadata then hold the
    URL; and whatever it throws is the CORS restriction or starts with
    [Failed to parse ChatGPT conversation: ]. *)
Theorem X14_parse_from_url (rt : Runtime) (inBrowser : bool) (url : string) (w : World) :
  (inBrowser = true ->
   ParserMore.parseFromUrl rt inBrowser url w
   = {| ParserMore.outcome := Throw ParserMore.corsRestriction;
        ParserMore.fetched := [];
        ParserMore.after := w |})
  /\ (inBrowser = false -> ParserMore.fetched (ParserMore.parseFromUrl rt inBrowser url w) = [url])
  /\ (forall c,
        ParserMore.outcome (ParserMore.parseFromUrl rt inBrowser url w) = Ok c ->
        inBrowser = false
        /\ Types.cm_url (Types.c_metadata c) = Some url
        /\ exists st stText html,
             fetch rt url = Response true st stText html
             /\ ChatGPTParser.parseFromHtml rt html (Some url) w
                = (Ok c, ParserMore.after (ParserMore.parseFromUrl rt inBrowser url w)))
  /\ (forall message,
        ParserMore.outcome (ParserMore.parseFromUrl rt inBrowser url w) = Throw message ->
        message = ParserMore.corsRestriction
        \/ exists cause, message = "Failed to parse ChatGPT conversation: " ++ cause).
Proof.
  assert (Hthrow : forall cause message,
            (if JsString.includes cause "CORS"
             then Throw ParserMore.corsRestriction
             else Throw ("Failed to parse ChatGPT conversation: " ++ cause))
            = @Throw Types.Conversation message ->
            message = ParserMore.corsRestriction
            \/ exists cause, message = "Failed to parse ChatGPT conversation: " ++ cause).
  { intros cause message. destruct (JsString.includes cause "CORS"); intros [= <-];
      [now left | right; now exists cause]. }
  unfold ParserMore.parseFromUrl, ParserMore.tryFetchAndParse.
  destruct inBrowser.
  { cbn [ParserMore.outcome ParserMore.fetched ParserMore.after].
    change (JsString.includes ParserMore.directFetchRefused "CORS") with true.
    cbv iota. split; [reflexivity|]. split; [discriminate|]. split; [discriminate|].
    intros message [= <-]. now left. }
  split; [discriminate|].
  destruct (fetch rt url) as [cause|ok st stText html] eqn:Ef;
    cbn [ParserMore.outcome ParserMore.fetched ParserMore.after].
  { split; [reflexivity|]. split; [|apply Hthrow].
    intros c. destruct (JsString.includes cause "CORS"); discriminate. }
  destruct ok; cbn [negb ParserMore.outcome ParserMore.fetched ParserMore.after].
  2:{ split; [reflexivity|]. split; [|apply Hthrow].
      intros c. match goal with |- context [if ?b then _ else _] => destruct b end;
        discriminate. }
  destruct (ChatGPTParser.parseFromHtml rt html (Some url) w) as [[c|cause] w'] eqn:E;
    cbn [ParserMore.outcome ParserMore.fetched ParserMore.after].
  - split; [reflexivity|]. split; [|discriminate].
    intros c' [= <-]. split; [reflexivity|]. split.
    + now destruct (@parser_parse_inversion rt html (Some url) w c w' E)
        as (_ & _ & _ & _ & _ & _ & _ & H).
    + now exists st, stText, html.
  - split; [reflexivity|]. split; [|apply Hthrow].
    intros c. destruct (JsString.includes cause "CORS"); discriminate.
Qed.

Section CsvReading.
Import JsString JsMore Generators MoreSpec.

Lemma prefix_nil r : String.prefix EmptyString r = true.
Proof. now destruct r. Qed.

Lemma includes_char c t :
  includes t (String c EmptyString) = negb (noChar (Ascii.eqb c) t).
Proof.
  induction t as [|a t IH]; [reflexivity|].
  cbn [includes noChar String.prefix]. rewrite IH, negb_andb, negb_involutive.
  destruct (ascii_dec c a) as [->|Hne].
  - now rewrite Ascii.eqb_refl, prefix_nil.
  - apply Ascii.eqb_neq in Hne. now rewrite Hne.
Qed.

Lemma noChar_special t :
  noChar csvSpecial t
  = noChar (Ascii.eqb ","%char) t && noChar (Ascii.eqb dquote) t && noChar (Ascii.eqb LF) t.
Proof.
  induction t as [|a t IH]; [reflexivity|].
  cbn [noChar]. rewrite IH. unfold csvSpecial.
  destruct (Ascii.eqb ","%char a), (Ascii.eqb dquote a), (Ascii.eqb LF a),
    (noChar (Ascii.eqb ","%char) t), (noChar (Ascii.eqb dquote) t),
    (noChar (Ascii.eqb LF) t); reflexivity.
Qed.

Lemma escapeCSV_cases t :
  escapeCSV t
  = if noChar csvSpecial t then t
    else DQ ++ replaceAllChar dquote (DQ ++ DQ) t ++ DQ.
Proof.
  unfold escapeCSV. change "," with (String ","%char EmptyString).
  unfold DQ at 1, NL. rewrite !includes_char, noChar_special.
  destruct (noChar (Ascii.eqb ","%char) t), (noChar (Ascii.eqb dquote) t),
    (noChar (Ascii.eqb LF) t); reflexivity.
Qed.

Lemma prepend_nil x : prepend EmptyString x = x.
Proof. now destruct x as [[[f fs] rs]|]. Qed.

Lemma addChar_prepend c t x : addChar c (prepend t x) = prepend (String c t) x.
Proof. now destruct x as [[[f fs] rs]|]. Qed.

Lemma scan_separator_plain rest :
  atSeparator rest = true -> csvScan InPlain rest = csvScan FieldStart rest.
Proof.
  destruct rest as [|c r]; [reflexivity|]. cbn [atSeparator csvScan].
  destruct (Ascii.eqb c ","%char); [reflexivity|].
  destruct (Ascii.eqb c LF); [reflexivity | discriminate].
Qed.

Lemma scan_separator_quote rest :
  atSeparator rest = true -> csvScan AfterQuote rest = csvScan FieldStart rest.
Proof.
  destruct rest as [|c r]; [reflexivity|]. cbn [atSeparator csvScan].
  destruct (Ascii.eqb c ","%char); [reflexivity|].
  destruct (Ascii.eqb c LF); [reflexivity | discriminate].
Qed.

Lemma special_split c :
  csvSpecial c = false ->
  Ascii.eqb c ","%char = false /\ Ascii.eqb c dquote = false /\ Ascii.eqb c LF = false.
Proof.
  unfold csvSpecial. rewrite !(Ascii.eqb_sym c).
  destruct (Ascii.eqb ","%char c), (Ascii.eqb dquote c), (Ascii.eqb LF c);
    try discriminate. now repeat split.
Qed.

Lemma scan_plain t rest :
  noChar csvSpecial t = true -> atSeparator rest = true ->
  csvScan InPlain (t ++ rest) = prepend t (csvScan FieldStart rest).
Proof.
  intros Ht Hr. induction t as [|c t IH]; cbn [String.append].
  - now rewrite prepend_nil, scan_separator_plain.
  - cbn [noChar] in Ht. apply andb_true_iff in Ht as [Hc Ht].
    apply negb_true_iff, special_split in Hc as (H1 & H2 & H3).
    cbn [csvScan]. now rewrite H1, H2, H3, (IH Ht), addChar_prepend.
Qed.

Lemma scan_plain_start t rest :
  noChar csvSpecial t = true -> atSeparator rest = true ->
  csvScan FieldStart (t ++ rest) = prepend t (csvScan FieldStart rest).
Proof.
  intros Ht Hr. destruct t as [|c t]; cbn [String.append].
  - now rewrite prepend_nil.
  - cbn [noChar] in Ht. apply andb_true_iff in Ht as [Hc Ht].
    apply negb_true_iff, special_split in Hc as (H1 & H2 & H3).
    cbn [csvScan]. now rewrite H1, H2, H3, (scan_plain _ _ Ht Hr), addChar_prepend.
Qed.

Lemma scan_quoted t rest :
  atSeparator rest = true ->
  csvScan InQuoted (replaceAllChar dquote (DQ ++ DQ) t ++ DQ ++ rest)
  = prepend t (csvScan FieldStart rest).
Proof.
  intros Hr. induction t as [|c t IH]; cbn [replaceAllChar].
  - change (EmptyString ++ DQ ++ rest) with (String dquote rest).
    cbn [csvScan]. rewrite Ascii.eqb_refl, prepend_nil.
    destruct rest as [|c r]; [reflexivity|].
    rewrite <- (scan_separator_quote _ Hr).
    destruct (Ascii.eqb c dquote) eqn:E; [|reflexivity].
    apply Ascii.eqb_eq in E. subst c. discriminate Hr.
  - destruct (Ascii.eqb c dquote) eqn:E.
    + apply Ascii.eqb_eq in E. subst c.
      change ((DQ ++ DQ) ++ ?x) with (String dquote (String dquote x)).
      cbn [String.append csvScan]. rewrite !Ascii.eqb_refl.
      now rewrite IH, addChar_prepend.
    + cbn [String.append csvScan]. now rewrite E, IH, addChar_prepend.
Qed.

Lemma scan_field t rest :
  atSeparator rest = true ->
  csvScan FieldStart (escapeCSV t ++ rest) = prepend t (csvScan FieldStart rest).
Proof.
  intros Hr. rewrite escapeCSV_cases. destruct (noChar csvSpecial t) eqn:E.
  - now apply scan_plain_start.
  - rewrite !append_assoc. change (DQ ++ ?x) with (String dquote x) at 1.
    cbn [csvScan]. change (Ascii.eqb dquote ","%char) with false.
    change (Ascii.eqb dquote LF) with false. rewrite Ascii.eqb_refl. cbv iota.
    now apply scan_quoted.
Qed.

Lemma csvLine_starts fields more :
  exists c s, csvLine fields ++ more = String c s.
Proof.
  unfold csvLine. destruct (join "," (map escapeCSV fields)) as [|c s].
  - now exists LF, more.
  - now exists c, ((s ++ NL) ++ more).
Qed.

Lemma scan_line xs :
  forall x more,
    csvScan FieldStart (csvLine (x :: xs) ++ more) = thenRecords x xs more.
Proof.
  induction xs as [|y ys IH]; intros x more.
  - unfold csvLine. cbn [map join]. rewrite append_assoc.
    rewrite scan_field by reflexivity.
    change (NL ++ more) with (String LF more). cbn [csvScan].
    change (Ascii.eqb LF ","%char) with false. rewrite Ascii.eqb_refl. cbv iota.
    unfold thenRecords. destruct more as [|c r].
    + cbn [prepend csvNothing]. now rewrite append_nil_r.
    + destruct (csvScan FieldStart (String c r)) as [[[f fs] rs]|];
        cbn [endRecord prepend]; [now rewrite append_nil_r | reflexivity].
  - specialize (IH y more). unfold csvLine in *. cbn [map] in *.
    change (join "," (escapeCSV x :: escapeCSV y :: map escapeCSV ys))
      with (escapeCSV x ++ "," ++ join "," (escapeCSV y :: map escapeCSV ys)).
    rewrite !append_assoc. rewrite scan_field by reflexivity.
    change ("," ++ ?r) with (String ","%char r). cbn [csvScan]. rewrite Ascii.eqb_refl.
    rewrite <- append_assoc, IH. unfold thenRecords. destruct more as [|c r].
    + cbn [endField prepend]. now rewrite append_nil_r.
    + destruct (csvScan FieldStart (String c r)) as [[[f fs] rs]|];
        cbn [endField prepend]; [now rewrite append_nil_r | reflexivity].
Qed.

Lemma scan_lines x xs (records : list (list string)) :
  Forall (fun r => r <> []) records ->
  csvScan FieldStart
    (csvLine (x :: xs) ++ fold_right String.append EmptyString (map csvLine records))
  = Some (x, xs, records).
Proof.
  revert x xs. induction records as [|r rs IH]; intros x xs Hne; rewrite scan_line.
  - reflexivity.
  - cbn [map fold_right]. unfold thenRecords.
    destruct (csvLine_starts r (fold_right String.append EmptyString (map csvLine rs)))
      as (c & s & E).
    rewrite E, <- E. inversion Hne as [|? ? Hr Hrs]; subst.
    destruct r as [|y ys]; [congruence|]. now rewrite (IH y ys Hrs).
Qed.

End CsvReading.

(** X15.  A CSV reader gets back what the CSV export was given.  Reading
    the output of [CSVGenerator.generate] by the rules of RFC 4180 gives
    the header and then, for each message in order, its role, its text
    exactly as it was, and its time stamp when time stamps are asked for:
    whatever commas, double quotes and line feeds the text holds, no field
    is split, merged or altered. *)
Theorem X15_csv_reads_back (rt : Runtime) (conversation : Types.Conversation)
    (options : Generators.ExportOptions) :
  MoreSpec.csvRead (Generators.CSV_generate rt conversation options)
  = Some (MoreSpec.headerFields (Generators.orTrue (Generators.includeTimestamps options))
          :: map (MoreSpec.messageFields rt
                    (Generators.orTrue (Generators.includeTimestamps options)))
               (Types.c_messages conversation)).
Proof.
  unfold Generators.CSV_generate. rewrite csvRows_append. cbn [String.append].
  set (b := Generators.orTrue (Generators.includeTimestamps options)).
  assert (Hh : Generators.csvHeader b = MoreSpec.csvLine (MoreSpec.headerFields b))
    by (destruct b; reflexivity).
  assert (Hr : map (Generators.csvRow rt b) (Types.c_messages conversation)
               = map MoreSpec.csvLine
                   (map (MoreSpec.messageFields rt b) (Types.c_messages conversation))).
  { rewrite map_map. apply map_ext. intros m. now destruct b. }
  rewrite Hh, Hr. unfold MoreSpec.csvRead.
  destruct (csvLine_starts (MoreSpec.headerFields b)
              (fold_right String.append EmptyString
                 (map MoreSpec.csvLine
                    (map (MoreSpec.messageFields rt b) (Types.c_messages conversation)))))
    as (c & s & E).
  rewrite E, <- E. unfold MoreSpec.headerFields at 1. cbn [app].
  rewrite scan_lines; [reflexivity|].
  apply Forall_forall. intros r Hin. apply in_map_iff in Hin as (m & <- & _).
  discriminate.
Qed.

Section JsonOptions.
Import JsString Json Types Generators Spec.

Lemma spread_same_metadata c :
  spreadSet (conversationFields c) "metadata" (metadataJS (c_metadata c))
  = conversationFields c.
Proof. reflexivity. Qed.

Lemma view_without_metadata c :
  jsonView (VObj (spreadSet (conversationFields c) "metadata" VUndefined))
  = VObj [ ("id", VStr (c_id c));
           ("title", VStr (c_title c));
           ("platform", VStr (platformName (c_platform c)));
           ("createdAt", VStr (toISOString (c_createdAt c)));
           ("updatedAt", VStr (toISOString (c_updatedAt c)));
           ("messages", jsonView (VArr (map messageJS (c_messages c)))) ].
Proof. reflexivity. Qed.

(** The members other than [metadata] do not depend on it. *)
Lemma view_other_members c (metadata : jsval) key :
  key <> "metadata" ->
  get (jsonView (VObj [ ("id", VStr (c_id c));
                        ("title", VStr (c_title c));
                        ("platform", VStr (platformName (c_platform c)));
                        ("createdAt", VDate (c_createdAt c));
                        ("updatedAt", VDate (c_updatedAt c));
                        ("messages", VArr (map messageJS (c_messages c)));
                        ("metadata", metadata) ])) key
  = get (VObj [ ("id", VStr (c_id c));
                ("title", VStr (c_title c));
                ("platform", VStr (platformName (c_platform c)));
                ("createdAt", VStr (toISOString (c_createdAt c)));
                ("updatedAt", VStr (toISOString (c_updatedAt c)));
                ("messages", jsonView (VArr (map messageJS (c_messages c)))) ]) key.
Proof.
  intros Hkey. rewrite jsonView_obj.
  cbn [flat_map fst snd app get lookupField].
  repeat match goal with
  | |- context [String.eqb ?k key] =>
      lazymatch k with
      | "metadata" => fail
      | _ => destruct (String.eqb k key); [reflexivity|]
      end
  end.
  destruct metadata; cbn [app lookupField];
    try (destruct (String.eqb "metadata" key) eqn:E;
         [apply String.eqb_eq in E; congruence | reflexivity]).
Qed.

End JsonOptions.

(** X16.  The options of the JSON export.  With [includeMetadata] true or
    absent the document read back is the JSON image of the whole
    conversation, whatever the other options.  With [includeMetadata]
    false the document has no [metadata] member, and every other member
    reads as it does in the full export. *)
Theorem X16_json_metadata_option (conversation : Types.Conversation)
    (options : Generators.ExportOptions) :
  exists document,
    Generators.JSON_generate conversation options = Some document
    /\ (Generators.orTrue (Generators.includeMetadata options) = true ->
        Json.parse document = Spec.jsonView (Types.conversationJS conversation))
    /\ (Generators.orTrue (Generators.includeMetadata options) = false ->
        Json.get (Json.parse document) "metadata" = Json.VUndefined
        /\ forall key,
             key <> "metadata" ->
             Json.get (Json.parse document) key
             = Json.get (Spec.jsonView (Types.conversationJS conversation)) key).
Proof.
  unfold Generators.JSON_generate, Generators.JSON_data, Json.stringify.
  destruct (Generators.orTrue (Generators.includeMetadata options)).
  - rewrite spread_same_metadata.
    destruct (object_round_trip (Types.conversationFields conversation))
      as (document & Hs & Hp).
    exists document. split; [exact Hs|]. split; [intros _; exact Hp | discriminate].
  - destruct (object_round_trip
                (Json.spreadSet (Types.conversationFields conversation) "metadata"
                   Json.VUndefined)) as (document & Hs & Hp).
    exists document. split; [exact Hs|]. split; [discriminate|]. intros _.
    rewrite Hp, view_without_metadata. split; [reflexivity|].
    intros key Hkey. symmetry. now apply view_other_members.
Qed.

Section HtmlExport.
Import JsString JsMore Types Generators GeneratorsMore MoreSpec.

Lemma holds_skip ps l rest :
  HoldsInOrder ps (unlines rest) -> HoldsInOrder ps (unlines (l :: rest)).
Proof. intros H. cbn [unlines]. now do 2 apply holds_gap. Qed.

Lemma holds_line p ps gap rest :
  HoldsInOrder ps (unlines rest) -> HoldsInOrder (p :: ps) (unlines ((gap ++ p) :: rest)).
Proof.
  intros H. cbn [unlines]. rewrite append_assoc. constructor. now apply holds_gap.
Qed.

Lemma htmlHead_holds title :
  HoldsInOrder ["<title>" ++ title ++ "</title>"; "<h1>" ++ title ++ "</h1>"]
    (htmlHead title).
Proof.
  unfold htmlHead. apply holds_gap. do 4 apply holds_skip.
  apply (@holds_line ("<title>" ++ title ++ "</title>") _ "    ").
  do 15 apply holds_skip.
  apply (@holds_line ("<h1>" ++ title ++ "</h1>") _ "    ").
  constructor.
Qed.

Lemma htmlArtifact_holds (l : list Artifact) :
  HoldsInOrder (map codeElement (filter (fun a => isCode (a_type a)) l))
    (fold_right String.append EmptyString (map htmlArtifact l)).
Proof.
  induction l as [|a l IH]; cbn [map filter fold_right]; [constructor|].
  unfold htmlArtifact at 1. destruct (isCode (a_type a)); cbv iota; cbn [map].
  - apply holds_app with (ps := [codeElement a]); [|exact IH].
    apply holds_gap. apply (@holds_line (codeElement a) _ "        "). constructor.
  - exact IH.
Qed.

Lemma htmlMessage_holds rt b m : HoldsInOrder (htmlElements m) (htmlMessage rt b m).
Proof.
  unfold htmlMessage, htmlElements. rewrite appendEach_concat.
  apply holds_tail.
  apply holds_app with (ps := [contentElement (text (m_content m))]);
    [|apply htmlArtifact_holds].
  do 2 apply holds_gap. do 5 apply holds_skip.
  apply (@holds_line (contentElement (text (m_content m))) _ "        "). constructor.
Qed.

End HtmlExport.

(** X18.  The HTML page written for the format pdf.  The title is put as
    it is, without escaping, in the [title] element and in the [h1]
    element.  Then come, for each message in order, a [div] of class
    content holding its text as [formatContentForHTML] escapes it, and for
    each of its code artifacts a [pre] and [code] holding the code as
    [escapeHTML] escapes it. *)
Theorem X18_html_export (rt : Runtime) (conversation : Types.Conversation)
    (options : Generators.ExportOptions) :
  MoreSpec.HoldsInOrder
    ([ "<title>" ++ Types.c_title conversation ++ "</title>";
       "<h1>" ++ Types.c_title conversation ++ "</h1>" ]
     ++ flat_map MoreSpec.htmlElements (Types.c_messages conversation))
    (GeneratorsMore.PDF_generate rt conversation options).
Proof.
  unfold GeneratorsMore.PDF_generate. rewrite appendEach_concat.
  apply holds_tail. apply holds_app.
  - destruct (Generators.orTrue (Generators.includeMetadata options));
      [apply holds_tail|]; apply htmlHead_holds.
  - apply holds_concat. intros m. apply htmlMessage_holds.
Qed.

Section ClientAndServer.
Import JsString.

Lemma client_error noJson r c :
  ApiService.ok r = false ->
  ApiService.parseConversation noJson (ApiService.Reply r) <> Ok c.
Proof.
  intros H. unfold ApiService.parseConversation, ApiService.request.
  rewrite H. cbn [negb].
  match goal with |- context [if ?b then _ else _] => destruct b end; discriminate.
Qed.

End ClientAndServer.

(** X17.  What the client tells the user when its POST reaches the
    handler of the API.  It returns a conversation exactly when the
    handler sent one.  The refusals of the handler (no URL, not a ChatGPT
    URL) and a page without messages are reported with the message of the
    handler.  But when the page could not be fetched because the answer of
    ChatGPT was not ok, the message of the handler holds the word [fetch],
    and the client reports that the API server is not available, although
    it is the server that answered.  The health check, an OPTIONS request,
    succeeds whenever the handler answers it. *)
Theorem X17_client_reports (rt : Runtime) (noJson url : string) (w : World) :
  (forall c,
      ApiService.parseConversation noJson
        (ApiService.Reply
           (Api.reply (Api.handler rt {| Api.method := "POST"; Api.body_url := Some url |} w)))
      = Ok c
      <-> Api.body
            (Api.reply (Api.handler rt {| Api.method := "POST"; Api.body_url := Some url |} w))
          = Api.SuccessBody c)
  /\ (url = EmptyString ->
      ApiService.parseConversation noJson
        (ApiService.Reply
           (Api.reply (Api.handler rt {| Api.method := "POST"; Api.body_url := Some url |} w)))
      = Throw "URL is required")
  /\ (url <> EmptyString ->
      JsString.includes url "chatgpt.com" = false ->
      JsString.includes url "chat.openai.com" = false ->
      ApiService.parseConversation noJson
        (ApiService.Reply
           (Api.reply (Api.handler rt {| Api.method := "POST"; Api.body_url := Some url |} w)))
      = Throw "Invalid URL. Please provide a ChatGPT conversation URL.")
  /\ (forall st stText html,
        url <> EmptyString ->
        (JsString.includes url "chatgpt.com" || JsString.includes url "chat.openai.com")
        = true ->
        fetch rt url = Response false st stText html ->
        ApiService.parseConversation noJson
          (ApiService.Reply
             (Api.reply
                (Api.handler rt {| Api.method := "POST"; Api.body_url := Some url |} w)))
        = Throw ApiService.apiUnavailable)
  /\ (forall st stText html w',
        url <> EmptyString ->
        (JsString.includes url "chatgpt.com" || JsString.includes url "chat.openai.com")
        = true ->
        fetch rt url = Response true st stText html ->
        Api.parseConversationFromHtml rt html url w = (Throw Api.noMessages, w') ->
        ApiService.parseConversation noJson
          (ApiService.Reply
             (Api.reply
                (Api.handler rt {| Api.method := "POST"; Api.body_url := Some url |} w)))
        = Throw ("Failed to parse conversation: " ++ Api.noMessages))
  /\ (forall sent,
        ApiService.checkApiHealth
          (ApiService.Reply
             (Api.reply
                (Api.handler rt {| Api.method := "OPTIONS"; Api.body_url := sent |} w)))
        = true).
Proof.
  split; [|split; [|split; [|split; [|split]]]].
  - intros c.
    destruct (handler_cases rt {| Api.method := "POST"; Api.body_url := Some url |} w)
      as [(Hm & _)|[(m & st & Hst & ->)|[(u & m & w' & ->)|
          (u & st & stText & html & c' & w' & _ & _ & _ & _ & ->)]]];
      [cbn [Api.method] in Hm; discriminate Hm| | |];
      cbn [Api.reply Api.body Api.status Api.failed].
    + split; [|discriminate]. intros H. exfalso. revert H. apply client_error.
      destruct Hst; subst st; reflexivity.
    + split; [|discriminate]. intros H. exfalso. revert H. now apply client_error.
    + unfold ApiService.parseConversation, ApiService.request.
      cbn [ApiService.ok Api.status Api.body Nat.leb andb negb].
      split; intros [= <-]; reflexivity.
  - intros ->. reflexivity.
  - intros Hne H1 H2. unfold Api.handler.
    cbn [Api.method Api.body_url String.eqb Ascii.eqb Bool.eqb negb].
    destruct url; [congruence|]. cbn [JsString.truthy negb]. rewrite H1, H2.
    reflexivity.
  - intros st stText html Hne Hinc Hf. unfold Api.handler.
    cbn [Api.method Api.body_url String.eqb Ascii.eqb Bool.eqb negb].
    destruct url as [|a u]; [congruence|]. cbn [JsString.truthy negb].
    apply orb_true_iff in Hinc.
    assert (Hcheck : negb (JsString.includes (String a u) "chatgpt.com")
                     && negb (JsString.includes (String a u) "chat.openai.com") = false).
    { destruct Hinc as [-> | ->]; [reflexivity | apply andb_false_r]. }
    rewrite Hcheck, Hf. cbn [negb Api.reply].
    unfold ApiService.parseConversation, ApiService.request, Api.failed.
    cbn [ApiService.ok Api.status Api.body Nat.leb andb negb ApiService.errorOf
         ApiService.orElse].
    assert (Hi : JsString.includes
                   ("Failed to parse conversation: "
                    ++ "Failed to fetch: " ++ showNat st ++ " " ++ stText) "fetch" = true).
    { apply JsStringFacts.includes_app_r.
      change ("Failed to fetch: " ++ showNat st ++ " " ++ stText)
        with ("Failed to " ++ "fetch" ++ (": " ++ showNat st ++ " " ++ stText)).
      apply JsStringFacts.includes_app_r. apply JsStringFacts.includes_here. }
    change ("Failed to parse conversation: " ++ ?x)
      with (String "F" ("ailed to parse conversation: " ++ x)) at 1.
    cbn [JsString.truthy]. now rewrite Hi.
  - intros st stText html w' Hne Hinc Hf Hp. unfold Api.handler.
    cbn [Api.method Api.body_url String.eqb Ascii.eqb Bool.eqb negb].
    destruct url as [|a u]; [congruence|]. cbn [JsString.truthy negb].
    apply orb_true_iff in Hinc.
    assert (Hcheck : negb (JsString.includes (String a u) "chatgpt.com")
                     && negb (JsString.includes (String a u) "chat.openai.com") = false).
    { destruct Hinc as [-> | ->]; [reflexivity | apply andb_false_r]. }
    rewrite Hcheck, Hf. cbn [negb]. rewrite Hp. reflexivity.
  - reflexivity.
Qed.

(** ChatGPT answers 404: the client reports that the API server is not
    available. *)
Lemma X17_witness :
  ApiService.parseConversation EmptyString
    (ApiService.Reply
       (Api.reply
          (Api.handler MoreExamples.notFound
             {| Api.method := "POST"; Api.body_url := Some Examples.shareUrl |}
             Examples.world0)))
  = Throw ApiService.apiUnavailable.
Proof.
  apply (proj1 (proj2 (proj2 (proj2
           (X17_client_reports MoreExamples.notFound EmptyString Examples.shareUrl
              Examples.world0))))
         404 "Not Found" EmptyString).
  - discriminate.
  - reflexivity.
  - reflexivity.
Defined.

Section OnlyChatGPT.
Import JsString JsMore Validators MoreSpec JsStringFacts JsMoreFacts.

Lemma prefix_cons a n b s :
  String.prefix (String a n) (String b s) = Ascii.eqb a b && String.prefix n s.
Proof.
  cbn [String.prefix]. destruct (ascii_dec a b) as [->|Hne].
  - now rewrite Ascii.eqb_refl.
  - apply Ascii.eqb_neq in Hne. now rewrite Hne.
Qed.

Lemma includes_cons c s n :
  includes (String c s) n = String.prefix n (String c s) || includes s n.
Proof. reflexivity. Qed.

Lemma prefix_lower n s :
  String.prefix n s = true -> String.prefix (toLowerCase n) (toLowerCase s) = true.
Proof.
  revert s. induction n as [|a n IH]; intros s H; [apply prefix_nil|].
  destruct s as [|b s]; [discriminate|].
  rewrite prefix_cons in H. apply andb_true_iff in H as [Hc Hn].
  apply Ascii.eqb_eq in Hc. subst b.
  cbn [toLowerCase]. rewrite prefix_cons, Ascii.eqb_refl. now apply IH.
Qed.

Lemma includes_lower s n :
  includes s n = true -> includes (toLowerCase s) (toLowerCase n) = true.
Proof.
  induction s as [|c s IH].
  - cbn [includes toLowerCase]. rewrite !orb_false_r. apply prefix_lower.
  - rewrite includes_cons. intros H. apply orb_true_iff in H as [H|H].
    + apply includes_prefix. now apply prefix_lower in H.
    + cbn [toLowerCase]. rewrite includes_cons, (IH H). apply orb_true_r.
Qed.

Lemma prefix_chars p n s :
  String.prefix n s = true -> noChar p s = true -> noChar p n = true.
Proof.
  revert s. induction n as [|a n IH]; intros s H Hs; [reflexivity|].
  destruct s as [|b s]; [discriminate|].
  rewrite prefix_cons in H. apply andb_true_iff in H as [Hc Hn].
  apply Ascii.eqb_eq in Hc. subst b. cbn [noChar] in *.
  apply andb_true_iff in Hs as [-> Hs]. now rewrite (IH s Hn Hs).
Qed.

Lemma includes_chars p n s :
  includes s n = true -> noChar p s = true -> noChar p n = true.
Proof.
  induction s as [|c s IH].
  - cbn [includes]. rewrite orb_false_r. intros H _. now destruct n.
  - rewrite includes_cons. intros H Hs. apply orb_true_iff in H as [H|H].
    + exact (@prefix_chars p _ _ H Hs).
    + cbn [noChar] in Hs. apply andb_true_iff in Hs as [_ Hs]. now apply IH.
Qed.

(** The identifiers of the platforms hold no dot, in any letter case. *)
Lemma idChar_no_dot p config c :
  In (p, config) PLATFORMS -> idChar (pattern config) c = true ->
  Ascii.eqb "."%char (lowerChar c) = false.
Proof.
  intros Hin. cbn in Hin. destruct Hin as [H|[H|[H|[H|[]]]]]; injection H as _ <-;
    cbn [pattern idChar]; each_char c.
Qed.

Lemma id_no_dot p config id :
  In (p, config) PLATFORMS -> allChars (idChar (pattern config)) id = true ->
  noChar (Ascii.eqb "."%char) (toLowerCase id) = true.
Proof.
  intros Hin. induction id as [|c id IH]; cbn [allChars toLowerCase noChar]; [reflexivity|].
  intros H. apply andb_true_iff in H as [Hc Hid].
  now rewrite (@idChar_no_dot p config c Hin Hc), IH.
Qed.

(** After the prefix of Claude, Gemini or Perplexity and an identifier
    without a dot, neither host name of ChatGPT occurs. *)
Lemma other_platform_no_host p config lid :
  In (p, config) PLATFORMS -> p <> chatgpt ->
  noChar (Ascii.eqb "."%char) lid = true ->
  includes (prefix (pattern config) ++ lid) "chatgpt.com" = false
  /\ includes (prefix (pattern config) ++ lid) "chat.openai.com" = false.
Proof.
  intros Hin Hp Hdot.
  assert (H1 : includes lid "chatgpt.com" = false).
  { destruct (includes lid "chatgpt.com") eqn:E; [|reflexivity].
    now pose proof (@includes_chars _ _ _ E Hdot). }
  assert (H2 : includes lid "chat.openai.com" = false).
  { destruct (includes lid "chat.openai.com") eqn:E; [|reflexivity].
    now pose proof (@includes_chars _ _ _ E Hdot). }
  cbn in Hin. destruct Hin as [H|[H|[H|[H|[]]]]]; injection H as <- <-;
    [congruence| | |];
    cbn [pattern prefix String.append];
    repeat (rewrite includes_cons, prefix_cons; cbn [Ascii.eqb Bool.eqb andb orb];
            rewrite ?prefix_cons; cbn [Ascii.eqb Bool.eqb andb orb]);
    rewrite H1, H2; now split.
Qed.

End OnlyChatGPT.

Section AcceptedLinks.
Import JsString JsMore Validators MoreSpec JsStringFacts JsMoreFacts.

(** What [validateChatURL] accepts: the prefix of a platform, in any
    letter case, followed by the identifier. *)
Lemma accepted_share_link rt url :
  isValid (validateChatURL rt url) = true ->
  exists p config id head,
    In (p, config) PLATFORMS
    /\ platform (validateChatURL rt url) = Some p
    /\ trim url = head ++ id
    /\ toLowerCase head = prefix (pattern config)
    /\ id <> EmptyString
    /\ allChars (idChar (pattern config)) id = true.
Proof.
  unfold validateChatURL.
  destruct (truthy url); cbn [negb]; [|discriminate].
  destruct (truthy (trim url)); cbn [negb]; [|discriminate].
  destruct (URL_parses rt (trim url)); cbn [negb]; [|discriminate].
  destruct (firstPlatform PLATFORMS (trim url)) as [[p id]|] eqn:E; [|discriminate].
  intros _. destruct (@firstPlatform_some _ _ _ _ E) as (config & Hin & Hm).
  unfold matchPattern in Hm.
  destruct (dropPrefixCI (prefix (pattern config)) (trim url)) as [r|] eqn:Ed; [|discriminate].
  destruct (truthy r) eqn:Et; [|discriminate].
  destruct (allChars (idChar (pattern config)) r) eqn:Ec; [|discriminate].
  injection Hm as <-.
  destruct (@dropPrefixCI_some _ _ _ Ed) as (head & Hh & Hl).
  rewrite (prefixes_lower Hin) in Hl.
  exists p, config, r, head. cbn [platform].
  split; [exact Hin|]. split; [reflexivity|]. split; [exact Hh|]. split; [exact Hl|].
  split; [|exact Ec]. intros ->. discriminate.
Qed.

Lemma accepted_other_no_host rt url :
  isValid (validateChatURL rt url) = true ->
  platform (validateChatURL rt url) <> Some chatgpt ->
  includes (trim url) "chatgpt.com" = false
  /\ includes (trim url) "chat.openai.com" = false.
Proof.
  intros Hv Hp.
  destruct (accepted_share_link rt url Hv) as (p & config & id & head & Hin & Hpl & Ht & Hl & _ & Hc).
  rewrite Hpl in Hp.
  assert (Hp' : p <> chatgpt) by congruence.
  destruct (@other_platform_no_host p config (toLowerCase id) Hin Hp'
              (@id_no_dot p config id Hin Hc)) as [H1 H2].
  rewrite <- Hl, <- toLowerCase_app, <- Ht in H1, H2.
  split.
  - destruct (includes (trim url) "chatgpt.com") eqn:E; [|reflexivity].
    apply includes_lower in E.
    change (toLowerCase "chatgpt.com") with "chatgpt.com" in E. congruence.
  - destruct (includes (trim url) "chat.openai.com") eqn:E; [|reflexivity].
    apply includes_lower in E.
    change (toLowerCase "chat.openai.com") with "chat.openai.com" in E. congruence.
Qed.

End AcceptedLinks.

(** X3.  Only ChatGPT links are served.  A share link of Claude, Gemini
    or Perplexity that [validateChatURL] accepts, sent without its
    surrounding white space as the form sends it, is refused by the
    handler of the API: the reply is 400, [Invalid URL. Please provide a
    ChatGPT conversation URL.], nothing is fetched, and the client throws
    that message. *)
Theorem X3_only_chatgpt_is_served (rt : Runtime) (noJson url : string) (w : World) :
  Validators.isValid (Validators.validateChatURL rt url) = true ->
  Validators.platform (Validators.validateChatURL rt url) <> Some chatgpt ->
  Api.handler rt {| Api.method := "POST"; Api.body_url := Some (JsString.trim url) |} w
  = {| Api.reply :=
         {| Api.status := 400;
            Api.body :=
              Api.ErrorBody "Invalid URL. Please provide a ChatGPT conversation URL." |};
       Api.fetched := [];
       Api.after := w |}
  /\ ApiService.parseConversation noJson
       (ApiService.Reply
          (Api.reply
             (Api.handler rt
                {| Api.method := "POST"; Api.body_url := Some (JsString.trim url) |} w)))
     = Throw "Invalid URL. Please provide a ChatGPT conversation URL.".
Proof.
  intros Hv Hp.
  destruct (accepted_other_no_host rt url Hv Hp) as [H1 H2].
  assert (Ht : JsString.truthy (JsString.trim url) = true).
  { unfold Validators.validateChatURL in Hv.
    destruct (JsString.truthy url); cbn [negb] in Hv; [|discriminate].
    destruct (JsString.truthy (JsString.trim url)); [reflexivity | discriminate]. }
  assert (Hh : Api.handler rt
                 {| Api.method := "POST"; Api.body_url := Some (JsString.trim url) |} w
               = {| Api.reply :=
                      {| Api.status := 400;
                         Api.body :=
                           Api.ErrorBody
                             "Invalid URL. Please provide a ChatGPT conversation URL." |};
                    Api.fetched := [];
                    Api.after := w |}).
  { unfold Api.handler.
    cbn [Api.method Api.body_url String.eqb Ascii.eqb Bool.eqb negb].
    now rewrite Ht, H1, H2. }
  split; [exact Hh|]. rewrite Hh. reflexivity.
Qed.

(** A share link of Claude, which the validator accepts. *)
Lemma X3_witness :
  Api.handler (Examples.runtimeOf [])
    {| Api.method := "POST"; Api.body_url := Some "https://claude.ai/share/ab-12" |}
    Examples.world0
  = {| Api.reply :=
         {| Api.status := 400;
            Api.body :=
              Api.ErrorBody "Invalid URL. Please provide a ChatGPT conversation URL." |};
       Api.fetched := [];
       Api.after := Examples.world0 |}.
Proof.
  refine (proj1 (@X3_only_chatgpt_is_served (Examples.runtimeOf []) EmptyString
                   " https://claude.ai/share/ab-12 " Examples.world0 _ _)).
  - vm_compute. reflexivity.
  - vm_compute. discriminate.
Defined.

Section ArtifactLanguages.
Import JsString Dom Validators.

Lemma span_word s : allChars isWord (fst (span isWord s)) = true.
Proof.
  induction s as [|c s IH]; cbn [span]; [reflexivity|].
  destruct (isWord c) eqn:E; [|reflexivity].
  destruct (span isWord s) as [a b]. cbn [fst allChars] in *. now rewrite E, IH.
Qed.

Lemma matchWordAfter_word key s w :
  matchWordAfter key s = Some w -> w <> EmptyString /\ allChars isWord w = true.
Proof.
  induction s as [|c s IH]; cbn [matchWordAfter].
  - destruct (dropPrefix key EmptyString) as [r|]; [|discriminate].
    pose proof (span_word r) as Hw.
    destruct (span isWord r) as [[|a x] y]; [discriminate|].
    intros [= <-]. split; [discriminate | exact Hw].
  - destruct (dropPrefix key (String c s)) as [r|]; [|exact IH].
    pose proof (span_word r) as Hw.
    destruct (span isWord r) as [[|a x] y]; [exact IH|].
    intros [= <-]. split; [discriminate | exact Hw].
Qed.

Lemma firstPattern_word patterns className w :
  ChatGPTParser.firstPattern patterns className = Some w ->
  w <> EmptyString /\ allChars isWord w = true.
Proof.
  induction patterns as [|p rest IH]; cbn [ChatGPTParser.firstPattern]; [discriminate|].
  destruct (matchWordAfter p className) as [x|] eqn:E; [|exact IH].
  intros [= <-]. exact (matchWordAfter_word _ _ E).
Qed.

Lemma api_language_word className content l :
  Api.languageOf className content = Some l ->
  l <> EmptyString /\ allChars isWord l = true.
Proof.
  unfold Api.languageOf.
  destruct (matchWordAfter "language-" className) as [x|] eqn:E1;
    [intros [= <-]; exact (matchWordAfter_word _ _ E1)|].
  destruct (matchWordAfter "lang-" className) as [x|] eqn:E2;
    [intros [= <-]; exact (matchWordAfter_word _ _ E2)|].
  unfold Api.detectLanguageFromContent.
  repeat match goal with
  | |- context [if ?b then _ else _] =>
      destruct b; [intros [= <-]; split; [discriminate | reflexivity]|]
  end.
  discriminate.
Qed.

Lemma parser_language_word c l :
  ChatGPTParser.detectCodeLanguage c = Some l ->
  l <> EmptyString /\ allChars isWord l = true.
Proof.
  unfold ChatGPTParser.detectCodeLanguage.
  destruct (ChatGPTParser.firstPattern ChatGPTParser.languagePatterns
              (orEmpty (attr c "class"))) as [x|] eqn:E.
  - intros [= <-]. exact (firstPattern_word _ _ E).
  - apply firstPattern_word.
Qed.

End ArtifactLanguages.

(** X19.  The language of a code artifact, when it has one, is a clean
    word: it is not empty and holds only letters, digits and underscores,
    whether it was read from a class of the code element (or, in
    [ChatGPTParser], of its parent) or guessed from the code.  This holds
    of every artifact of a message, those of a content element that is
    itself the [pre] of the code included. *)
Theorem X19_artifact_language_is_a_word (e : Dom.elem) :
  Forall (fun a =>
            forall l, Api.a_language a = Some l ->
                      l <> EmptyString
                      /\ Validators.allChars JsString.isWord l = true)
    (ApiSpec.artifactsOf (Api.extractMessageContent e))
  /\ Forall (fun a =>
               forall l, Types.a_language a = Some l ->
                         l <> EmptyString
                         /\ Validators.allChars JsString.isWord l = true)
       (ParserSpec.artifactsOf (ChatGPTParser.extractMessageContent e)).
Proof.
  split.
  - rewrite ApiFacts.api_artifacts_of_content. apply Forall_forall.
    intros a Ha. apply in_flat_map in Ha as (c & _ & Ha).
    unfold Api.codeArtifact in Ha.
    destruct (_ && _); [|destruct Ha]. destruct Ha as [<-|[]].
    cbn [Api.a_language]. apply api_language_word.
  - rewrite ParserFacts.parser_artifacts_of_content. apply Forall_forall.
    intros a Ha. apply in_flat_map in Ha as (c & _ & Ha).
    unfold ChatGPTParser.codeArtifact in Ha.
    destruct (JsString.truthy _); [|destruct Ha]. destruct Ha as [<-|[]].
    cbn [Types.a_language]. apply parser_language_word.
Qed.
